(** * Evidence builder of the viewing-history dashboard

    A shallow embedding of [evidence_builder.py], of [load_data] of
    [data_layer.py], of the data pipeline and the review tab of
    [dashboard.py], of [ai_layer.py] and of [feedback_store.py], together
    with the properties stated about them.

    Modelling conventions.
    - A pandas [DataFrame] is a list of column names plus a list of rows; a row
      maps column names to cells.  A cell is missing ([NA]), a string, a
      number or a timestamp.
    - Python floats are idealised as exact rationals in lowest terms ([Qc]);
      NaN and infinities are outside the model.  The missing value of pandas
      (None / NaN) in an output field is [None].
    - Python exceptions are explicit: every function that can raise returns a
      [result].
    - A date is its day number and a timestamp a number of nanoseconds.
    - A string is the sequence of its code points, each below 256 (Latin-1);
      [str.lower] and [str.strip] are those of Python on such strings.
    - pandas is modelled by what it computes: [groupby] with its defaults
      ([sort=True], [dropna=True]), [sort_values(ascending=False)] as the
      reversal of an ascending sort of the reversed values.  The default
      sort of pandas does not fix the order of rows of equal key; the model
      takes one such order, and no statement depends on it.
    - What the code gets from outside is a parameter: [pd.to_datetime] on
      the column of watch dates, which returns the timestamps or raises; the
      completion client, [json.dumps] and [json.loads]; the clock of a
      review.  The review table is the list of its rows with the counter
      SQLite keeps for the ids; failures of the file system are left out. *)

From Stdlib Require Import ZArith QArith Qcanon Qround Qabs Lqa Lia.
From Stdlib Require Import List String Ascii Bool Permutation.
From Stdlib Require Import Sorting.Sorted.
Import ListNotations.

Local Open Scope string_scope.
Local Open Scope list_scope.
Local Open Scope Z_scope.

(** ** Exceptions *)

Inductive exn : Type :=
| KeyError (column : string)
| ZeroDivisionError
| ValueError.

Inductive result (A : Type) : Type :=
| Ok (a : A)
| Raise (e : exn).

Arguments Ok {A} a.
Arguments Raise {A} e.

Definition bind {A B : Type} (m : result A) (f : A -> result B) : result B :=
  match m with
  | Ok a => f a
  | Raise e => Raise e
  end.

Notation "x <- m ;; k" := (bind m (fun x => k))
  (at level 61, m at next level, right associativity).

(** ** Numbers *)

(** Round half to even, the rounding of Python's [round] and of numpy's
    [rint]. *)
Definition rint (x : Q) : Z :=
  let f := Qfloor x in
  match (x - inject_Z f ?= 1 # 2)%Q with
  | Lt => f
  | Gt => f + 1
  | Eq => if Z.even f then f else f + 1
  end.

Definition Qc_of_Z (z : Z) : Qc := Q2Qc (inject_Z z).

Definition hundred : Qc := Qc_of_Z 100.

(** [round(x, 2)] *)
Definition round2 (x : Qc) : Qc :=
  (Qc_of_Z (rint (x * hundred)%Qc) / hundred)%Qc.

(** A number with at most two decimals: a whole number of hundredths. *)
Definition two_decimals (x : Qc) : Prop :=
  exists k : Z, x = (Qc_of_Z k / hundred)%Qc.

Definition Qc_leb (a b : Qc) : bool := Qle_bool a b.

Definition Qc_abs (x : Qc) : Qc := Q2Qc (Qabs x).

(** Python's true division [a / b] on floats. *)
Definition pydiv (a b : Qc) : result Qc :=
  if Qc_eq_bool b 0 then Raise ZeroDivisionError else Ok (a / b)%Qc.

(** ** [_safe_pct_change] *)

Definition _safe_pct_change (current previous : Qc) : result (option Qc) :=
  if Qc_eq_bool previous 0 then Ok None
  else q <- pydiv (current - previous)%Qc previous ;;
       Ok (Some (q * hundred)%Qc).


(** ** Cells, rows and frames *)

Inductive cell : Type :=
| NA
| Str (s : string)
| Num (q : Qc)
| Time (t : Z).

Definition cell_eq_dec (a b : cell) : {a = b} + {a <> b}.
Proof.
  decide equality; [apply string_dec | apply Qc_eq_dec | apply Z.eq_dec].
Defined.

Definition cell_eqb (a b : cell) : bool :=
  if cell_eq_dec a b then true else false.

Definition notna (c : cell) : bool :=
  match c with NA => false | _ => true end.

(** The order pandas sorts the labels of one column by; labels of different
    kinds are ordered by kind. *)
Definition cell_leb (a b : cell) : bool :=
  match a, b with
  | NA, _ => true
  | _, NA => false
  | Str s, Str t => String.leb s t
  | Str _, _ => true
  | _, Str _ => false
  | Num p, Num q => Qc_leb p q
  | Num _, _ => true
  | _, Num _ => false
  | Time s, Time t => s <=? t
  end.

Definition row : Type := list (string * cell).

Fixpoint get (r : row) (c : string) : cell :=
  match r with
  | [] => NA
  | (k, v) :: r' => if String.eqb k c then v else get r' c
  end.

Record DataFrame : Type := {
  columns : list string;
  rows : list row
}.

(** [c in df.columns] *)
Definition has_column (df : DataFrame) (c : string) : bool :=
  existsb (String.eqb c) (columns df).

(** [df.empty]: one of the two axes has length 0. *)
Definition empty (df : DataFrame) : bool :=
  (List.length (rows df) =? 0)%nat || (List.length (columns df) =? 0)%nat.

(** [df[c]] *)
Definition column (df : DataFrame) (c : string) : result (list cell) :=
  if has_column df c then Ok (map (fun r => get r c) (rows df))
  else Raise (KeyError c).

(** [df[mask]]: the rows that satisfy the mask, the same columns. *)
Definition filter_rows (p : row -> bool) (df : DataFrame) : DataFrame :=
  {| columns := columns df; rows := filter p (rows df) |}.

Definition to_num (c : cell) : Qc :=
  match c with Num q => q | _ => 0%Qc end.

(** [Series.sum()] of a numeric column: missing values are skipped. *)
Definition sum (l : list cell) : Qc :=
  fold_right (fun c acc => (to_num c + acc)%Qc) 0%Qc l.

(** [Series.nunique()]: the number of distinct values, missing ones left
    out. *)
Definition nunique (l : list cell) : Z :=
  Z.of_nat (List.length (nodup cell_eq_dec (filter notna l))).

(** ** Sorting *)

Section Sort.

Context {A : Type} (leb : A -> A -> bool).

Fixpoint insert (x : A) (l : list A) : list A :=
  match l with
  | [] => [x]
  | y :: l' => if leb x y then x :: l else y :: insert x l'
  end.

(** An ascending insertion sort. *)
Fixpoint sort (l : list A) : list A :=
  match l with
  | [] => []
  | x :: l' => insert x (sort l')
  end.

End Sort.

(** [sort_values(ascending=False)]: pandas reverses the values, sorts them
    ascending and reverses the outcome.  The default sort of pandas
    ([kind="quicksort"]) does not fix which of two rows of equal key comes
    first; the model takes the order an insertion sort gives, and nothing
    that is stated below depends on the order of rows of equal key. *)
Definition sort_values_desc {A : Type} (key : A -> Qc) (l : list A) : list A :=
  rev (sort (fun a b => Qc_leb (key a) (key b)) (rev l)).

(** [head(n)], that is [iloc[:n]]: a negative [n] drops the last [-n] rows. *)
Definition head {A : Type} (n : Z) (l : list A) : list A :=
  if 0 <=? n then firstn (Z.to_nat n) l
  else firstn (List.length l - Z.to_nat (- n)) l.

(** ** Group by and sum *)

(** A series: index labels with their values, in index order. *)
Definition Series : Type := list (cell * Qc).

(** The group labels of [df.groupby(key)]: the distinct values of the column
    that are not missing, sorted. *)
Definition group_keys (df : DataFrame) (key : string) : list cell :=
  sort cell_leb
    (nodup cell_eq_dec (filter notna (map (fun r => get r key) (rows df)))).

Definition group_sum (df : DataFrame) (key value : string) (k : cell) : Qc :=
  sum (map (fun r => get r value)
         (filter (fun r => cell_eqb (get r key) k) (rows df))).

(** [df.groupby(key)[value].sum()] *)
Definition groupby_sum (df : DataFrame) (key value : string) : result Series :=
  if negb (has_column df key) then Raise (KeyError key)
  else if negb (has_column df value) then Raise (KeyError value)
  else Ok (map (fun k => (k, group_sum df key value k)) (group_keys df key)).

(** ** [_top_n] *)

Definition _top_n (df : DataFrame) (group_col value_col : string) (n : Z)
  : result (list (cell * Qc)) :=
  if negb (has_column df group_col) then Ok []
  else
    s <- groupby_sum df group_col value_col ;;
    Ok (head n (sort_values_desc snd s)).

(** ** [_period_aggregates] *)

Record PeriodAggregate : Type := {
  total_watch_minutes : Qc;
  active_users : Z;
  titles_watched : Z;
  top_genres : list (cell * Qc);
  top_titles : list (cell * Qc);
  watch_by_device : list (cell * Qc);
  watch_by_country : list (cell * Qc)
}.

Definition _period_aggregates (df : DataFrame) : result PeriodAggregate :=
  minutes <- column df "watch_duration_minutes" ;;
  users <- column df "user_id" ;;
  titles <- column df "title" ;;
  genres <- _top_n df "genre_primary" "watch_duration_minutes" 5 ;;
  top <- _top_n df "title" "watch_duration_minutes" 5 ;;
  device <- _top_n df "device_type" "watch_duration_minutes" 5 ;;
  country <- _top_n df "location_country" "watch_duration_minutes" 5 ;;
  Ok {| total_watch_minutes := round2 (sum minutes);
        active_users := nunique users;
        titles_watched := nunique titles;
        top_genres := genres;
        top_titles := top;
        watch_by_device := device;
        watch_by_country := country |}.

(** ** [_delta_table] *)

(** A row of the delta table; [name] is the entry the source stores under
    the name of the dimension. *)
Record DeltaRow : Type := {
  name : cell;
  current : Qc;
  previous : Qc;
  delta : Qc;
  pct_change : option Qc
}.

Fixpoint lookup (s : Series) (k : cell) : option Qc :=
  match s with
  | [] => None
  | (k', v) :: s' => if cell_eqb k' k then Some v else lookup s' k
  end.

(** [fillna(0.0)] on one value *)
Definition fillna0 (o : option Qc) : Qc :=
  match o with Some q => q | None => 0%Qc end.

(** The index of [pd.DataFrame({"current": a, "previous": b})]: the sorted
    union of the two indexes. *)
Definition union_index (a b : Series) : list cell :=
  sort cell_leb (nodup cell_eq_dec (map fst a ++ map fst b)).

Fixpoint mapM {A B : Type} (f : A -> result B) (l : list A) : result (list B) :=
  match l with
  | [] => Ok []
  | x :: l' => y <- f x ;; ys <- mapM f l' ;; Ok (y :: ys)
  end.

(** One row of [combined], with its delta and percent change. *)
Definition combined_row (cur_series prev_series : Series) (k : cell)
  : result DeltaRow :=
  let c := fillna0 (lookup cur_series k) in
  let p := fillna0 (lookup prev_series k) in
  pct <- _safe_pct_change c p ;;
  Ok {| name := k; current := c; previous := p; delta := (c - p)%Qc;
        pct_change := pct |}.

(** The rounding of the numeric outputs (lines 80 to 84). *)
Definition round_row (r : DeltaRow) : DeltaRow :=
  {| name := name r;
     current := round2 (current r);
     previous := round2 (previous r);
     delta := round2 (delta r);
     pct_change := option_map round2 (pct_change r) |}.

(** [combined] before it is sorted. *)
Definition combined_rows (cur_df prev_df : DataFrame) (key value : string)
  : result (list DeltaRow) :=
  cur_series <- groupby_sum cur_df key value ;;
  prev_series <- groupby_sum prev_df key value ;;
  mapM (combined_row cur_series prev_series)
       (union_index cur_series prev_series).

(** [combined] after it is sorted. *)
Definition sorted_rows (sort_by_abs : bool) (combined : list DeltaRow)
  : list DeltaRow :=
  if sort_by_abs then sort_values_desc (fun r => Qc_abs (delta r)) combined
  else sort_values_desc delta combined.

Definition _delta_table (cur_df prev_df : DataFrame) (key value : string)
    (n : Z) (sort_by_abs : bool) : result (list DeltaRow) :=
  if negb (has_column cur_df key) || negb (has_column prev_df key) then Ok []
  else
    combined <- combined_rows cur_df prev_df key value ;;
    Ok (map round_row (head n (sorted_rows sort_by_abs combined))).

(** ** [build_evidence] *)

(** A calendar day is its day number; a timestamp counts nanoseconds, as
    pandas does. *)
Definition date : Type := Z.
Definition Timestamp : Type := Z.

Definition ns_per_day : Z := 86400000000000.

(** [pd.to_datetime] of a date: midnight of that day. *)
Definition to_datetime (d : date) : Timestamp := d * ns_per_day.

(** [timedelta(days=n)] *)
Definition timedelta (n : Z) : Z := n * ns_per_day.

(** [Timedelta.days] *)
Definition td_days (d : Z) : Z := d / ns_per_day.

(** [Timestamp.date()] *)
Definition ts_date (t : Timestamp) : date := t / ns_per_day.

(** The packet holds the dates themselves; their rendering by [str] is not
    part of the model. *)
Record Filters : Type := {
  start_date : date;
  end_date : date;
  genre : string
}.

Record PreviousWindow : Type := {
  pw_start_date : date;
  pw_end_date : date;
  days : Z
}.

Record Engagement : Type := {
  minutes_per_user_current : Qc;
  minutes_per_user_previous : option Qc;
  minutes_per_user_pct_change : option Qc
}.

Record Changes : Type := {
  total_watch_minutes_pct_change : option Qc;
  active_users_pct_change : option Qc;
  titles_watched_pct_change : option Qc;
  previous_window : PreviousWindow;
  engagement : Engagement;
  driver_deltas : list (string * list DeltaRow)
}.

(** The packet; an empty dict [{}] in a block is [None]. *)
Record Evidence : Type := {
  filters : Filters;
  current_period : option PeriodAggregate;
  previous_period : option PeriodAggregate;
  changes : option Changes;
  note : string
}.

Definition window_days (start_dt end_dt : Timestamp) : Z :=
  td_days (end_dt - start_dt) + 1.

Definition prev_end_dt (start_dt : Timestamp) : Timestamp :=
  start_dt - timedelta 1.

Definition prev_start_dt (start_dt end_dt : Timestamp) : Timestamp :=
  prev_end_dt start_dt - timedelta (window_days start_dt end_dt - 1).

(** [watch_date >= t] and [watch_date <= t]; a missing date compares false. *)
Definition time_geb (c : cell) (t : Timestamp) : bool :=
  match c with Time u => t <=? u | _ => false end.

Definition time_leb (c : cell) (t : Timestamp) : bool :=
  match c with Time u => u <=? t | _ => false end.

(** [genre_primary == selected_genre] *)
Definition str_eqb (c : cell) (s : string) : bool :=
  match c with Str u => String.eqb u s | _ => false end.

(** The previous-period slice (lines 132 to 139). *)
Definition previous_slice (full_df : DataFrame) (start_dt end_dt : Timestamp)
    (selected_genre : string) : result DataFrame :=
  _ <- column full_df "watch_date" ;;
  let prev_df :=
    filter_rows (fun r => time_geb (get r "watch_date")
                            (prev_start_dt start_dt end_dt)
                          && time_leb (get r "watch_date")
                               (prev_end_dt start_dt)) full_df in
  if negb (String.eqb selected_genre "All") then
    _ <- column prev_df "genre_primary" ;;
    Ok (filter_rows (fun r => str_eqb (get r "genre_primary") selected_genre)
          prev_df)
  else Ok prev_df.

Definition the_previous_window (start_dt end_dt : Timestamp) : PreviousWindow :=
  {| pw_start_date := ts_date (prev_start_dt start_dt end_dt);
     pw_end_date := ts_date (prev_end_dt start_dt);
     days := window_days start_dt end_dt |}.

Definition note_no_data : string :=
  "No data available for the selected filters.".

Definition note_no_previous : string :=
  "Previous period comparison unavailable (no data in the prior time window).".

Definition build_evidence (full_df filtered_df : DataFrame)
    (start_date end_date : date) (selected_genre : string) : result Evidence :=
  let the_filters :=
    {| start_date := start_date; end_date := end_date;
       genre := selected_genre |} in
  if empty filtered_df then
    Ok {| filters := the_filters; current_period := None;
          previous_period := None; changes := None; note := note_no_data |}
  else
    cur <- _period_aggregates filtered_df ;;
    let start_dt := to_datetime start_date in
    let end_dt := to_datetime end_date in
    prev_df <- previous_slice full_df start_dt end_dt selected_genre ;;
    if empty prev_df then
      mpu <- pydiv (total_watch_minutes cur)
                   (Qc_of_Z (Z.max (active_users cur) 1)) ;;
      Ok {| filters := the_filters;
            current_period := Some cur;
            previous_period := None;
            changes := Some
              {| total_watch_minutes_pct_change := None;
                 active_users_pct_change := None;
                 titles_watched_pct_change := None;
                 previous_window := the_previous_window start_dt end_dt;
                 engagement :=
                   {| minutes_per_user_current := round2 mpu;
                      minutes_per_user_previous := None;
                      minutes_per_user_pct_change := None |};
                 driver_deltas := [] |};
            note := note_no_previous |}
    else
      prev <- _period_aggregates prev_df ;;
      total_pct <- _safe_pct_change (total_watch_minutes cur)
                     (total_watch_minutes prev) ;;
      users_pct <- _safe_pct_change (Qc_of_Z (active_users cur))
                     (Qc_of_Z (active_users prev)) ;;
      titles_pct <- _safe_pct_change (Qc_of_Z (titles_watched cur))
                      (Qc_of_Z (titles_watched prev)) ;;
      current_mpu <- pydiv (total_watch_minutes cur)
                       (Qc_of_Z (Z.max (active_users cur) 1)) ;;
      prev_mpu <- pydiv (total_watch_minutes prev)
                    (Qc_of_Z (Z.max (active_users prev) 1)) ;;
      mpu_pct <- _safe_pct_change current_mpu prev_mpu ;;
      d_device <- _delta_table filtered_df prev_df "device_type"
                    "watch_duration_minutes" 6 true ;;
      d_country <- _delta_table filtered_df prev_df "location_country"
                     "watch_duration_minutes" 6 true ;;
      d_title <- _delta_table filtered_df prev_df "title"
                   "watch_duration_minutes" 6 true ;;
      d_genre <- _delta_table filtered_df prev_df "genre_primary"
                   "watch_duration_minutes" 6 true ;;
      Ok {| filters := the_filters;
            current_period := Some cur;
            previous_period := Some prev;
            changes := Some
              {| total_watch_minutes_pct_change := total_pct;
                 active_users_pct_change := users_pct;
                 titles_watched_pct_change := titles_pct;
                 previous_window := the_previous_window start_dt end_dt;
                 engagement :=
                   {| minutes_per_user_current := round2 current_mpu;
                      minutes_per_user_previous := Some (round2 prev_mpu);
                      minutes_per_user_pct_change := mpu_pct |};
                 driver_deltas :=
                   [("device_type"%string, d_device);
                    ("location_country"%string, d_country);
                    ("title"%string, d_title);
                    ("genre_primary"%string, d_genre)] |};
            note := EmptyString |}.

(** ** [load_data] ([data_layer.py]) *)

(** A string is the sequence of its code points, each below 256 (Latin-1).
    The upper-case letters: A to Z, and U+00C0 to U+00DE but the
    multiplication sign U+00D7. *)
Definition is_upper (a : ascii) : bool :=
  let n := nat_of_ascii a in
  (((65 <=? n) && (n <=? 90)) || ((192 <=? n) && (n <=? 214))
   || ((216 <=? n) && (n <=? 222)))%nat.

Definition lower_ascii (a : ascii) : ascii :=
  if is_upper a then ascii_of_nat (nat_of_ascii a + 32) else a.

(** [str.lower()] *)
Fixpoint lower (s : string) : string :=
  match s with
  | EmptyString => EmptyString
  | String a s' => String (lower_ascii a) (lower s')
  end.

(** White space, as [str.isspace] and [str.strip] have it below 256: the
    space, U+0009 to U+000D, U+001C to U+001F, the next line U+0085 and the
    no-break space U+00A0. *)
Definition is_space (a : ascii) : bool :=
  let n := nat_of_ascii a in
  ((n =? 32) || ((9 <=? n) && (n <=? 13)) || ((28 <=? n) && (n <=? 31))
   || (n =? 133) || (n =? 160))%nat.

Fixpoint lstrip (s : string) : string :=
  match s with
  | EmptyString => EmptyString
  | String a s' => if is_space a then lstrip s' else s
  end.

Fixpoint rstrip (s : string) : string :=
  match s with
  | EmptyString => EmptyString
  | String a s' =>
      match rstrip s' with
      | EmptyString => if is_space a then EmptyString else String a EmptyString
      | t => String a t
      end
  end.

(** [str.strip()] *)
Definition strip (s : string) : string := rstrip (lstrip s).

(** [df.columns = df.columns.str.lower().str.strip()] *)
Definition normalize_columns (df : DataFrame) : DataFrame :=
  {| columns := map (fun c => strip (lower c)) (columns df);
     rows := map (map (fun kv => (strip (lower (fst kv)), snd kv))) (rows df) |}.

(** [df[c] = values]: in the i-th row the column [c] takes the i-th value. *)
Fixpoint set_column (c : string) (values : list cell) (l : list row)
  : list row :=
  match l with
  | [] => []
  | r :: l' => ((c, hd NA values) :: r) :: set_column c (tl values) l'
  end.

Section Loader.

(** [pd.to_datetime] on a column as the file gives it: the column of
    timestamps, or [None] when it raises, as it does on a date that does not
    parse (a [ValueError]). *)
Variable parse_dates : list cell -> option (list cell).

(** [df[c] = pd.to_datetime(df[c])] *)
Definition to_datetime_column (df : DataFrame) (c : string) : result DataFrame :=
  values <- column df c ;;
  match parse_dates values with
  | Some dates =>
      Ok {| columns := columns df; rows := set_column c dates (rows df) |}
  | None => Raise ValueError
  end.

(** [df[c] = df[c].fillna(v)] *)
Definition fillna_column (df : DataFrame) (c : string) (v : cell)
  : result DataFrame :=
  _ <- column df c ;;
  Ok {| columns := columns df;
        rows := map (fun r => match get r c with
                              | NA => (c, v) :: r
                              | _ => r
                              end) (rows df) |}.

(** [df[[c1, ..., cn]]] *)
Definition select_columns (df : DataFrame) (cs : list string) : result DataFrame :=
  match find (fun c => negb (has_column df c)) cs with
  | Some c => Raise (KeyError c)
  | None =>
      Ok {| columns := cs;
            rows := map (fun r => map (fun c => (c, get r c)) cs) (rows df) |}
  end.

Definition mem (c : string) (cs : list string) : bool :=
  existsb (String.eqb c) cs.

(** The names of the merged columns: a name on both sides gets the suffix
    [_x] on the left and [_y] on the right. *)
Definition left_name (on : string) (rcols : list string) (c : string) : string :=
  if negb (String.eqb c on) && mem c rcols then (c ++ "_x")%string else c.

Definition right_name (lcols : list string) (c : string) : string :=
  if mem c lcols then (c ++ "_y")%string else c.

(** The right columns but the key. *)
Definition right_columns (right : DataFrame) (on : string) : list string :=
  filter (fun c => negb (String.eqb c on)) (columns right).

(** The joined rows of one left row: one per matching right row, or one with
    nulls when nothing matches. *)
Definition joined_rows (left right : DataFrame) (on : string) (l : row)
  : list row :=
  let rcols := right_columns right on in
  let lpart := map (fun c => (left_name on rcols c, get l c)) (columns left) in
  match filter (fun m => cell_eqb (get m on) (get l on)) (rows right) with
  | [] => [lpart ++ map (fun c => (right_name (columns left) c, NA)) rcols]
  | ms =>
      map (fun m =>
             lpart ++ map (fun c => (right_name (columns left) c, get m c)) rcols)
          ms
  end.

(** [left.merge(right, on=on, how="left")]: the left rows, in order. *)
Definition merge_left (left right : DataFrame) (on : string) : result DataFrame :=
  if negb (has_column left on) then Raise (KeyError on)
  else if negb (has_column right on) then Raise (KeyError on)
  else
    Ok {| columns :=
            map (left_name on (right_columns right on)) (columns left)
            ++ map (right_name (columns left)) (right_columns right on);
          rows := flat_map (joined_rows left right on) (rows left) |}.

Definition movie_columns : list string :=
  ["movie_id"; "title"; "genre_primary"; "content_type"; "duration_minutes";
   "release_year"; "rating"].

(** [load_data], from the two frames read from the CSV files. *)
Definition load_data (movies_df watch_df : DataFrame) : result DataFrame :=
  let movies_df := normalize_columns movies_df in
  let watch_df := normalize_columns watch_df in
  watch_df <- to_datetime_column watch_df "watch_date" ;;
  watch_df <- fillna_column watch_df "watch_duration_minutes"
                (Num (Qc_of_Z 0)) ;;
  movies <- select_columns movies_df movie_columns ;;
  merge_left watch_df movies "movie_id".

End Loader.

(** ** The data pipeline of [dashboard.py] *)

Module dashboard.

(** [watch_date.dt.date >= d] and [watch_date.dt.date <= d]; a missing date
    compares false. *)
Definition date_geb (c : cell) (d : date) : bool :=
  match c with Time t => d <=? ts_date t | _ => false end.

Definition date_leb (c : cell) (d : date) : bool :=
  match c with Time t => ts_date t <=? d | _ => false end.

(** [filtered_df] (lines 139 to 145): the rows whose day lies between the two
    dates, then the rows of the selected genre. *)
Definition filtered_df (final_df : DataFrame) (start_date end_date : date)
    (selected_genre : string) : result DataFrame :=
  _ <- column final_df "watch_date" ;;
  let filtered :=
    filter_rows (fun r => date_geb (get r "watch_date") start_date
                          && date_leb (get r "watch_date") end_date)
      final_df in
  if negb (String.eqb selected_genre "All") then
    _ <- column filtered "genre_primary" ;;
    Ok (filter_rows (fun r => str_eqb (get r "genre_primary") selected_genre)
          filtered)
  else Ok filtered.

(** [watch_time_by_genre] (lines 157 to 161): the grouped sums in descending
    order. *)
Definition watch_time_by_genre (filtered_df : DataFrame)
  : result (list (cell * Qc)) :=
  s <- groupby_sum filtered_df "genre_primary" "watch_duration_minutes" ;;
  Ok (sort_values_desc snd s).

(** [top_titles] (lines 163 to 168): the ten titles most watched. *)
Definition top_titles (filtered_df : DataFrame) : result (list (cell * Qc)) :=
  s <- groupby_sum filtered_df "title" "watch_duration_minutes" ;;
  Ok (head 10 (sort_values_desc snd s)).

End dashboard.

(** ** The summarisation calls of [ai_layer.py] *)

Module ai_layer.

Unset Elimination Schemes.

(** JSON values: what [json.loads] returns and [json.dumps] takes. *)
Inductive json : Type :=
| JNull
| JBool (b : bool)
| JNum (q : Qc)
| JStr (s : string)
| JArr (l : list json)
| JObj (d : list (string * json)).

Set Elimination Schemes.

(** An exception: one that the client or the parser raised, or the
    [TypeError] of the interpreter. *)
Inductive error (E : Type) : Type :=
| External (e : E)
| TypeError.

Inductive outcome (E A : Type) : Type :=
| Return (a : A)
| Throw (e : error E).

Arguments External {E} e.
Arguments TypeError {E}.
Arguments Return {E A} a.
Arguments Throw {E A} e.

(** [d[k] = v] on a dict: an existing key keeps its place. *)
Fixpoint dict_set (d : list (string * json)) (k : string) (v : json)
  : list (string * json) :=
  match d with
  | [] => [(k, v)]
  | (k', v') :: d' =>
      if String.eqb k' k then (k, v) :: d' else (k', v') :: dict_set d' k v
  end.

(** [d.get(k)] *)
Fixpoint dict_get (d : list (string * json)) (k : string) : option json :=
  match d with
  | [] => None
  | (k', v) :: d' => if String.eqb k' k then Some v else dict_get d' k
  end.

(** [fallback_models or []] *)
Definition or_nil (o : option (list string)) : list string :=
  match o with Some l => l | None => [] end.

Section Client.

(** The exceptions of the environment and the states of the client. *)
Variables E S : Type.

(** One attempt: [client.chat.completions.create(model, messages,
    temperature)] followed by [resp.choices[0].message.content], which gives
    the text (possibly null) or raises. *)
Variable complete : S -> string -> json -> Qc -> (E + option string) * S.

(** [json.dumps(_, ensure_ascii=False)] and [json.loads], [None] when the
    latter raises. *)
Variable dumps : json -> string.
Variable loads : string -> option json.

(** The loop of [_call_with_fallback], from the error kept so far. *)
Fixpoint try_models (last_err : option E) (client : S) (models : list string)
    (messages : json) (temperature : Qc)
  : outcome E (option string * string) * S :=
  match models with
  | [] =>
      (match last_err with
       | Some e => Throw (External e)
       | None => Throw TypeError
       end, client)
  | m :: rest =>
      match complete client m messages temperature with
      | (inr text, client') => (Return (text, m), client')
      | (inl e, client') => try_models (Some e) client' rest messages temperature
      end
  end.

Definition _call_with_fallback (client : S) (models : list string)
    (messages : json) (temperature : Qc)
  : outcome E (option string * string) * S :=
  try_models None client models messages temperature.

(** The text as a JSON value, and its parse: [json.loads(None)] raises. *)
Definition text_json (text : option string) : json :=
  match text with Some t => JStr t | None => JNull end.

Definition parse (text : option string) : option json :=
  match text with Some t => loads t | None => None end.

(** [out["_model_used"] = model_used]; only a dict takes the assignment. *)
Definition with_model_used (out : json) (model_used : string)
  : outcome E json :=
  match out with
  | JObj d => Return (JObj (dict_set d "_model_used" (JStr model_used)))
  | _ => Throw TypeError
  end.

Definition temperature : Qc := Q2Qc (2 # 10).

Definition message (role content : string) : json :=
  JObj [("role", JStr role); ("content", JStr content)].

Definition summary_system_msg : string :=
  "You are an analytics assistant. Summarize the dashboard using ONLY the provided evidence. Be specific with numbers (percent changes, totals, top titles). Return JSON only with keys: headline, summary_bullets, key_changes, next_checks.".

Definition summary_payload (evidence : json) : json :=
  JObj [("evidence", evidence);
        ("rules",
         JArr [JStr "Do not invent numbers. Use only provided evidence.";
               JStr "summary_bullets: 3-5 bullets";
               JStr "key_changes: 2-4 bullets (use % changes if available)";
               JStr "next_checks: 2-4 bullets phrased as analytics breakdowns (by device/country/title), avoid generic marketing advice"]);
        ("output_format",
         JObj [("headline", JStr "string");
               ("summary_bullets", JArr [JStr "..."]);
               ("key_changes", JArr [JStr "..."]);
               ("next_checks", JArr [JStr "..."])])].

Definition summary_messages (evidence : json) : json :=
  JArr [message "system" summary_system_msg;
        message "user" (dumps (summary_payload evidence))].

Definition summary_fallback (text : option string) : json :=
  JObj [("headline", JStr "AI Summary");
        ("summary_bullets", JArr [text_json text]);
        ("key_changes", JArr []);
        ("next_checks", JArr [])].

(** [generate_dashboard_summary], with the client [_get_client()] returns. *)
Definition generate_dashboard_summary (client : S) (evidence : json)
    (model : string) (fallback_models : option (list string))
  : outcome E json * S :=
  let models := model :: or_nil fallback_models in
  match _call_with_fallback client models (summary_messages evidence)
          temperature with
  | (Throw e, client') => (Throw e, client')
  | (Return (text, model_used), client') =>
      let out := match parse text with
                 | Some j => j
                 | None => summary_fallback text
                 end in
      (with_model_used out model_used, client')
  end.

Definition explain_system_msg : string :=
  "You are an analytics assistant. Explain WHY the selected metric changed using ONLY the evidence. Separate facts from hypotheses. Avoid unsupported causality. Return JSON only with keys: headline, what_changed, likely_drivers, next_checks.".

Definition explain_payload (evidence : json) (metric : string) : json :=
  JObj [("metric_to_explain", JStr metric);
        ("evidence", evidence);
        ("rules",
         JArr [JStr "Do not invent numbers. Use only provided evidence.";
               JStr "what_changed: facts with numbers (2-4 bullets).";
               JStr "likely_drivers: grounded drivers referencing device/country/title (3-6 bullets).";
               JStr "If you must speculate, label it as 'Hypothesis:' and keep it minimal.";
               JStr "next_checks: 2-4 bullets phrased as analytics breakdowns (segment/compare), not generic advice."]);
        ("output_format",
         JObj [("headline", JStr "string");
               ("what_changed", JArr [JStr "..."]);
               ("likely_drivers", JArr [JStr "..."]);
               ("next_checks", JArr [JStr "..."])])].

Definition explain_messages (evidence : json) (metric : string) : json :=
  JArr [message "system" explain_system_msg;
        message "user" (dumps (explain_payload evidence metric))].

Definition explain_fallback (text : option string) : json :=
  JObj [("headline", JStr "AI Explanation");
        ("what_changed", JArr [text_json text]);
        ("likely_drivers", JArr []);
        ("next_checks", JArr [])].

(** [explain_change], with the client [_get_client()] returns. *)
Definition explain_change (client : S) (evidence : json) (metric : string)
    (model : string) (fallback_models : option (list string))
  : outcome E json * S :=
  let models := model :: or_nil fallback_models in
  match _call_with_fallback client models (explain_messages evidence metric)
          temperature with
  | (Throw e, client') => (Throw e, client')
  | (Return (text, model_used), client') =>
      let out := match parse text with
                 | Some j => j
                 | None => explain_fallback text
                 end in
      (with_model_used out model_used, client')
  end.

(** The state after every model of the list has failed in turn; [None] when
    one of them answers. *)
Fixpoint all_fail (client : S) (models : list string) (messages : json)
    (temperature : Qc) : option S :=
  match models with
  | [] => Some client
  | m :: rest =>
      match complete client m messages temperature with
      | (inr _, _) => None
      | (inl _, client') => all_fail client' rest messages temperature
      end
  end.

End Client.

End ai_layer.

(** ** The review store of [feedback_store.py] *)

Module feedback_store.

(** A row of the table [reviews]. *)
Record review : Type := {
  id : Z;
  created_at : string;
  rating : Z;
  comment : string
}.

(** The table: the largest id given so far (the counter SQLite keeps for
    [AUTOINCREMENT]) and the rows, in the order of their insertion. *)
Record table : Type := {
  sequence : Z;
  reviews : list review
}.

(** The database file, with the table or without. *)
Definition database : Type := option table.

Inductive error : Type :=
| NoSuchTable     (* OperationalError: no such table: reviews *)
| DatabaseFull    (* OperationalError: database or disk is full *)
| OverflowError.  (* Python int too large to convert to SQLite INTEGER *)

Inductive attempt (A : Type) : Type :=
| Done (a : A)
| Failed (e : error).

Arguments Done {A} a.
Arguments Failed {A} e.

Definition max_int64 : Z := 9223372036854775807.
Definition min_int64 : Z := -9223372036854775808.

Definition in_int64 (z : Z) : bool := (min_int64 <=? z) && (z <=? max_int64).

(** [CREATE TABLE IF NOT EXISTS reviews] *)
Definition init_db (db : database) : database :=
  match db with
  | Some t => Some t
  | None => Some {| sequence := 0; reviews := [] |}
  end.

(** [save_review]; [now] is [datetime.utcnow().isoformat()]. *)
Definition save_review (db : database) (now : string) (rating : Z)
    (comment : string) : attempt database :=
  match db with
  | None => Failed NoSuchTable
  | Some t =>
      if negb (in_int64 rating) then Failed OverflowError
      else if sequence t =? max_int64 then Failed DatabaseFull
      else
        let new_id := sequence t + 1 in
        Done (Some {| sequence := new_id;
                      reviews := reviews t ++
                        [{| id := new_id; created_at := now;
                            rating := rating;
                            comment := strip comment |}] |})
  end.

(** [LIMIT n]: a negative [n] is no limit. *)
Definition sql_limit {A : Type} (n : Z) (l : list A) : list A :=
  if n <? 0 then l else firstn (Z.to_nat n) l.

(** [ORDER BY id DESC] *)
Definition order_by_id_desc (l : list review) : list review :=
  sort (fun a b => id b <=? id a) l.

(** [get_recent_reviews] *)
Definition get_recent_reviews (db : database) (limit : Z)
  : attempt (list (string * Z * string)) :=
  match db with
  | None => Failed NoSuchTable
  | Some t =>
      if negb (in_int64 limit) then Failed OverflowError
      else Done (map (fun r => (created_at r, rating r, comment r))
                   (sql_limit limit (order_by_id_desc (reviews t))))
  end.

End feedback_store.

(** ** The review tab of [dashboard.py] *)

Module review_tab.

(** The tab from its first line to the list of recent reviews (lines 422 to
    441): the table is created when missing, a submitted review is saved
    unless its comment is blank, and the eight newest reviews are listed.
    [submitted] is the state of the button. *)
Definition run (db : feedback_store.database) (now : string)
    (submitted : bool) (rating : Z) (comment : string)
  : feedback_store.attempt
      (feedback_store.database * list (string * Z * string)) :=
  let db := feedback_store.init_db db in
  let saved :=
    if submitted then
      if String.eqb (strip comment) "" then feedback_store.Done db
      else feedback_store.save_review db now rating comment
    else feedback_store.Done db in
  match saved with
  | feedback_store.Failed e => feedback_store.Failed e
  | feedback_store.Done db' =>
      match feedback_store.get_recent_reviews db' 8 with
      | feedback_store.Failed e => feedback_store.Failed e
      | feedback_store.Done rows => feedback_store.Done (db', rows)
      end
  end.

End review_tab.

(** * Vocabulary of the statements *)

(** [rint x] is an integer nearest to [x]; on a tie it is the even one. *)
Definition nearest_even (x : Q) (z : Z) : Prop :=
  (inject_Z z - (1 # 2) <= x /\ x <= inject_Z z + (1 # 2) /\
   (x == inject_Z z - (1 # 2) \/ x == inject_Z z + (1 # 2) ->
    Z.even z = true))%Q.

(** A computation that does not divide by zero. *)
Definition no_zero_division {A : Type} (m : result A) : Prop :=
  m <> Raise ZeroDivisionError.

(** The columns the aggregates read without a guard. *)
Definition required_columns (df : DataFrame) : Prop :=
  has_column df "watch_duration_minutes" = true /\
  has_column df "user_id" = true /\
  has_column df "title" = true.

Definition filters_of (s e : date) (g : string) : Filters :=
  {| start_date := s; end_date := e; genre := g |}.

(** The three ways a packet is built. *)
Inductive packet_shape (full filtered : DataFrame) (s e : date) (g : string)
  : Evidence -> Prop :=
| shape_no_data :
    empty filtered = true ->
    packet_shape full filtered s e g
      {| filters := filters_of s e g; current_period := None;
         previous_period := None; changes := None; note := note_no_data |}
| shape_no_previous (cur : PeriodAggregate) (prev_df : DataFrame) :
    empty filtered = false ->
    _period_aggregates filtered = Ok cur ->
    previous_slice full (to_datetime s) (to_datetime e) g = Ok prev_df ->
    empty prev_df = true ->
    packet_shape full filtered s e g
      {| filters := filters_of s e g;
         current_period := Some cur;
         previous_period := None;
         changes := Some
           {| total_watch_minutes_pct_change := None;
              active_users_pct_change := None;
              titles_watched_pct_change := None;
              previous_window :=
                the_previous_window (to_datetime s) (to_datetime e);
              engagement :=
                {| minutes_per_user_current :=
                     round2 (total_watch_minutes cur
                             / Qc_of_Z (Z.max (active_users cur) 1))%Qc;
                   minutes_per_user_previous := None;
                   minutes_per_user_pct_change := None |};
              driver_deltas := [] |};
         note := note_no_previous |}
| shape_full (cur prev : PeriodAggregate) (prev_df : DataFrame)
    (total_pct users_pct titles_pct mpu_pct : option Qc)
    (d_device d_country d_title d_genre : list DeltaRow) :
    empty filtered = false ->
    _period_aggregates filtered = Ok cur ->
    previous_slice full (to_datetime s) (to_datetime e) g = Ok prev_df ->
    empty prev_df = false ->
    _period_aggregates prev_df = Ok prev ->
    _safe_pct_change (total_watch_minutes cur) (total_watch_minutes prev)
      = Ok total_pct ->
    _safe_pct_change (Qc_of_Z (active_users cur)) (Qc_of_Z (active_users prev))
      = Ok users_pct ->
    _safe_pct_change (Qc_of_Z (titles_watched cur))
      (Qc_of_Z (titles_watched prev)) = Ok titles_pct ->
    _safe_pct_change
      (total_watch_minutes cur / Qc_of_Z (Z.max (active_users cur) 1))%Qc
      (total_watch_minutes prev / Qc_of_Z (Z.max (active_users prev) 1))%Qc
      = Ok mpu_pct ->
    _delta_table filtered prev_df "device_type" "watch_duration_minutes" 6 true
      = Ok d_device ->
    _delta_table filtered prev_df "location_country" "watch_duration_minutes"
      6 true = Ok d_country ->
    _delta_table filtered prev_df "title" "watch_duration_minutes" 6 true
      = Ok d_title ->
    _delta_table filtered prev_df "genre_primary" "watch_duration_minutes"
      6 true = Ok d_genre ->
    packet_shape full filtered s e g
      {| filters := filters_of s e g;
         current_period := Some cur;
         previous_period := Some prev;
         changes := Some
           {| total_watch_minutes_pct_change := total_pct;
              active_users_pct_change := users_pct;
              titles_watched_pct_change := titles_pct;
              previous_window :=
                the_previous_window (to_datetime s) (to_datetime e);
              engagement :=
                {| minutes_per_user_current :=
                     round2 (total_watch_minutes cur
                             / Qc_of_Z (Z.max (active_users cur) 1))%Qc;
                   minutes_per_user_previous :=
                     Some (round2 (total_watch_minutes prev
                             / Qc_of_Z (Z.max (active_users prev) 1))%Qc);
                   minutes_per_user_pct_change := mpu_pct |};
              driver_deltas :=
                [("device_type", d_device);
                 ("location_country", d_country);
                 ("title", d_title);
                 ("genre_primary", d_genre)] |};
         note := EmptyString |}.

(** The value [k] occurs in column [key] of [df]. *)
Definition present (df : DataFrame) (key : string) (k : cell) : Prop :=
  exists r, In r (rows df) /\ get r key = k.

(** The series of [df.groupby(key)[value].sum()]. *)
Definition group_series (df : DataFrame) (key value : string) : Series :=
  map (fun k => (k, group_sum df key value k)) (group_keys df key).

(** The row of [combined] for the label [k]. *)
Definition raw_row (cur_series prev_series : Series) (k : cell) : DeltaRow :=
  let c := fillna0 (lookup cur_series k) in
  let p := fillna0 (lookup prev_series k) in
  {| name := k; current := c; previous := p; delta := (c - p)%Qc;
     pct_change := if Qc_eq_bool p 0 then None
                   else Some ((c - p) / p * hundred)%Qc |}.

Definition raw_rows (cur prev : DataFrame) (key value : string)
  : list DeltaRow :=
  let cs := group_series cur key value in
  let ps := group_series prev key value in
  map (raw_row cs ps) (union_index cs ps).

(** The key the rows of a delta table are sorted by. *)
Definition sort_key (by_abs : bool) (r : DeltaRow) : Qc :=
  if by_abs then Qc_abs (delta r) else delta r.

(** Descending order of a key. *)
Definition descending {A : Type} (key : A -> Qc) (l : list A) : Prop :=
  StronglySorted (fun a b => (key b <= key a)%Qc) l.

(** The rows whose value in column [key] is not null. *)
Definition dropna (key : string) (df : DataFrame) : DataFrame :=
  filter_rows (fun r => notna (get r key)) df.

Fixpoint last_char (s : string) : option ascii :=
  match s with
  | EmptyString => None
  | String a s' => match last_char s' with None => Some a | o => o end
  end.

(** The sum of one group over the rows of [l], as a function of the label. *)
Definition sum_of_group (key value : string) (l : list row) (k : cell) : Qc :=
  sum (map (fun r => get r value)
         (filter (fun r => cell_eqb (get r key) k) l)).

(** The way [generate_dashboard_summary] and [explain_change] end: the parsed
    answer, or the given structure around the raw text, with the model
    used. *)
Definition finish {E S : Type} (loads : string -> option ai_layer.json)
    (fallback : option string -> ai_layer.json)
    (r : ai_layer.outcome E (option string * string) * S)
  : ai_layer.outcome E ai_layer.json * S :=
  match r with
  | (ai_layer.Throw e, client') => (ai_layer.Throw e, client')
  | (ai_layer.Return (text, model_used), client') =>
      (ai_layer.with_model_used E
         match ai_layer.parse loads text with
         | Some j => j
         | None => fallback text
         end model_used, client')
  end.

(** [used] is the first of [models] that answers the [messages], with
    [text]: the models [before] it were called in turn, from the state
    [client], and raised; the call of [used] leaves the client in the state
    [client']. *)
Definition first_answer {E S : Type}
    (complete : S -> string -> ai_layer.json -> Qc -> (E + option string) * S)
    (messages : ai_layer.json) (models : list string) (client : S)
    (used : string) (text : option string) (client' : S) : Prop :=
  exists before after mid,
    models = before ++ used :: after /\
    ai_layer.all_fail E S complete client before messages ai_layer.temperature
      = Some mid /\
    complete mid used messages ai_layer.temperature = (inr text, client').

(** What a summarisation call gives, [r] with the client in the state
    [client']:
    - a dict: the answer of the first model that answers, parsed, or the
      [fallback] around the raw text when it does not parse, with the name of
      that model under [_model_used];
    - a [TypeError]: the answer of the first model that answers parses to
      something that is not a dict;
    - another exception: every model was called in turn and raised, and the
      exception is that of the last one. *)
Definition answer_of {E S : Type}
    (complete : S -> string -> ai_layer.json -> Qc -> (E + option string) * S)
    (loads : string -> option ai_layer.json)
    (fallback : option string -> ai_layer.json)
    (messages : ai_layer.json) (models : list string) (client : S)
    (r : ai_layer.outcome E ai_layer.json) (client' : S) : Prop :=
  match r with
  | ai_layer.Return out =>
      exists used text d,
        first_answer complete messages models client used text client' /\
        match ai_layer.parse loads text with
        | Some j => j
        | None => fallback text
        end = ai_layer.JObj d /\
        out = ai_layer.JObj
                (ai_layer.dict_set d "_model_used" (ai_layer.JStr used))
  | ai_layer.Throw ai_layer.TypeError =>
      exists used t j,
        first_answer complete messages models client used (Some t) client' /\
        loads t = Some j /\
        forall d, j <> ai_layer.JObj d
  | ai_layer.Throw (ai_layer.External e) =>
      exists init m mid,
        models = init ++ [m] /\
        ai_layer.all_fail E S complete client init messages
          ai_layer.temperature = Some mid /\
        complete mid m messages ai_layer.temperature = (inl e, client')
  end.

(** * Sample tables *)

Definition event_columns : list string :=
  ["user_id"; "title"; "genre_primary"; "device_type"; "location_country";
   "watch_date"; "watch_duration_minutes"].

Definition event (user title genre device : cell) (day minutes : Z) : row :=
  [("user_id", user); ("title", title); ("genre_primary", genre);
   ("device_type", device); ("location_country", Str "US");
   ("watch_date", Time (to_datetime day));
   ("watch_duration_minutes", Num (Qc_of_Z minutes))].

Definition frame (l : list row) : DataFrame :=
  {| columns := event_columns; rows := l |}.

(** Day 9: 30 minutes of title A; day 10: 10 minutes of title A. *)
Definition day9 : DataFrame :=
  frame [event (Str "u1") (Str "A") (Str "Drama") (Str "TV") 9 30].

Definition day10 : DataFrame :=
  frame [event (Str "u1") (Str "A") (Str "Drama") (Str "TV") 10 10].

Definition days_9_10 : DataFrame := frame (rows day9 ++ rows day10).

(** Scenario D: title A, 50 minutes, only in the previous period. *)
Definition only_previous : DataFrame :=
  frame [event (Str "u1") (Str "A") (Str "Drama") (Str "TV") 9 50].

Definition only_current : DataFrame :=
  frame [event (Str "u2") (Str "B") (Str "Drama") (Str "TV") 10 20].

(** Two events, one with no genre. *)
Definition null_genre_event : row :=
  event (Str "u1") NA NA (Str "TV") 10 10.

Definition null_genre_table : DataFrame :=
  frame [null_genre_event;
         event (Str "u2") (Str "B") (Str "Drama") (Str "TV") 10 5].

(** A table without the device and country columns. *)
Definition no_device_country : DataFrame :=
  {| columns := ["user_id"; "title"; "genre_primary"; "watch_date";
                 "watch_duration_minutes"];
     rows := [[("user_id", Str "u1"); ("title", Str "A");
               ("genre_primary", Str "Drama");
               ("watch_date", Time (to_datetime 10));
               ("watch_duration_minutes", Num (Qc_of_Z 10))]] |}.

(** A table without the title column. *)
Definition no_title : DataFrame :=
  {| columns := ["user_id"; "genre_primary"; "device_type";
                 "location_country"; "watch_date"; "watch_duration_minutes"];
     rows := [[("user_id", Str "u1"); ("genre_primary", Str "Drama");
               ("device_type", Str "TV"); ("location_country", Str "US");
               ("watch_date", Time (to_datetime 10));
               ("watch_duration_minutes", Num (Qc_of_Z 10))]] |}.

(** Three titles with deltas -20, 20 and 5. *)
Definition three_previous : DataFrame :=
  frame [event (Str "u1") (Str "A") (Str "Drama") (Str "TV") 9 30;
         event (Str "u1") (Str "B") (Str "Drama") (Str "TV") 9 10;
         event (Str "u1") (Str "C") (Str "Drama") (Str "TV") 9 10].

Definition three_current : DataFrame :=
  frame [event (Str "u1") (Str "A") (Str "Drama") (Str "TV") 10 10;
         event (Str "u1") (Str "B") (Str "Drama") (Str "TV") 10 30;
         event (Str "u1") (Str "C") (Str "Drama") (Str "TV") 10 15].

(** A catalog with one movie and a watch history with an unknown one. *)
Definition movies_csv : DataFrame :=
  {| columns := ["Movie_ID"; " Title"; "Genre_Primary"; "content_type";
                 "duration_minutes"; "release_year"; "rating"];
     rows := [[("Movie_ID", Str "m1"); (" Title", Str "A");
               ("Genre_Primary", Str "Drama"); ("content_type", Str "Movie");
               ("duration_minutes", Num (Qc_of_Z 90));
               ("release_year", Num (Qc_of_Z 2020)); ("rating", Str "PG")]] |}.

Definition watch_csv : DataFrame :=
  {| columns := ["user_id"; "movie_id"; "watch_date";
                 "watch_duration_minutes"; "device_type"; "location_country"];
     rows := [[("user_id", Str "u1"); ("movie_id", Str "m1");
               ("watch_date", Str "1970-01-11");
               ("watch_duration_minutes", Num (Qc_of_Z 10));
               ("device_type", Str "TV"); ("location_country", Str "US")];
              [("user_id", Str "u2"); ("movie_id", Str "m9");
               ("watch_date", Str "1970-01-11");
               ("watch_duration_minutes", NA);
               ("device_type", Str "TV"); ("location_country", Str "US")]] |}.

(** The same watch history with a date that is none. *)
Definition watch_csv_bad_date : DataFrame :=
  {| columns := columns watch_csv;
     rows := [[("user_id", Str "u1"); ("movie_id", Str "m1");
               ("watch_date", Str "soon");
               ("watch_duration_minutes", Num (Qc_of_Z 10));
               ("device_type", Str "TV"); ("location_country", Str "US")]] |}.

(** A reader of dates for the samples: it knows the eleventh of January 1970,
    which is day 10, and refuses every other string. *)
Definition sample_parse_date (c : cell) : option cell :=
  match c with
  | Str s =>
      if String.eqb s "1970-01-11" then Some (Time (to_datetime 10)) else None
  | Num _ => None
  | c => Some c
  end.

Fixpoint sample_parse_dates (l : list cell) : option (list cell) :=
  match l with
  | [] => Some []
  | c :: l' =>
      match sample_parse_date c, sample_parse_dates l' with
      | Some d, Some ds => Some (d :: ds)
      | _, _ => None
      end
  end.

(** The first row of scenario D. *)
Definition scenario_D_first : list DeltaRow :=
  [ {| name := Str "A"; current := Qc_of_Z 0; previous := Qc_of_Z 50;
       delta := Qc_of_Z (-50); pct_change := Some (Qc_of_Z (-100)) |} ].

Definition scenario_D_table : list DeltaRow :=
  [ {| name := Str "A"; current := Qc_of_Z 0; previous := Qc_of_Z 50;
       delta := Qc_of_Z (-50); pct_change := Some (Qc_of_Z (-100)) |};
    {| name := Str "B"; current := Qc_of_Z 20; previous := Qc_of_Z 0;
       delta := Qc_of_Z 20; pct_change := None |} ].

(** ** Equality of results, to evaluate the functions on the samples *)

Definition option_eq_dec {A : Type} (d : forall a b : A, {a = b} + {a <> b})
  (x y : option A) : {x = y} + {x <> y}.
Proof. decide equality. Defined.

Definition exn_eq_dec (a b : exn) : {a = b} + {a <> b}.
Proof. decide equality. apply string_dec. Defined.

Definition result_eq_dec {A : Type} (d : forall a b : A, {a = b} + {a <> b})
  (x y : result A) : {x = y} + {x <> y}.
Proof. decide equality. apply exn_eq_dec. Defined.

Definition DeltaRow_eq_dec (a b : DeltaRow) : {a = b} + {a <> b}.
Proof.
  decide equality; try apply Qc_eq_dec; try apply cell_eq_dec.
  apply option_eq_dec, Qc_eq_dec.
Defined.

Definition group_eq_dec (a b : cell * Qc) : {a = b} + {a <> b}.
Proof. decide equality; [apply Qc_eq_dec | apply cell_eq_dec]. Defined.

Definition row_eq_dec (a b : row) : {a = b} + {a <> b}.
Proof.
  apply list_eq_dec. decide equality; [apply cell_eq_dec | apply string_dec].
Defined.

Definition DataFrame_eq_dec (a b : DataFrame) : {a = b} + {a <> b}.
Proof.
  decide equality; [apply (list_eq_dec row_eq_dec) |
                    apply (list_eq_dec string_dec)].
Defined.

(** ** Vocabulary of the further properties *)

(** The sum of the values of a breakdown. *)
Definition total (l : list (cell * Qc)) : Qc :=
  fold_right (fun g acc => (snd g + acc)%Qc) 0%Qc l.

(** Every watch date is a day at midnight, as when the file holds dates
    without a time. *)
Definition date_only (df : DataFrame) : Prop :=
  forall r t, In r (rows df) -> get r "watch_date" = Time t ->
              t mod ns_per_day = 0.

(** The names of the four driver dimensions. *)
Definition driver_dimensions : list string :=
  ["device_type"; "location_country"; "title"; "genre_primary"].

(** The cells of the watch dates, as read from the file. *)
Definition watch_dates (watch_df : DataFrame) : list cell :=
  map (fun r => get r "watch_date") (rows (normalize_columns watch_df)).

(** The watch history as the loader passes it to the join: normalised column
    names, the watch dates converted to [dates], missing durations filled
    with 0. *)
Definition filled_watch (dates : list cell) (watch_df : DataFrame)
  : DataFrame :=
  {| columns := columns (normalize_columns watch_df);
     rows := map (fun r => match get r "watch_duration_minutes" with
                           | NA => ("watch_duration_minutes", Num (Qc_of_Z 0))
                                   :: r
                           | _ => r
                           end)
               (set_column "watch_date" dates
                  (rows (normalize_columns watch_df))) |}.

(** The catalog as the loader passes it to the join. *)
Definition selected_movies (movies_df : DataFrame) : DataFrame :=
  {| columns := movie_columns;
     rows := map (fun r => map (fun c => (c, get r c)) movie_columns)
               (rows (normalize_columns movies_df)) |}.

(** The number of catalog rows of a movie id. *)
Definition catalog_matches (movies_df : DataFrame) (k : cell) : nat :=
  List.length (filter (fun m => cell_eqb (get m "movie_id") k)
                 (rows (normalize_columns movies_df))).

(** No movie id occurs twice in the catalog. *)
Definition unique_movie_ids (movies_df : DataFrame) : Prop :=
  NoDup (map (fun m => get m "movie_id") (rows (normalize_columns movies_df))).

(** The columns [load_data] reads. *)
Definition loadable (movies_df watch_df : DataFrame) : Prop :=
  has_column (normalize_columns watch_df) "watch_date" = true /\
  has_column (normalize_columns watch_df) "watch_duration_minutes" = true /\
  has_column (normalize_columns watch_df) "movie_id" = true /\
  forall c, In c movie_columns ->
            has_column (normalize_columns movies_df) c = true.

(** The watch minutes of the events, each counted once per catalog row of its
    movie id, and once when there is none. *)
Definition minutes_by_matches (movies_df watch_df : DataFrame) : Qc :=
  fold_right
    (fun l acc =>
       (Qc_of_Z (Z.of_nat
                   (Nat.max 1 (catalog_matches movies_df (get l "movie_id"))))
        * to_num (get l "watch_duration_minutes") + acc)%Qc)
    0%Qc (rows (normalize_columns watch_df)).

(** The ids of a table grow with the insertions and stay within the
    counter. *)
Definition well_formed (t : feedback_store.table) : Prop :=
  StronglySorted (fun a b => feedback_store.id a < feedback_store.id b)
    (feedback_store.reviews t) /\
  Forall (fun r => 1 <= feedback_store.id r <= feedback_store.sequence t)
    (feedback_store.reviews t) /\
  0 <= feedback_store.sequence t.

Definition well_formed_db (db : feedback_store.database) : Prop :=
  match db with Some t => well_formed t | None => True end.

(** What the listing shows of a review. *)
Definition shown (r : feedback_store.review) : string * Z * string :=
  (feedback_store.created_at r, feedback_store.rating r,
   feedback_store.comment r).

(** The reviews of a database, none when the table is missing. *)
Definition stored (db : feedback_store.database) : list feedback_store.review :=
  match db with Some t => feedback_store.reviews t | None => [] end.

Definition first_char (s : string) : option ascii :=
  match s with EmptyString => None | String a _ => Some a end.

(** ** Samples of the further properties *)

(** A client whose small model is over its rate limit and whose other models
    answer with plain text; its state counts the calls. *)
Definition sample_complete (calls : nat) (model : string)
    (messages : ai_layer.json) (temperature : Qc)
  : (string + option string) * nat :=
  if String.eqb model "gpt-4o-mini" then (inl "rate limit", S calls)
  else (inr (Some "Watch time grew."), S calls).

Definition sample_dumps (j : ai_layer.json) : string := "{}".

Definition sample_loads (s : string) : option ai_layer.json := None.

(** What the sample client makes of a summary: the second model answers with
    text that is no JSON. *)
Definition sample_summary : ai_layer.json :=
  ai_layer.JObj
    [("headline", ai_layer.JStr "AI Summary");
     ("summary_bullets", ai_layer.JArr [ai_layer.JStr "Watch time grew."]);
     ("key_changes", ai_layer.JArr []);
     ("next_checks", ai_layer.JArr []);
     ("_model_used", ai_layer.JStr "gpt-4o")].

(** A store with two reviews. *)
Definition two_reviews : feedback_store.database :=
  Some {| feedback_store.sequence := 2;
          feedback_store.reviews :=
            [ {| feedback_store.id := 1;
                 feedback_store.created_at := "2024-01-01T10:00:00";
                 feedback_store.rating := 5;
                 feedback_store.comment := "Clear charts" |};
              {| feedback_store.id := 2;
                 feedback_store.created_at := "2024-01-02T10:00:00";
                 feedback_store.rating := 3;
                 feedback_store.comment := "Slow to load" |} ] |}.

(** * Facts about rounding *)

Section Rounding.

Local Open Scope Q_scope.

Lemma rint_nearest (x : Q) : nearest_even x (rint x).
Proof.
  unfold nearest_even, rint.
  pose proof (Qfloor_le x) as Hlo.
  pose proof (Qlt_floor x) as Hhi.
  rewrite inject_Z_plus in Hhi.
  change (inject_Z 1) with 1 in Hhi.
  destruct (x - inject_Z (Qfloor x) ?= 1 # 2) eqn:Hc.
  - apply Qeq_alt in Hc.
    destruct (Z.even (Qfloor x)) eqn:Hev.
    + repeat split; try lra. intros _. exact Hev.
    + rewrite inject_Z_plus. change (inject_Z 1) with 1.
      repeat split; try lra. intros _.
      rewrite Z.even_add, Hev. reflexivity.
  - apply Qlt_alt in Hc.
    repeat split; try lra; try (intros [H | H]; lra).
  - apply Qgt_alt in Hc.
    rewrite inject_Z_plus. change (inject_Z 1) with 1.
    repeat split; try lra; try (intros [H | H]; lra).
Qed.

Lemma inject_Z_le_succ (a b : Z) : inject_Z a <= inject_Z b + 1 -> (a <= b + 1)%Z.
Proof.
  intros H. change 1 with (inject_Z 1) in H.
  rewrite <- inject_Z_plus in H. now rewrite Zle_Qle.
Qed.

Lemma nearest_even_mono (x y : Q) (a b : Z) :
  nearest_even x a -> nearest_even y b -> x <= y -> (a <= b)%Z.
Proof.
  intros (Ha1 & Ha2 & Ha3) (Hb1 & Hb2 & Hb3) Hxy.
  assert (Hle : (a <= b + 1)%Z) by (apply inject_Z_le_succ; lra).
  destruct (Z.eq_dec a (b + 1)) as [E | NE]; [| lia].
  exfalso. subst a.
  rewrite inject_Z_plus in Ha1, Ha3. change (inject_Z 1) with 1 in Ha1, Ha3.
  assert (Hx : x == inject_Z b + 1 - (1 # 2)) by lra.
  assert (Hy : y == inject_Z b + (1 # 2)) by lra.
  specialize (Ha3 (or_introl Hx)). specialize (Hb3 (or_intror Hy)).
  rewrite Z.even_add, Hb3 in Ha3. discriminate.
Qed.

Lemma nearest_even_unique (x y : Q) (a b : Z) :
  nearest_even x a -> nearest_even y b -> x == y -> a = b.
Proof.
  intros Ha Hb E. apply Z.le_antisymm.
  - apply (nearest_even_mono x y); auto. lra.
  - apply (nearest_even_mono y x); auto. lra.
Qed.

Lemma rint_comp (x y : Q) : x == y -> rint x = rint y.
Proof.
  intros E. apply (nearest_even_unique x y); auto using rint_nearest.
Qed.

Lemma rint_mono (x y : Q) : x <= y -> (rint x <= rint y)%Z.
Proof.
  intros H. apply (nearest_even_mono x y); auto using rint_nearest.
Qed.

Lemma rint_opp (x : Q) : rint (- x) = (- rint x)%Z.
Proof.
  apply (nearest_even_unique (- x) (- x)); [apply rint_nearest | | reflexivity].
  destruct (rint_nearest x) as (H1 & H2 & H3).
  unfold nearest_even. rewrite inject_Z_opp.
  repeat split; try lra.
  intros [H | H]; rewrite Z.even_opp; apply H3; [right | left]; lra.
Qed.

End Rounding.

(** * Facts about exceptions *)

Lemma bind_Ok {A B : Type} (m : result A) (f : A -> result B) (b : B) :
  bind m f = Ok b -> exists a, m = Ok a /\ f a = Ok b.
Proof.
  destruct m as [a | e]; simpl; intros H; [eauto | discriminate].
Qed.

Ltac inv_bind H :=
  let a := fresh "a" in
  let Ha := fresh "Ha" in
  apply bind_Ok in H; destruct H as (a & Ha & H).

Lemma no_zero_division_bind {A B : Type} (m : result A) (f : A -> result B) :
  no_zero_division m -> (forall a, no_zero_division (f a)) ->
  no_zero_division (bind m f).
Proof.
  unfold no_zero_division. destruct m as [a | e]; simpl; intros Hm Hf.
  - apply Hf.
  - intros E. apply Hm. inversion E. reflexivity.
Qed.

Lemma no_zero_division_Ok {A : Type} (a : A) : no_zero_division (Ok a).
Proof. discriminate. Qed.

(** * Facts about sorting *)

Section SortFacts.

Context {A : Type} (leb : A -> A -> bool).

Lemma insert_perm (x : A) (l : list A) : Permutation (insert leb x l) (x :: l).
Proof.
  induction l as [| y l IH]; simpl; [reflexivity |].
  destruct (leb x y); [reflexivity |].
  rewrite IH. apply perm_swap.
Qed.

Lemma sort_perm (l : list A) : Permutation (sort leb l) l.
Proof.
  induction l as [| x l IH]; simpl; [reflexivity |].
  rewrite insert_perm. now constructor.
Qed.

Lemma In_sort (x : A) (l : list A) : In x (sort leb l) <-> In x l.
Proof.
  split; apply Permutation_in; [| symmetry]; apply sort_perm.
Qed.

Hypothesis leb_total : forall a b, leb a b = true \/ leb b a = true.
Hypothesis leb_trans :
  forall a b c, leb a b = true -> leb b c = true -> leb a c = true.

Lemma insert_sorted (x : A) (l : list A) :
  StronglySorted (fun a b => leb a b = true) l ->
  StronglySorted (fun a b => leb a b = true) (insert leb x l).
Proof.
  induction 1 as [| y l Hs IH Hy]; simpl.
  - repeat constructor.
  - destruct (leb x y) eqn:Hxy.
    + constructor; [now constructor |].
      constructor; [exact Hxy |].
      eapply Forall_impl; [| exact Hy]. intros z. now apply leb_trans.
    + constructor; [exact IH |].
      assert (Hyx : leb y x = true)
        by (destruct (leb_total x y); congruence).
      rewrite Forall_forall in *. intros z Hz.
      apply (Permutation_in _ (insert_perm x l)) in Hz.
      destruct Hz as [<- | Hz]; auto.
Qed.

Lemma sort_sorted (l : list A) :
  StronglySorted (fun a b => leb a b = true) (sort leb l).
Proof.
  induction l as [| x l IH]; simpl; [constructor | now apply insert_sorted].
Qed.

End SortFacts.

Lemma StronglySorted_snoc {A : Type} (R : A -> A -> Prop) (l : list A) (x : A) :
  StronglySorted R l -> Forall (fun y => R y x) l -> StronglySorted R (l ++ [x]).
Proof.
  induction 1 as [| y l Hs IH Hy]; simpl; intros Hx.
  - repeat constructor.
  - inversion Hx; subst. constructor; [now apply IH |].
    apply Forall_app. split; [exact Hy | now constructor].
Qed.

Lemma StronglySorted_rev {A : Type} (R : A -> A -> Prop) (l : list A) :
  StronglySorted R l -> StronglySorted (fun a b => R b a) (rev l).
Proof.
  induction 1 as [| y l Hs IH Hy]; simpl; [constructor |].
  apply StronglySorted_snoc; [exact IH |].
  apply Forall_rev. exact Hy.
Qed.

Lemma In_firstn_In {A : Type} (n : nat) (l : list A) (x : A) :
  In x (firstn n l) -> In x l.
Proof.
  intros H. rewrite <- (firstn_skipn n l). apply in_or_app. now left.
Qed.

Lemma StronglySorted_firstn {A : Type} (R : A -> A -> Prop) (n : nat) (l : list A) :
  StronglySorted R l -> StronglySorted R (firstn n l).
Proof.
  intros H. revert n. induction H as [| y l Hs IH Hy]; intros [| n]; simpl;
    try constructor; auto.
  rewrite Forall_forall in *. intros z Hz. apply Hy.
  eapply (In_firstn_In); eauto.
Qed.

Lemma StronglySorted_map {A B : Type} (R : A -> A -> Prop) (S : B -> B -> Prop)
    (f : A -> B) (l : list A) :
  (forall a b, R a b -> S (f a) (f b)) ->
  StronglySorted R l -> StronglySorted S (map f l).
Proof.
  intros Hf. induction 1 as [| y l Hs IH Hy]; simpl; constructor; auto.
  rewrite Forall_forall in *. intros z Hz.
  apply in_map_iff in Hz. destruct Hz as (a & <- & Ha). auto.
Qed.

Lemma StronglySorted_impl {A : Type} (R S : A -> A -> Prop) (l : list A) :
  (forall a b, R a b -> S a b) -> StronglySorted R l -> StronglySorted S l.
Proof.
  intros HRS. induction 1 as [| y l Hs IH Hy]; constructor; auto.
  eapply Forall_impl; [| exact Hy]. intros z. apply HRS.
Qed.

(** ** [sort_values(ascending=False)] *)

Section SortValues.

Context {A : Type} (key : A -> Qc).

Lemma Qc_leb_total (a b : Qc) : Qc_leb a b = true \/ Qc_leb b a = true.
Proof.
  unfold Qc_leb. rewrite !Qle_bool_iff.
  destruct (Qlt_le_dec a b) as [H | H]; [left; now apply Qlt_le_weak | now right].
Qed.

Lemma Qc_leb_trans (a b c : Qc) :
  Qc_leb a b = true -> Qc_leb b c = true -> Qc_leb a c = true.
Proof.
  unfold Qc_leb. rewrite !Qle_bool_iff. apply Qle_trans.
Qed.

Lemma Qc_leb_le (a b : Qc) : Qc_leb a b = true <-> (a <= b)%Qc.
Proof. unfold Qc_leb. apply Qle_bool_iff. Qed.

Lemma sort_values_desc_perm (l : list A) :
  Permutation (sort_values_desc key l) l.
Proof.
  unfold sort_values_desc.
  rewrite <- Permutation_rev, sort_perm, <- Permutation_rev. reflexivity.
Qed.

Lemma In_sort_values_desc (x : A) (l : list A) :
  In x (sort_values_desc key l) <-> In x l.
Proof.
  split; apply Permutation_in; [| symmetry]; apply sort_values_desc_perm.
Qed.

Lemma sort_values_desc_length (l : list A) :
  List.length (sort_values_desc key l) = List.length l.
Proof. apply Permutation_length, sort_values_desc_perm. Qed.

(** The outcome is in descending order of the key. *)
Lemma sort_values_desc_sorted (l : list A) :
  StronglySorted (fun a b => (key b <= key a)%Qc) (sort_values_desc key l).
Proof.
  unfold sort_values_desc.
  apply (StronglySorted_rev (fun a b => (key a <= key b)%Qc)).
  apply (StronglySorted_impl
           (fun a b => Qc_leb (key a) (key b) = true)).
  - intros a b H. now apply Qc_leb_le.
  - apply (sort_sorted (fun a b => Qc_leb (key a) (key b))).
    + intros a b. apply Qc_leb_total.
    + intros a b c. apply Qc_leb_trans.
Qed.

End SortValues.

(** * Facts about [head] *)

Lemma head_nonneg {A : Type} (n : Z) (l : list A) :
  0 <= n -> head n l = firstn (Z.to_nat n) l.
Proof.
  intros H. unfold head. destruct (0 <=? n) eqn:E; [reflexivity | lia].
Qed.

Lemma head_length {A : Type} (n : Z) (l : list A) :
  0 <= n -> Z.of_nat (List.length (head n l)) <= n.
Proof.
  intros H. rewrite head_nonneg by assumption.
  rewrite length_firstn. lia.
Qed.

Lemma In_head {A : Type} (n : Z) (l : list A) (x : A) :
  In x (head n l) -> In x l.
Proof.
  unfold head. destruct (0 <=? n); apply In_firstn_In.
Qed.

Lemma head_all {A : Type} (n : Z) (l : list A) :
  Z.of_nat (List.length l) <= n -> head n l = l.
Proof.
  intros H. rewrite head_nonneg by lia. apply firstn_all2. lia.
Qed.

(** * Facts about [round2] *)

Lemma this_Q2Qc (q : Q) : (this (Q2Qc q) == q)%Q.
Proof. apply Qred_correct. Qed.

Lemma Qc_of_Z_opp (z : Z) : Qc_of_Z (- z) = (- Qc_of_Z z)%Qc.
Proof.
  unfold Qc_of_Z, Qcopp. apply Qc_is_canon.
  rewrite !this_Q2Qc, inject_Z_opp. reflexivity.
Qed.

Lemma Qc_of_Z_le (a b : Z) : a <= b -> (Qc_of_Z a <= Qc_of_Z b)%Qc.
Proof.
  intros H. unfold Qc_of_Z, Qcle.
  rewrite !this_Q2Qc. now rewrite <- Zle_Qle.
Qed.

Lemma hundred_pos : (0 < hundred)%Qc.
Proof. reflexivity. Qed.

Lemma hundred_nonzero : hundred <> 0%Qc.
Proof. discriminate. Qed.

Lemma round2_two_decimals (x : Qc) : two_decimals (round2 x).
Proof. exists (rint (x * hundred)%Qc). reflexivity. Qed.

Lemma round2_0 : round2 0 = 0%Qc.
Proof. apply Qc_is_canon. reflexivity. Qed.

Lemma round2_opp (x : Qc) : round2 (- x) = (- round2 x)%Qc.
Proof.
  unfold round2.
  replace (- x * hundred)%Qc with (- (x * hundred))%Qc by ring.
  assert (E : rint (- (x * hundred))%Qc = - rint (x * hundred)%Qc).
  { rewrite <- rint_opp. apply rint_comp. unfold Qcopp. apply this_Q2Qc. }
  rewrite E, Qc_of_Z_opp. field. apply hundred_nonzero.
Qed.

Lemma Qcdiv_le_hundred (a b : Qc) :
  (a <= b)%Qc -> (a / hundred <= b / hundred)%Qc.
Proof.
  intros H. unfold Qcdiv. apply Qcmult_le_compat_r; [exact H |].
  apply Qclt_le_weak. reflexivity.
Qed.

Lemma round2_mono (x y : Qc) : (x <= y)%Qc -> (round2 x <= round2 y)%Qc.
Proof.
  intros H. unfold round2. apply Qcdiv_le_hundred, Qc_of_Z_le, rint_mono.
  change ((x * hundred)%Qc <= (y * hundred)%Qc)%Qc.
  apply Qcmult_le_compat_r; [exact H |].
  apply Qclt_le_weak, hundred_pos.
Qed.

Lemma Qc_abs_nonneg (x : Qc) : (0 <= x)%Qc -> Qc_abs x = x.
Proof.
  intros H. unfold Qc_abs. apply Qc_is_canon.
  rewrite this_Q2Qc. apply Qabs_pos. exact H.
Qed.

Lemma Qc_abs_nonpos (x : Qc) : (x <= 0)%Qc -> Qc_abs x = (- x)%Qc.
Proof.
  intros H. unfold Qc_abs, Qcopp. apply Qc_is_canon.
  rewrite !this_Q2Qc. apply Qabs_neg. exact H.
Qed.

Lemma round2_abs (x : Qc) : Qc_abs (round2 x) = round2 (Qc_abs x).
Proof.
  destruct (Qclt_le_dec x 0) as [H | H].
  - apply Qclt_le_weak in H.
    rewrite (Qc_abs_nonpos x H), round2_opp.
    apply Qc_abs_nonpos. rewrite <- round2_0. now apply round2_mono.
  - rewrite (Qc_abs_nonneg x H).
    apply Qc_abs_nonneg. rewrite <- round2_0. now apply round2_mono.
Qed.

(** * Percent change and division *)

Lemma Qc_eq_bool_true (a b : Qc) : Qc_eq_bool a b = true <-> a = b.
Proof.
  split; [apply Qc_eq_bool_correct |].
  intros ->. unfold Qc_eq_bool. destruct (Qc_eq_dec b b); congruence.
Qed.

Lemma Qc_eq_bool_false (a b : Qc) : Qc_eq_bool a b = false <-> a <> b.
Proof.
  unfold Qc_eq_bool. destruct (Qc_eq_dec a b); split; congruence.
Qed.

Lemma pydiv_nonzero (a b : Qc) : b <> 0%Qc -> pydiv a b = Ok (a / b)%Qc.
Proof.
  intros H. unfold pydiv. apply Qc_eq_bool_false in H. now rewrite H.
Qed.

Lemma safe_pct_change_eq (current previous : Qc) :
  _safe_pct_change current previous =
  if Qc_eq_bool previous 0 then Ok None
  else Ok (Some ((current - previous) / previous * hundred)%Qc).
Proof.
  unfold _safe_pct_change, pydiv.
  destruct (Qc_eq_bool previous 0); reflexivity.
Qed.

Lemma safe_pct_change_total (current previous : Qc) :
  exists o, _safe_pct_change current previous = Ok o.
Proof.
  rewrite safe_pct_change_eq. destruct (Qc_eq_bool previous 0); eauto.
Qed.

Lemma Qc_of_Z_nonzero (z : Z) : z <> 0 -> Qc_of_Z z <> 0%Qc.
Proof.
  intros Hz E. apply Hz. unfold Qc_of_Z in E.
  apply Q2Qc_eq_iff in E. unfold Qeq in E. simpl in E. lia.
Qed.

(** The divisor [max(active_users, 1)] is never zero. *)
Lemma pydiv_max (a : Qc) (users : Z) :
  pydiv a (Qc_of_Z (Z.max users 1)) = Ok (a / Qc_of_Z (Z.max users 1))%Qc.
Proof. apply pydiv_nonzero, Qc_of_Z_nonzero. lia. Qed.

Create HintDb nzd.

Lemma nzd_column (df : DataFrame) (c : string) : no_zero_division (column df c).
Proof. unfold column. destruct (has_column df c); discriminate. Qed.

Lemma nzd_groupby_sum (df : DataFrame) (key value : string) :
  no_zero_division (groupby_sum df key value).
Proof.
  unfold groupby_sum.
  destruct (negb (has_column df key)); [discriminate |].
  destruct (negb (has_column df value)); discriminate.
Qed.

Lemma nzd_safe_pct_change (c p : Qc) : no_zero_division (_safe_pct_change c p).
Proof. destruct (safe_pct_change_total c p) as [o ->]. discriminate. Qed.

Lemma nzd_pydiv_max (a : Qc) (users : Z) :
  no_zero_division (pydiv a (Qc_of_Z (Z.max users 1))).
Proof. rewrite pydiv_max. discriminate. Qed.

#[local] Hint Resolve nzd_column nzd_groupby_sum nzd_safe_pct_change
  nzd_pydiv_max @no_zero_division_Ok : nzd.

Ltac nzd :=
  repeat (first
    [ apply no_zero_division_Ok
    | solve [auto with nzd]
    | apply no_zero_division_bind; [| intros ?]
    | match goal with
      | |- no_zero_division (if ?b then _ else _) => destruct b
      end ]).

Lemma nzd_top_n (df : DataFrame) (g v : string) (n : Z) :
  no_zero_division (_top_n df g v n).
Proof. unfold _top_n. nzd. Qed.

#[local] Hint Resolve nzd_top_n : nzd.

Lemma nzd_period_aggregates (df : DataFrame) :
  no_zero_division (_period_aggregates df).
Proof. unfold _period_aggregates. nzd. Qed.

Lemma nzd_mapM {A B : Type} (f : A -> result B) (l : list A) :
  (forall x, no_zero_division (f x)) -> no_zero_division (mapM f l).
Proof.
  intros Hf. induction l as [| x l IH]; simpl; nzd.
Qed.

Lemma nzd_delta_table (cur prev : DataFrame) (key value : string) (n : Z)
    (sort_by_abs : bool) :
  no_zero_division (_delta_table cur prev key value n sort_by_abs).
Proof.
  unfold _delta_table, combined_rows. nzd.
  apply nzd_mapM. intros k. unfold combined_row. nzd.
Qed.

Lemma nzd_previous_slice (full : DataFrame) (s e : Timestamp) (g : string) :
  no_zero_division (previous_slice full s e g).
Proof. unfold previous_slice. nzd. Qed.

#[local] Hint Resolve nzd_period_aggregates nzd_delta_table
  nzd_previous_slice : nzd.

Lemma nzd_build_evidence (full filtered : DataFrame) (s e : date) (g : string) :
  no_zero_division (build_evidence full filtered s e g).
Proof. unfold build_evidence. nzd. Qed.

(** * The shape of the evidence packet *)

Lemma top_n_total (df : DataFrame) (g v : string) (n : Z) :
  has_column df v = true -> exists l, _top_n df g v n = Ok l.
Proof.
  intros Hv. unfold _top_n, groupby_sum.
  destruct (has_column df g); simpl; [| eauto].
  rewrite Hv. simpl. eauto.
Qed.

Lemma period_aggregates_total (df : DataFrame) :
  required_columns df -> exists a, _period_aggregates df = Ok a.
Proof.
  intros (Hm & Hu & Ht). unfold _period_aggregates, column.
  rewrite Hm, Hu, Ht. simpl.
  destruct (top_n_total df "genre_primary" _ 5 Hm) as [l1 ->].
  destruct (top_n_total df "title" _ 5 Hm) as [l2 ->].
  destruct (top_n_total df "device_type" _ 5 Hm) as [l3 ->].
  destruct (top_n_total df "location_country" _ 5 Hm) as [l4 ->].
  simpl. eauto.
Qed.

Lemma period_aggregates_total_minutes (df : DataFrame) (a : PeriodAggregate) :
  _period_aggregates df = Ok a ->
  total_watch_minutes a =
    round2 (sum (map (fun r => get r "watch_duration_minutes") (rows df))).
Proof.
  unfold _period_aggregates. intros H.
  inv_bind H. unfold column in Ha.
  destruct (has_column df "watch_duration_minutes"); [| discriminate].
  inversion Ha; subst.
  do 6 inv_bind H. inversion H; subst. reflexivity.
Qed.

Lemma build_evidence_shape (full filtered : DataFrame) (s e : date)
    (g : string) (ev : Evidence) :
  build_evidence full filtered s e g = Ok ev ->
  packet_shape full filtered s e g ev.
Proof.
  unfold build_evidence. intros H.
  destruct (empty filtered) eqn:Hempty.
  - inversion H; subst. now apply shape_no_data.
  - inv_bind H. rename a into cur, Ha into Hcur.
    inv_bind H. rename a into prev_df, Ha into Hslice.
    destruct (empty prev_df) eqn:Hprev.
    + rewrite pydiv_max in H. simpl in H. inversion H; subst.
      now apply shape_no_previous with (prev_df := prev_df).
    + inv_bind H. rename a into prev, Ha into Hagg.
      inv_bind H. rename a into total_pct, Ha into Htotal.
      inv_bind H. rename a into users_pct, Ha into Husers.
      inv_bind H. rename a into titles_pct, Ha into Htitles.
      rewrite !pydiv_max in H. simpl in H.
      inv_bind H. rename a into mpu_pct, Ha into Hmpu.
      inv_bind H. rename a into d1, Ha into Hd1.
      inv_bind H. rename a into d2, Ha into Hd2.
      inv_bind H. rename a into d3, Ha into Hd3.
      inv_bind H. rename a into d4, Ha into Hd4.
      inversion H; subst.
      now apply shape_full with (prev_df := prev_df).
Qed.

(** * The previous-period window *)

Lemma window_days_dates (s e : date) :
  window_days (to_datetime s) (to_datetime e) = e - s + 1.
Proof.
  unfold window_days, td_days, to_datetime.
  rewrite <- Z.mul_sub_distr_r.
  rewrite Z.div_mul by (unfold ns_per_day; lia). reflexivity.
Qed.

Lemma prev_end_dt_dates (s : date) :
  prev_end_dt (to_datetime s) = to_datetime (s - 1).
Proof. unfold prev_end_dt, to_datetime, timedelta, ns_per_day. lia. Qed.

Lemma prev_start_dt_dates (s e : date) :
  prev_start_dt (to_datetime s) (to_datetime e)
  = to_datetime (s - 1 - (e - s + 1 - 1)).
Proof.
  unfold prev_start_dt. rewrite window_days_dates, prev_end_dt_dates.
  unfold to_datetime, timedelta, ns_per_day. lia.
Qed.

Lemma ts_date_to_datetime (d : date) : ts_date (to_datetime d) = d.
Proof.
  unfold ts_date, to_datetime. apply Z.div_mul. unfold ns_per_day. lia.
Qed.

Lemma the_previous_window_dates (s e : date) :
  the_previous_window (to_datetime s) (to_datetime e) =
  {| pw_start_date := s - 1 - (e - s + 1 - 1);
     pw_end_date := s - 1;
     days := e - s + 1 |}.
Proof.
  unfold the_previous_window.
  rewrite prev_start_dt_dates, prev_end_dt_dates, window_days_dates,
    !ts_date_to_datetime.
  reflexivity.
Qed.

(** C1. The previous window: windowDays = (end - start) + 1, prevEnd =
    start - 1 day, prevStart = prevEnd - (windowDays - 1) days; it has as many
    days as the current window, ends the day before the current start, and
    the [previous_window] block of the packet carries these dates and this
    count.  (The equations hold for any two dates, also when end < start.) *)
Theorem previous_window_same_length
    (full filtered : DataFrame) (s e : date) (g : string)
    (ev : Evidence) (ch : Changes) :
  build_evidence full filtered s e g = Ok ev ->
  changes ev = Some ch ->
  window_days (to_datetime s) (to_datetime e) = e - s + 1 /\
  prev_end_dt (to_datetime s) = to_datetime s - timedelta 1 /\
  prev_start_dt (to_datetime s) (to_datetime e) =
    prev_end_dt (to_datetime s)
    - timedelta (window_days (to_datetime s) (to_datetime e) - 1) /\
  pw_end_date (previous_window ch) = s - 1 /\
  pw_start_date (previous_window ch) = s - 1 - (e - s + 1 - 1) /\
  days (previous_window ch) = e - s + 1 /\
  pw_end_date (previous_window ch) - pw_start_date (previous_window ch) + 1
    = e - s + 1.
Proof.
  intros Hev Hch.
  assert (Hpw : previous_window ch =
                the_previous_window (to_datetime s) (to_datetime e)).
  { apply build_evidence_shape in Hev.
    destruct Hev; simpl in Hch; inversion Hch; subst; reflexivity. }
  rewrite Hpw, the_previous_window_dates. simpl.
  repeat split; try reflexivity; try lia.
  apply window_days_dates.
Qed.

(** C4. An empty current selection gives the packet with the note only. *)
Theorem empty_selection_packet
    (full filtered : DataFrame) (s e : date) (g : string) :
  empty filtered = true ->
  build_evidence full filtered s e g =
  Ok {| filters := {| start_date := s; end_date := e; genre := g |};
        current_period := None;
        previous_period := None;
        changes := None;
        note := "No data available for the selected filters." |}.
Proof.
  intros H. unfold build_evidence. rewrite H. reflexivity.
Qed.

(** C5. A non-empty current selection whose previous-period slice is empty
    gives the degraded packet, and no exception. *)
Theorem empty_previous_packet
    (full filtered prev_df : DataFrame) (s e : date) (g : string) :
  empty filtered = false ->
  required_columns filtered ->
  previous_slice full (to_datetime s) (to_datetime e) g = Ok prev_df ->
  empty prev_df = true ->
  exists cur,
    _period_aggregates filtered = Ok cur /\
    build_evidence full filtered s e g =
    Ok {| filters := {| start_date := s; end_date := e; genre := g |};
          current_period := Some cur;
          previous_period := None;
          changes := Some
            {| total_watch_minutes_pct_change := None;
               active_users_pct_change := None;
               titles_watched_pct_change := None;
               previous_window :=
                 {| pw_start_date := s - 1 - (e - s + 1 - 1);
                    pw_end_date := s - 1;
                    days := e - s + 1 |};
               engagement :=
                 {| minutes_per_user_current :=
                      round2 (total_watch_minutes cur
                              / Qc_of_Z (Z.max (active_users cur) 1))%Qc;
                    minutes_per_user_previous := None;
                    minutes_per_user_pct_change := None |};
               driver_deltas := [] |};
          note :=
            "Previous period comparison unavailable (no data in the prior time window)." |}.
Proof.
  intros Hne Hreq Hslice Hprev.
  destruct (period_aggregates_total filtered Hreq) as [cur Hcur].
  exists cur. split; [exact Hcur |].
  unfold build_evidence.
  rewrite Hne, Hcur. simpl. rewrite Hslice. simpl.
  rewrite Hprev, pydiv_max. simpl.
  rewrite the_previous_window_dates. reflexivity.
Qed.

(** * Group by *)

Lemma cell_eqb_true (a b : cell) : cell_eqb a b = true <-> a = b.
Proof. unfold cell_eqb. destruct (cell_eq_dec a b); split; congruence. Qed.

Lemma notna_true (c : cell) : notna c = true <-> c <> NA.
Proof. destruct c; simpl; split; congruence. Qed.

Lemma In_group_keys (df : DataFrame) (key : string) (k : cell) :
  In k (group_keys df key) <-> k <> NA /\ present df key k.
Proof.
  unfold group_keys, present.
  rewrite In_sort, nodup_In, filter_In, in_map_iff, notna_true.
  split.
  - intros [(r & E & Hr) Hk]. eauto.
  - intros [Hk (r & Hr & E)]. eauto.
Qed.

Lemma map_fst_group_series (df : DataFrame) (key value : string) :
  map fst (group_series df key value) = group_keys df key.
Proof.
  unfold group_series. rewrite map_map. simpl. apply map_id.
Qed.

Lemma groupby_sum_Ok (df : DataFrame) (key value : string) (s : Series) :
  groupby_sum df key value = Ok s ->
  has_column df key = true /\ has_column df value = true /\
  s = group_series df key value.
Proof.
  unfold groupby_sum.
  destruct (has_column df key); simpl; [| discriminate].
  destruct (has_column df value); simpl; [| discriminate].
  intros H. inversion H. auto.
Qed.

Lemma groupby_sum_columns (df : DataFrame) (key value : string) :
  has_column df key = true -> has_column df value = true ->
  groupby_sum df key value = Ok (group_series df key value).
Proof. intros Hk Hv. unfold groupby_sum. now rewrite Hk, Hv. Qed.

Lemma lookup_In (f : cell -> Qc) (ks : list cell) (k : cell) :
  In k ks -> lookup (map (fun k => (k, f k)) ks) k = Some (f k).
Proof.
  induction ks as [| k' ks IH]; simpl; [easy |].
  intros H. destruct (cell_eqb k' k) eqn:E.
  - apply cell_eqb_true in E. now subst.
  - destruct H as [-> | H]; [| now apply IH].
    assert (cell_eqb k k = true) by now apply cell_eqb_true. congruence.
Qed.

Lemma lookup_not_In (f : cell -> Qc) (ks : list cell) (k : cell) :
  ~ In k ks -> lookup (map (fun k => (k, f k)) ks) k = None.
Proof.
  induction ks as [| k' ks IH]; simpl; [easy |].
  intros H. destruct (cell_eqb k' k) eqn:E.
  - apply cell_eqb_true in E. tauto.
  - apply IH. tauto.
Qed.

Lemma In_union_index (a b : Series) (k : cell) :
  In k (union_index a b) <-> In k (map fst a) \/ In k (map fst b).
Proof.
  unfold union_index. rewrite In_sort, nodup_In, in_app_iff. reflexivity.
Qed.

(** * The delta table *)

Lemma combined_row_eq (cs ps : Series) (k : cell) :
  combined_row cs ps k = Ok (raw_row cs ps k).
Proof.
  unfold combined_row, raw_row. rewrite safe_pct_change_eq.
  destruct (Qc_eq_bool (fillna0 (lookup ps k)) 0); reflexivity.
Qed.

Lemma mapM_pure {A B : Type} (f : A -> result B) (g : A -> B) (l : list A) :
  (forall x, f x = Ok (g x)) -> mapM f l = Ok (map g l).
Proof.
  intros H. induction l as [| x l IH]; simpl; [reflexivity |].
  now rewrite H, IH.
Qed.

Lemma combined_rows_Ok (cur prev : DataFrame) (key value : string)
    (c : list DeltaRow) :
  combined_rows cur prev key value = Ok c ->
  groupby_sum cur key value = Ok (group_series cur key value) /\
  groupby_sum prev key value = Ok (group_series prev key value) /\
  c = raw_rows cur prev key value.
Proof.
  unfold combined_rows. intros H.
  inv_bind H. inv_bind H.
  pose proof (groupby_sum_Ok _ _ _ _ Ha) as (_ & _ & ->).
  pose proof (groupby_sum_Ok _ _ _ _ Ha0) as (_ & _ & ->).
  rewrite (mapM_pure _ _ _ (combined_row_eq _ _)) in H.
  inversion H. auto.
Qed.

Lemma combined_rows_columns (cur prev : DataFrame) (key value : string) :
  has_column cur key = true -> has_column cur value = true ->
  has_column prev key = true -> has_column prev value = true ->
  combined_rows cur prev key value = Ok (raw_rows cur prev key value).
Proof.
  intros H1 H2 H3 H4. unfold combined_rows.
  rewrite !groupby_sum_columns by assumption. simpl.
  apply mapM_pure, combined_row_eq.
Qed.

Lemma delta_table_missing (cur prev : DataFrame) (key value : string) (n : Z)
    (by_abs : bool) :
  has_column cur key = false \/ has_column prev key = false ->
  _delta_table cur prev key value n by_abs = Ok [].
Proof.
  intros H. unfold _delta_table.
  destruct H as [-> | ->]; simpl; [reflexivity |].
  now rewrite orb_true_r.
Qed.

Lemma delta_table_Ok (cur prev : DataFrame) (key value : string) (n : Z)
    (by_abs : bool) (out : list DeltaRow) :
  _delta_table cur prev key value n by_abs = Ok out ->
  out = [] \/
  (has_column cur key = true /\ has_column prev key = true /\
   combined_rows cur prev key value = Ok (raw_rows cur prev key value) /\
   out = map round_row
           (head n (sorted_rows by_abs (raw_rows cur prev key value)))).
Proof.
  unfold _delta_table. intros H.
  destruct (has_column cur key) eqn:Hc; simpl in H;
    [| inversion H; now left].
  destruct (has_column prev key) eqn:Hp; simpl in H;
    [| inversion H; now left].
  inv_bind H. right.
  pose proof (combined_rows_Ok _ _ _ _ _ Ha) as (_ & _ & ->).
  inversion H. auto.
Qed.

Lemma In_sorted_rows (by_abs : bool) (l : list DeltaRow) (r : DeltaRow) :
  In r (sorted_rows by_abs l) <-> In r l.
Proof.
  unfold sorted_rows. destruct by_abs; apply In_sort_values_desc.
Qed.

(** Every row of a delta table is the rounding of a row of [combined]. *)
Lemma delta_table_row (cur prev : DataFrame) (key value : string) (n : Z)
    (by_abs : bool) (out : list DeltaRow) (r : DeltaRow) :
  _delta_table cur prev key value n by_abs = Ok out -> In r out ->
  exists k,
    In k (union_index (group_series cur key value)
            (group_series prev key value)) /\
    r = round_row (raw_row (group_series cur key value)
                     (group_series prev key value) k).
Proof.
  intros H Hr. apply delta_table_Ok in H.
  destruct H as [-> | (_ & _ & _ & ->)]; [easy |].
  apply in_map_iff in Hr. destruct Hr as (r0 & <- & Hr0).
  apply In_head, In_sorted_rows in Hr0.
  unfold raw_rows in Hr0. apply in_map_iff in Hr0.
  destruct Hr0 as (k & <- & Hk). eauto.
Qed.

Lemma lookup_group_series_absent (df : DataFrame) (key value : string)
    (k : cell) :
  ~ present df key k -> lookup (group_series df key value) k = None.
Proof.
  intros H. unfold group_series. apply lookup_not_In.
  rewrite In_group_keys. tauto.
Qed.

Lemma lookup_group_series_present (df : DataFrame) (key value : string)
    (k : cell) :
  k <> NA -> present df key k ->
  lookup (group_series df key value) k = Some (group_sum df key value k).
Proof.
  intros Hk H. unfold group_series. apply lookup_In.
  rewrite In_group_keys. tauto.
Qed.

Lemma In_union_index_groups (cur prev : DataFrame) (key value : string)
    (k : cell) :
  In k (union_index (group_series cur key value) (group_series prev key value))
  <-> k <> NA /\ (present cur key k \/ present prev key k).
Proof.
  rewrite In_union_index, !map_fst_group_series, !In_group_keys. tauto.
Qed.

Lemma round2_minus_hundred : round2 (- hundred) = (- hundred)%Qc.
Proof. apply Qc_is_canon. reflexivity. Qed.

(** C3. The two grouped sums are outer-combined by dimension value. *)
Theorem delta_table_outer_combine
    (cur prev : DataFrame) (key value : string) (n : Z) (by_abs : bool)
    (out : list DeltaRow) :
  _delta_table cur prev key value n by_abs = Ok out ->
  (forall r, In r out ->
     (present cur key (name r) \/ present prev key (name r)) /\
     (present cur key (name r) ->
        current r = round2 (group_sum cur key value (name r))) /\
     (present prev key (name r) ->
        previous r = round2 (group_sum prev key value (name r))) /\
     (~ present prev key (name r) ->
        previous r = 0%Qc /\ delta r = current r) /\
     (~ present cur key (name r) ->
        current r = 0%Qc /\ delta r = (- previous r)%Qc /\
        pct_change r =
          if Qc_eq_bool (group_sum prev key value (name r)) 0 then None
          else Some (- hundred)%Qc)) /\
  (has_column cur key = true -> has_column prev key = true ->
   exists cs ps combined,
     groupby_sum cur key value = Ok cs /\
     groupby_sum prev key value = Ok ps /\
     combined_rows cur prev key value = Ok combined /\
     (forall k, In k (map fst cs) \/ In k (map fst ps) ->
        exists r, In r combined /\ name r = k) /\
     out = map round_row (head n (sorted_rows by_abs combined))).
Proof.
  intros H. split.
  - intros r Hr.
    destruct (delta_table_row _ _ _ _ _ _ _ _ H Hr) as (k & Hk & ->).
    apply In_union_index_groups in Hk. destruct Hk as [Hna Hk].
    simpl. split; [exact Hk |]. repeat split.
    + intros Hc. now rewrite lookup_group_series_present.
    + intros Hp. now rewrite lookup_group_series_present.
    + rewrite lookup_group_series_absent by assumption. apply round2_0.
    + rewrite (lookup_group_series_absent prev) by assumption. simpl.
      f_equal. ring.
    + rewrite lookup_group_series_absent by assumption. apply round2_0.
    + rewrite (lookup_group_series_absent cur) by assumption. simpl.
      rewrite <- round2_opp. f_equal. ring.
    + rewrite (lookup_group_series_absent cur) by assumption.
      rewrite lookup_group_series_present by tauto. simpl.
      destruct (Qc_eq_bool (group_sum prev key value k) 0) eqn:E;
        [reflexivity |].
      apply Qc_eq_bool_false in E. simpl.
      rewrite <- round2_minus_hundred. do 2 f_equal. now field.
  - intros Hc Hp.
    destruct (delta_table_Ok _ _ _ _ _ _ _ H) as [-> | (_ & _ & Hcomb & ->)].
    + unfold _delta_table in H. rewrite Hc, Hp in H. simpl in H.
      inv_bind H.
      pose proof (combined_rows_Ok _ _ _ _ _ Ha) as (Hcs & Hps & ->).
      exists (group_series cur key value), (group_series prev key value),
        (raw_rows cur prev key value).
      repeat split; auto.
      * intros k Hk. exists (raw_row (group_series cur key value)
                               (group_series prev key value) k).
        split; [| reflexivity].
        unfold raw_rows. apply in_map. now apply In_union_index.
      * now inversion H.
    + pose proof (combined_rows_Ok _ _ _ _ _ Hcomb) as (Hcs & Hps & _).
      exists (group_series cur key value), (group_series prev key value),
        (raw_rows cur prev key value).
      repeat split; auto.
      intros k Hk. exists (raw_row (group_series cur key value)
                             (group_series prev key value) k).
      split; [| reflexivity].
      unfold raw_rows. apply in_map. now apply In_union_index.
Qed.

(** * Order and truncation *)

Lemma sorted_rows_eq (by_abs : bool) (l : list DeltaRow) :
  sorted_rows by_abs l = sort_values_desc (sort_key by_abs) l.
Proof. destruct by_abs; reflexivity. Qed.

Lemma sort_key_round_row (by_abs : bool) (a b : DeltaRow) :
  (sort_key by_abs b <= sort_key by_abs a)%Qc ->
  (sort_key by_abs (round_row b) <= sort_key by_abs (round_row a))%Qc.
Proof.
  destruct by_abs; simpl; intros H.
  - rewrite !round2_abs. now apply round2_mono.
  - now apply round2_mono.
Qed.

Lemma descending_round_rows (by_abs : bool) (n : nat) (l : list DeltaRow) :
  descending (sort_key by_abs) l ->
  descending (sort_key by_abs) (map round_row (firstn n l)).
Proof.
  intros H. unfold descending in *.
  eapply StronglySorted_map; [| apply StronglySorted_firstn, H].
  intros a b. apply sort_key_round_row.
Qed.

Lemma head_firstn {A : Type} (n : Z) (l : list A) :
  exists k, head n l = firstn k l.
Proof. unfold head. destruct (0 <=? n); eauto. Qed.

(** C6, as amended. For every [n] a delta table is [head(n)] of the rows of
    [combined] put in a descending order of the absolute value of delta, or
    of delta in the alternate mode, and it is in that order itself; it has
    at most [n] rows when [n] is not negative.  Which of two rows of equal
    sort key comes first is left open. *)
Theorem delta_table_sorted_truncated
    (cur prev : DataFrame) (key value : string) (n : Z) (by_abs : bool)
    (out : list DeltaRow) :
  _delta_table cur prev key value n by_abs = Ok out ->
  (0 <= n -> Z.of_nat (List.length out) <= n) /\
  descending (sort_key by_abs) out /\
  (has_column cur key = true -> has_column prev key = true ->
   exists combined sorted,
     combined_rows cur prev key value = Ok combined /\
     Permutation sorted combined /\
     descending (sort_key by_abs) sorted /\
     out = map round_row (head n sorted)).
Proof.
  intros H.
  destruct (delta_table_Ok _ _ _ _ _ _ _ H) as [-> | (Hc & Hp & Hcomb & ->)].
  - split; [simpl; lia |]. split; [constructor |].
    intros Hc Hp. unfold _delta_table in H. rewrite Hc, Hp in H. simpl in H.
    inv_bind H. exists a, (sorted_rows by_abs a). inversion H as [E].
    rewrite sorted_rows_eq in *.
    split; [exact Ha |]. split; [apply sort_values_desc_perm |].
    split; [apply sort_values_desc_sorted | reflexivity].
  - rewrite sorted_rows_eq. split; [| split].
    + intros Hn. rewrite head_nonneg by assumption.
      rewrite length_map, length_firstn. lia.
    + destruct (head_firstn n (sort_values_desc (sort_key by_abs)
                                 (raw_rows cur prev key value))) as [k ->].
      apply descending_round_rows, sort_values_desc_sorted.
    + intros _ _.
      exists (raw_rows cur prev key value),
        (sort_values_desc (sort_key by_abs) (raw_rows cur prev key value)).
      split; [exact Hcomb |]. split; [apply sort_values_desc_perm |].
      split; [apply sort_values_desc_sorted | reflexivity].
Qed.

(** * Top-N breakdowns *)

Lemma top_n_Ok (df : DataFrame) (g v : string) (n : Z) (out : list (cell * Qc)) :
  has_column df g = true ->
  _top_n df g v n = Ok out ->
  out = head n (sort_values_desc snd (group_series df g v)).
Proof.
  intros Hg. unfold _top_n. rewrite Hg. simpl. intros H.
  inv_bind H. apply groupby_sum_Ok in Ha. destruct Ha as (_ & _ & ->).
  now inversion H.
Qed.

Lemma In_group_series (df : DataFrame) (g v : string) (k : cell) (s : Qc) :
  In (k, s) (group_series df g v) <->
  k <> NA /\ present df g k /\ s = group_sum df g v k.
Proof.
  unfold group_series. rewrite in_map_iff. split.
  - intros (k' & E & Hk). inversion E; subst.
    apply In_group_keys in Hk. tauto.
  - intros (Hk & Hp & ->). exists k. split; [reflexivity |].
    apply In_group_keys. tauto.
Qed.

(** C8, as the code has it.  A top-N breakdown groups the rows by the raw
    value of the dimension, rows whose value is null belonging to no group;
    the list holds at most N entries (N not negative), in descending order of
    the summed value. *)
Theorem top_n_groups_without_null
    (df : DataFrame) (g v : string) (n : Z) (out : list (cell * Qc)) :
  0 <= n ->
  has_column df g = true ->
  _top_n df g v n = Ok out ->
  out = firstn (Z.to_nat n) (sort_values_desc snd (group_series df g v)) /\
  Z.of_nat (List.length out) <= n /\
  descending snd out /\
  (forall k s, In (k, s) out ->
     k <> NA /\ present df g k /\ s = group_sum df g v k) /\
  (forall k, k <> NA -> present df g k ->
     Z.of_nat (List.length (group_keys df g)) <= n ->
     In (k, group_sum df g v k) out).
Proof.
  intros Hn Hg H. apply top_n_Ok in H; [| exact Hg]. subst out.
  split; [now apply head_nonneg |].
  split; [now apply head_length |].
  split; [| split].
  - rewrite head_nonneg by assumption.
    apply StronglySorted_firstn, sort_values_desc_sorted.
  - intros k s Hks. apply In_head, In_sort_values_desc in Hks.
    now apply In_group_series.
  - intros k Hk Hp Hlen. rewrite head_all.
    + apply In_sort_values_desc, In_group_series. auto.
    + rewrite sort_values_desc_length. unfold group_series.
      now rewrite length_map.
Qed.

(** * Missing dimension columns *)

Lemma top_n_missing (df : DataFrame) (g v : string) (n : Z) :
  has_column df g = false -> _top_n df g v n = Ok [].
Proof. intros H. unfold _top_n. now rewrite H. Qed.

Lemma delta_table_total (cur prev : DataFrame) (key value : string) (n : Z)
    (by_abs : bool) :
  has_column cur value = true -> has_column prev value = true ->
  exists out, _delta_table cur prev key value n by_abs = Ok out.
Proof.
  intros Hc Hp. unfold _delta_table.
  destruct (has_column cur key) eqn:Hck; simpl; [| eauto].
  destruct (has_column prev key) eqn:Hpk; simpl; [| eauto].
  rewrite combined_rows_columns by assumption. simpl. eauto.
Qed.

Lemma has_column_filter_rows (p : row -> bool) (df : DataFrame) (c : string) :
  has_column (filter_rows p df) c = has_column df c.
Proof. reflexivity. Qed.

Lemma previous_slice_total (full : DataFrame) (s e : Timestamp) (g : string) :
  has_column full "watch_date" = true ->
  g = "All" \/ has_column full "genre_primary" = true ->
  exists p, previous_slice full s e g = Ok p /\ columns p = columns full.
Proof.
  intros Hd Hg. unfold previous_slice, column. rewrite Hd. simpl.
  destruct (String.eqb g "All") eqn:E; simpl; [eauto |].
  destruct Hg as [-> | Hg]; [discriminate |].
  rewrite has_column_filter_rows, Hg. simpl. eauto.
Qed.

Lemma required_columns_same (df df' : DataFrame) :
  columns df' = columns df -> required_columns df -> required_columns df'.
Proof.
  unfold required_columns, has_column. intros ->. tauto.
Qed.

(** C9, as amended. A breakdown over an absent dimension column is empty, and
    no error: [_top_n] and [_delta_table] return the empty list.  The
    evidence build goes through whether or not [device_type],
    [location_country] (and, with the genre filter at "All", [genre_primary])
    are there; on a selection with rows and no [title] it raises the
    [KeyError] of [title], which the aggregates read without a guard. *)
Theorem missing_dimension_is_empty_breakdown :
  (forall (df : DataFrame) (group_col value_col : string) (n : Z),
     has_column df group_col = false ->
     _top_n df group_col value_col n = Ok []) /\
  (forall (cur prev : DataFrame) (key value : string) (n : Z) (by_abs : bool),
     has_column cur key = false \/ has_column prev key = false ->
     _delta_table cur prev key value n by_abs = Ok []) /\
  (forall (full filtered : DataFrame) (s e : date) (g : string),
     required_columns filtered ->
     required_columns full ->
     has_column full "watch_date" = true ->
     g = "All" \/ has_column full "genre_primary" = true ->
     exists ev, build_evidence full filtered s e g = Ok ev) /\
  (forall (full filtered : DataFrame) (s e : date) (g : string),
     empty filtered = false ->
     has_column filtered "watch_duration_minutes" = true ->
     has_column filtered "user_id" = true ->
     has_column filtered "title" = false ->
     build_evidence full filtered s e g = Raise (KeyError "title")).
Proof.
  split; [exact top_n_missing |]. split; [exact delta_table_missing |].
  split.
  2:{ intros full filtered s e g He Hm Hu Ht.
      unfold build_evidence, _period_aggregates, column.
      rewrite He, Hm, Hu, Ht. reflexivity. }
  intros full filtered s e g Hfilt Hfull Hdate Hgenre.
  unfold build_evidence.
  destruct (empty filtered); [eauto |].
  destruct (period_aggregates_total filtered Hfilt) as [cur ->]. simpl.
  destruct (previous_slice_total full (to_datetime s) (to_datetime e) g
              Hdate Hgenre) as (p & -> & Hcols). simpl.
  rewrite !pydiv_max. simpl.
  destruct (empty p); [eauto |].
  pose proof (required_columns_same full p Hcols Hfull) as Hp.
  destruct (period_aggregates_total p Hp) as [prev ->]. simpl.
  destruct (safe_pct_change_total (total_watch_minutes cur)
              (total_watch_minutes prev)) as [o1 ->]. simpl.
  destruct (safe_pct_change_total (Qc_of_Z (active_users cur))
              (Qc_of_Z (active_users prev))) as [o2 ->]. simpl.
  destruct (safe_pct_change_total (Qc_of_Z (titles_watched cur))
              (Qc_of_Z (titles_watched prev))) as [o3 ->]. simpl.
  rewrite !pydiv_max. simpl.
  match goal with
  | |- context [_safe_pct_change ?a ?b] =>
      destruct (safe_pct_change_total a b) as [o4 ->]
  end. simpl.
  destruct Hfilt as (Hfm & _). destruct Hp as (Hpm & _).
  destruct (delta_table_total filtered p "device_type" _ 6 true Hfm Hpm)
    as [d1 ->]. simpl.
  destruct (delta_table_total filtered p "location_country" _ 6 true Hfm Hpm)
    as [d2 ->]. simpl.
  destruct (delta_table_total filtered p "title" _ 6 true Hfm Hpm)
    as [d3 ->]. simpl.
  destruct (delta_table_total filtered p "genre_primary" _ 6 true Hfm Hpm)
    as [d4 ->]. simpl.
  eauto.
Qed.

(** * Null dimension values *)

Lemma group_keys_dropna (key : string) (df : DataFrame) :
  group_keys (dropna key df) key = group_keys df key.
Proof.
  unfold group_keys, dropna. simpl. do 2 f_equal.
  induction (rows df) as [| r l IH]; simpl; [reflexivity |].
  destruct (notna (get r key)) eqn:E; simpl; rewrite ?E, IH; reflexivity.
Qed.

Lemma group_sum_dropna (key value : string) (df : DataFrame) (k : cell) :
  k <> NA ->
  group_sum (dropna key df) key value k = group_sum df key value k.
Proof.
  intros Hk. unfold group_sum, dropna. simpl. do 2 f_equal.
  induction (rows df) as [| r l IH]; simpl; [reflexivity |].
  destruct (notna (get r key)) eqn:E; simpl; rewrite IH; [reflexivity |].
  destruct (cell_eqb (get r key) k) eqn:Ek; [| reflexivity].
  apply cell_eqb_true in Ek. apply notna_true in Hk.
  rewrite Ek in E. congruence.
Qed.

Lemma group_series_dropna (key value : string) (df : DataFrame) :
  group_series (dropna key df) key value = group_series df key value.
Proof.
  unfold group_series. rewrite group_keys_dropna.
  apply map_ext_in. intros k Hk. f_equal.
  apply group_sum_dropna. apply In_group_keys in Hk. tauto.
Qed.

Lemma groupby_sum_dropna (key value : string) (df : DataFrame) :
  groupby_sum (dropna key df) key value = groupby_sum df key value.
Proof.
  unfold groupby_sum. unfold dropna at 1 2.
  rewrite !has_column_filter_rows.
  fold (group_series (dropna key df) key value).
  fold (group_series df key value).
  now rewrite group_series_dropna.
Qed.

Lemma delta_table_dropna (cur prev : DataFrame) (key value : string) (n : Z)
    (by_abs : bool) :
  _delta_table (dropna key cur) (dropna key prev) key value n by_abs
  = _delta_table cur prev key value n by_abs.
Proof.
  unfold _delta_table, combined_rows.
  rewrite !groupby_sum_dropna. unfold dropna.
  now rewrite !has_column_filter_rows.
Qed.

Lemma delta_table_names (cur prev : DataFrame) (key value : string) (n : Z)
    (by_abs : bool) (out : list DeltaRow) (r : DeltaRow) :
  _delta_table cur prev key value n by_abs = Ok out -> In r out ->
  name r <> NA.
Proof.
  intros H Hr.
  destruct (delta_table_row _ _ _ _ _ _ _ _ H Hr) as (k & Hk & ->).
  apply In_union_index_groups in Hk. simpl. tauto.
Qed.

Lemma last_char_append (c s : string) :
  last_char s <> None -> last_char (c ++ s)%string = last_char s.
Proof.
  intros Hs. induction c as [| a c IH]; simpl; [reflexivity |].
  rewrite IH. destruct (last_char s); congruence.
Qed.

Lemma get_named (nm : string -> string) (f : string -> cell)
    (cols : list string) (rest : row) (x : string) :
  get (map (fun c => (nm c, f c)) cols ++ rest) x =
  match find (fun c => String.eqb (nm c) x) cols with
  | Some c => f c
  | None => get rest x
  end.
Proof.
  induction cols as [| c cols IH]; simpl; [reflexivity |].
  destruct (String.eqb (nm c) x); [reflexivity | exact IH].
Qed.

Lemma get_all_NA (nm : string -> string) (cols : list string) (x : string) :
  get (map (fun c => (nm c, NA)) cols) x = NA.
Proof.
  induction cols as [| c cols IH]; simpl; [reflexivity |].
  destruct (String.eqb (nm c) x); [reflexivity | exact IH].
Qed.

Lemma mem_In (c : string) (cs : list string) : mem c cs = true <-> In c cs.
Proof.
  unfold mem. rewrite existsb_exists. split.
  - intros (x & Hx & E). apply String.eqb_eq in E. now subst.
  - intros H. exists c. split; [exact H | apply String.eqb_refl].
Qed.

Section MergeNames.

Variables (lcols rcols : list string) (on : string).

Let lname : string -> string := left_name on rcols.

Lemma lname_target (c x : string) :
  last_char x <> Some "x"%char -> lname c = x ->
  c = x /\ (x = on \/ ~ In x rcols).
Proof.
  intros Hx. unfold lname, left_name.
  destruct (negb (String.eqb c on) && mem c rcols) eqn:E.
  - intros <-. exfalso. apply Hx. now rewrite last_char_append.
  - intros <-. split; [reflexivity |].
    apply andb_false_iff in E. destruct E as [E | E].
    + left. apply negb_false_iff in E. now apply String.eqb_eq.
    + right. rewrite <- mem_In. congruence.
Qed.

(** The key column keeps its name and its value in the left part of a joined
    row. *)
Lemma get_left_part_key (f : string -> cell) (rest : row) :
  In on lcols -> last_char on <> Some "x"%char ->
  get (map (fun c => (lname c, f c)) lcols ++ rest) on = f on.
Proof.
  intros Hin Hx. rewrite get_named.
  destruct (find (fun c => String.eqb (lname c) on) lcols) as [c |] eqn:E.
  - apply find_some in E. destruct E as [_ E]. apply String.eqb_eq in E.
    apply lname_target in E; [| exact Hx]. destruct E as [-> _]. reflexivity.
  - exfalso. apply (find_none _ _ E) in Hin.
    unfold lname, left_name in Hin.
    rewrite String.eqb_refl in Hin. simpl in Hin.
    rewrite String.eqb_refl in Hin. discriminate.
Qed.

(** A right column is not bound by the left part of a joined row. *)
Lemma get_left_part_right_column (f : string -> cell) (rest : row) (x : string) :
  In x rcols -> x <> on -> last_char x <> Some "x"%char ->
  get (map (fun c => (lname c, f c)) lcols ++ rest) x = get rest x.
Proof.
  intros Hin Hon Hx. rewrite get_named.
  destruct (find (fun c => String.eqb (lname c) x) lcols) as [c |] eqn:E;
    [| reflexivity].
  apply find_some in E. destruct E as [_ E]. apply String.eqb_eq in E.
  apply lname_target in E; [| exact Hx]. tauto.
Qed.

End MergeNames.

Lemma has_column_In (df : DataFrame) (c : string) :
  has_column df c = true <-> In c (columns df).
Proof. apply mem_In. Qed.

Lemma in_joined {A B : Type} (f : A -> B) (d : B) (ms : list A) (r : B) :
  In r (match ms with [] => [d] | m :: ms' => map f (m :: ms') end) ->
  (ms = [] /\ r = d) \/ exists m, In m ms /\ r = f m.
Proof.
  destruct ms as [| m ms].
  - intros [<- | []]. now left.
  - intros H. right. apply in_map_iff in H.
    destruct H as (m' & <- & Hm'). eauto.
Qed.

(** A joined row whose key matches no right row has null in every column that
    comes from the right. *)
Lemma merge_left_unmatched (left right final : DataFrame) (on c : string)
    (r : row) :
  merge_left left right on = Ok final ->
  last_char on <> Some "x"%char -> last_char c <> Some "x"%char ->
  In c (columns right) -> c <> on ->
  In r (rows final) ->
  (forall m, In m (rows right) -> get m on <> get r on) ->
  get r c = NA.
Proof.
  unfold merge_left. intros H Hon Hc Hin Hne Hr Hun.
  destruct (has_column left on) eqn:Hl; simpl in H; [| discriminate].
  destruct (has_column right on) eqn:Hrt; simpl in H; [| discriminate].
  inversion H; subst final; clear H. cbn [rows] in Hr.
  apply in_flat_map in Hr. destruct Hr as (l & Hl' & Hr).
  apply has_column_In in Hl.
  assert (Hrc : In c (right_columns right on)).
  { apply filter_In. split; [exact Hin |].
    apply negb_true_iff, String.eqb_neq. exact Hne. }
  unfold joined_rows in Hr. apply in_joined in Hr. destruct Hr as [[_ ->] | (m & Hm & ->)].
  - rewrite get_left_part_right_column by assumption.
    apply get_all_NA.
  - exfalso. apply filter_In in Hm. destruct Hm as [Hm E].
    apply cell_eqb_true in E. apply (Hun m Hm).
    rewrite get_left_part_key by assumption. exact E.
Qed.

Lemma select_columns_Ok (df out : DataFrame) (cs : list string) :
  select_columns df cs = Ok out ->
  columns out = cs /\
  forall m', In m' (rows out) ->
    exists m, In m (rows df) /\ m' = map (fun c => (c, get m c)) cs.
Proof.
  unfold select_columns.
  destruct (find (fun c => negb (has_column df c)) cs); [discriminate |].
  intros H. inversion H; subst; simpl. split; [reflexivity |].
  intros m' Hm'. apply in_map_iff in Hm'. destruct Hm' as (m & <- & Hm). eauto.
Qed.

Lemma get_selected (m : row) (cs : list string) (x : string) :
  In x cs -> get (map (fun c => (c, get m c)) cs) x = get m x.
Proof.
  intros Hin. rewrite <- (app_nil_r (map _ cs)).
  rewrite (get_named (fun c => c)).
  destruct (find (fun c => String.eqb c x) cs) as [c |] eqn:E.
  - apply find_some in E. destruct E as [_ E].
    apply String.eqb_eq in E. now subst.
  - apply (find_none _ _ E) in Hin. rewrite String.eqb_refl in Hin.
    discriminate.
Qed.

(** A watch event whose [movie_id] is in no catalog row is loaded with null
    title and genre. *)
Lemma load_data_unmatched (parse_dates : list cell -> option (list cell))
    (movies_df watch_df final : DataFrame) (r : row) :
  load_data parse_dates movies_df watch_df = Ok final ->
  In r (rows final) ->
  (forall m, In m (rows (normalize_columns movies_df)) ->
     get m "movie_id" <> get r "movie_id") ->
  get r "title" = NA /\ get r "genre_primary" = NA.
Proof.
  unfold load_data. intros H Hr Hun.
  inv_bind H. inv_bind H. inv_bind H.
  rename a1 into movies, Ha1 into Hsel.
  apply select_columns_Ok in Hsel. destruct Hsel as [Hcols Hrows].
  assert (Hun' : forall m, In m (rows movies) ->
                   get m "movie_id" <> get r "movie_id").
  { intros m' Hm'. destruct (Hrows m' Hm') as (m & Hm & ->).
    rewrite get_selected by (simpl; tauto). now apply Hun. }
  split.
  - apply (merge_left_unmatched _ _ _ _ "title" r H); auto;
      try (simpl; congruence).
    rewrite Hcols. simpl. tauto.
  - apply (merge_left_unmatched _ _ _ _ "genre_primary" r H); auto;
      try (simpl; congruence).
    rewrite Hcols. simpl. tauto.
Qed.

(** C10. Rows whose dimension value is null take part in no delta table: the
    names of the emitted rows are not null and the table is the one of the
    inputs without those rows.  An event the left join of the loader matched
    to no catalog item has null title and genre; the total of watch minutes
    sums over all rows, these included. *)
Theorem null_dimension_rows_in_no_delta_row :
  (forall (cur prev : DataFrame) (key value : string) (n : Z) (by_abs : bool)
          (out : list DeltaRow) (r : DeltaRow),
     _delta_table cur prev key value n by_abs = Ok out ->
     In r out -> name r <> NA) /\
  (forall (cur prev : DataFrame) (key value : string) (n : Z) (by_abs : bool),
     _delta_table (dropna key cur) (dropna key prev) key value n by_abs
     = _delta_table cur prev key value n by_abs) /\
  (forall (parse_dates : list cell -> option (list cell))
          (movies_df watch_df final : DataFrame) (r : row),
     load_data parse_dates movies_df watch_df = Ok final ->
     In r (rows final) ->
     (forall m, In m (rows (normalize_columns movies_df)) ->
        get m "movie_id" <> get r "movie_id") ->
     get r "title" = NA /\ get r "genre_primary" = NA) /\
  (forall (df : DataFrame) (a : PeriodAggregate),
     _period_aggregates df = Ok a ->
     total_watch_minutes a =
       round2 (sum (map (fun r => get r "watch_duration_minutes") (rows df)))).
Proof.
  split; [exact delta_table_names |].
  split; [exact delta_table_dropna |].
  split; [exact load_data_unmatched | exact period_aggregates_total_minutes].
Qed.

(** * Rounding of the packet *)

Lemma delta_table_rounded (cur prev : DataFrame) (key value : string) (n : Z)
    (by_abs : bool) (out : list DeltaRow) (r : DeltaRow) :
  _delta_table cur prev key value n by_abs = Ok out -> In r out ->
  two_decimals (current r) /\ two_decimals (previous r) /\
  two_decimals (delta r) /\
  (forall p, pct_change r = Some p -> two_decimals p).
Proof.
  intros H Hr.
  destruct (delta_table_row _ _ _ _ _ _ _ _ H Hr) as (k & _ & ->).
  simpl. repeat split; try apply round2_two_decimals.
  intros p Hp.
  destruct (Qc_eq_bool (fillna0 (lookup (group_series prev key value) k)) 0);
    simpl in Hp; inversion Hp. apply round2_two_decimals.
Qed.

Lemma this_Qcdiv (a b : Qc) : (this (a / b)%Qc == this a / this b)%Q.
Proof.
  unfold Qcdiv, Qcmult, Qcinv. rewrite !this_Q2Qc. reflexivity.
Qed.

(** A number with two decimals times 100 is whole. *)
Lemma two_decimals_whole (x : Qc) :
  two_decimals x -> exists k : Z, Qnum x * 100 = k * Zpos (Qden x).
Proof.
  intros [k ->]. exists k.
  pose proof (this_Qcdiv (Qc_of_Z k) hundred) as E.
  unfold Qc_of_Z, hundred, Qc_of_Z in E. rewrite !this_Q2Qc in E.
  set (q := this (Q2Qc (inject_Z k) / Q2Qc (inject_Z 100))%Qc) in *.
  assert (E' : (q * 100 == inject_Z k)%Q).
  { rewrite E. change (inject_Z 100) with 100%Q. field. }
  unfold Qeq in E'. simpl in E'.
  change (Qnum q * 100 = k * Zpos (Qden q)).
  rewrite Pos.mul_1_r in E'. lia.
Qed.

(** The percent change of a delta-table row is the rounding of what
    [_safe_pct_change] returns on the sums of the two periods. *)
Lemma delta_table_pct_rule (cur prev : DataFrame) (key value : string) (n : Z)
    (by_abs : bool) (out : list DeltaRow) (r : DeltaRow) :
  _delta_table cur prev key value n by_abs = Ok out -> In r out ->
  exists c p o,
    _safe_pct_change c p = Ok o /\
    current r = round2 c /\ previous r = round2 p /\
    delta r = round2 (c - p) /\ pct_change r = option_map round2 o.
Proof.
  intros H Hr.
  destruct (delta_table_row _ _ _ _ _ _ _ _ H Hr) as (k & _ & ->).
  exists (fillna0 (lookup (group_series cur key value) k)),
    (fillna0 (lookup (group_series prev key value) k)).
  exists (pct_change (raw_row (group_series cur key value)
                        (group_series prev key value) k)).
  simpl. rewrite safe_pct_change_eq.
  destruct (Qc_eq_bool (fillna0 (lookup (group_series prev key value) k)) 0);
    repeat split.
Qed.

(** The top-line percent changes of a full packet are what
    [_safe_pct_change] returns. *)
Lemma top_line_pct_rule (full filtered : DataFrame) (s e : date) (g : string)
    (ev : Evidence) (ch : Changes) (cur prev : PeriodAggregate) :
  build_evidence full filtered s e g = Ok ev ->
  changes ev = Some ch ->
  current_period ev = Some cur -> previous_period ev = Some prev ->
  _safe_pct_change (total_watch_minutes cur) (total_watch_minutes prev)
    = Ok (total_watch_minutes_pct_change ch) /\
  _safe_pct_change (Qc_of_Z (active_users cur)) (Qc_of_Z (active_users prev))
    = Ok (active_users_pct_change ch) /\
  _safe_pct_change (Qc_of_Z (titles_watched cur))
    (Qc_of_Z (titles_watched prev))
    = Ok (titles_watched_pct_change ch) /\
  _safe_pct_change
    (total_watch_minutes cur / Qc_of_Z (Z.max (active_users cur) 1))%Qc
    (total_watch_minutes prev / Qc_of_Z (Z.max (active_users prev) 1))%Qc
    = Ok (minutes_per_user_pct_change (engagement ch)).
Proof.
  intros Hev Hch Hc Hp. apply build_evidence_shape in Hev.
  destruct Hev; simpl in *; try discriminate.
  inversion Hch; inversion Hc; inversion Hp; subst. simpl. auto.
Qed.

(** C2. [_safe_pct_change] returns null exactly when the previous value is 0
    and (current - previous) / previous * 100 otherwise, and never raises.
    The percent change of every delta-table row, the three top-line percent
    changes and the engagement percent change are computed by it, and neither
    a delta table nor the evidence build ever raises a division by zero. *)
Theorem safe_pct_change_null_iff_previous_zero :
  (forall current previous : Qc,
     (_safe_pct_change current previous = Ok None <-> previous = 0%Qc) /\
     _safe_pct_change current previous =
       (if Qc_eq_bool previous 0 then Ok None
        else Ok (Some ((current - previous) / previous * hundred)%Qc))) /\
  (forall (cur prev : DataFrame) (key value : string) (n : Z) (by_abs : bool),
     _delta_table cur prev key value n by_abs <> Raise ZeroDivisionError /\
     forall out r,
       _delta_table cur prev key value n by_abs = Ok out -> In r out ->
       exists c p o,
         _safe_pct_change c p = Ok o /\
         current r = round2 c /\ previous r = round2 p /\
         delta r = round2 (c - p) /\ pct_change r = option_map round2 o) /\
  (forall (full filtered : DataFrame) (s e : date) (g : string),
     build_evidence full filtered s e g <> Raise ZeroDivisionError /\
     forall ev ch cur prev,
       build_evidence full filtered s e g = Ok ev ->
       changes ev = Some ch ->
       current_period ev = Some cur -> previous_period ev = Some prev ->
       _safe_pct_change (total_watch_minutes cur) (total_watch_minutes prev)
         = Ok (total_watch_minutes_pct_change ch) /\
       _safe_pct_change (Qc_of_Z (active_users cur))
         (Qc_of_Z (active_users prev))
         = Ok (active_users_pct_change ch) /\
       _safe_pct_change (Qc_of_Z (titles_watched cur))
         (Qc_of_Z (titles_watched prev))
         = Ok (titles_watched_pct_change ch) /\
       _safe_pct_change
         (total_watch_minutes cur / Qc_of_Z (Z.max (active_users cur) 1))%Qc
         (total_watch_minutes prev / Qc_of_Z (Z.max (active_users prev) 1))%Qc
         = Ok (minutes_per_user_pct_change (engagement ch))).
Proof.
  split; [| split].
  - intros c p. split; [| apply safe_pct_change_eq].
    rewrite safe_pct_change_eq.
    destruct (Qc_eq_bool p 0) eqn:E.
    + apply Qc_eq_bool_true in E. tauto.
    + apply Qc_eq_bool_false in E. split; [discriminate | tauto].
  - intros. split; [apply nzd_delta_table |].
    intros out r. apply delta_table_pct_rule.
  - intros. split; [apply nzd_build_evidence |].
    intros ev ch cur prev. apply top_line_pct_rule.
Qed.

(** C7, as the code has it.  The rows of every delta table have current,
    previous and delta rounded to two decimals, and the percent change when
    it is defined; the two minutes-per-user figures are rounded to two
    decimals.  The three top-line percent changes and the percent change of
    the minutes per user are the values of [_safe_pct_change], as
    computed. *)
Theorem delta_rows_rounded_top_line_as_computed
    (full filtered : DataFrame) (s e : date) (g : string)
    (ev : Evidence) (ch : Changes) :
  build_evidence full filtered s e g = Ok ev ->
  changes ev = Some ch ->
  two_decimals (minutes_per_user_current (engagement ch)) /\
  (forall p, minutes_per_user_previous (engagement ch) = Some p ->
     two_decimals p) /\
  (forall dim table r,
     In (dim, table) (driver_deltas ch) -> In r table ->
     two_decimals (current r) /\ two_decimals (previous r) /\
     two_decimals (delta r) /\
     (forall p, pct_change r = Some p -> two_decimals p)) /\
  (forall cur prev,
     current_period ev = Some cur -> previous_period ev = Some prev ->
     _safe_pct_change (total_watch_minutes cur) (total_watch_minutes prev)
       = Ok (total_watch_minutes_pct_change ch) /\
     _safe_pct_change (Qc_of_Z (active_users cur)) (Qc_of_Z (active_users prev))
       = Ok (active_users_pct_change ch) /\
     _safe_pct_change (Qc_of_Z (titles_watched cur))
       (Qc_of_Z (titles_watched prev))
       = Ok (titles_watched_pct_change ch) /\
     _safe_pct_change
       (total_watch_minutes cur / Qc_of_Z (Z.max (active_users cur) 1))%Qc
       (total_watch_minutes prev / Qc_of_Z (Z.max (active_users prev) 1))%Qc
       = Ok (minutes_per_user_pct_change (engagement ch))).
Proof.
  intros Hev Hch. apply build_evidence_shape in Hev.
  destruct Hev; simpl in Hch; inversion Hch; subst ch; clear Hch; simpl.
  - split; [apply round2_two_decimals |]. split; [discriminate |].
    split; [intros ? ? ? [] | discriminate].
  - split; [apply round2_two_decimals |].
    split; [intros p Hp; inversion Hp; apply round2_two_decimals |].
    split.
    + intros dim table r Hin Hr.
      destruct Hin as [E | [E | [E | [E | []]]]]; inversion E; subst;
        match goal with
        | Ht : _delta_table _ _ _ _ _ _ = Ok table |- _ =>
            exact (delta_table_rounded _ _ _ _ _ _ _ r Ht Hr)
        end.
    + intros cur' prev' Hc Hp. inversion Hc; inversion Hp; subst. auto.
Qed.

Lemma by_dec {P : Prop} (d : {P} + {~ P}) :
  (if d then true else false) = true -> P.
Proof. destruct d; [trivial | discriminate]. Qed.

Ltac evaluate d := apply (by_dec (d _ _)); vm_compute; reflexivity.

(** ** The scenarios of the specification *)

(** Scenario D: a title with 50 minutes in the previous period only. *)
Example scenario_D :
  _delta_table only_current only_previous "title" "watch_duration_minutes" 6 true
  = Ok [ {| name := Str "A"; current := Qc_of_Z 0; previous := Qc_of_Z 50;
            delta := Qc_of_Z (-50); pct_change := Some (Qc_of_Z (-100)) |};
         {| name := Str "B"; current := Qc_of_Z 20; previous := Qc_of_Z 0;
            delta := Qc_of_Z 20; pct_change := None |} ].
Proof. evaluate (result_eq_dec (list_eq_dec DeltaRow_eq_dec)). Qed.

(** Scenario A: 1000 against 800, 10 against 8 and 5 against 5. *)
Example scenario_A :
  _safe_pct_change (Qc_of_Z 1000) (Qc_of_Z 800) = Ok (Some (Qc_of_Z 25)) /\
  _safe_pct_change (Qc_of_Z 10) (Qc_of_Z 8) = Ok (Some (Qc_of_Z 25)) /\
  _safe_pct_change (Qc_of_Z 5) (Qc_of_Z 5) = Ok (Some (Qc_of_Z 0)).
Proof.
  repeat split; evaluate (result_eq_dec (option_eq_dec Qc_eq_dec)).
Qed.

Example load_data_sample :
  load_data sample_parse_dates movies_csv watch_csv =
  Ok {| columns := ["user_id"; "movie_id"; "watch_date";
                    "watch_duration_minutes"; "device_type";
                    "location_country"; "title"; "genre_primary";
                    "content_type"; "duration_minutes"; "release_year";
                    "rating"];
        rows :=
          [[("user_id", Str "u1"); ("movie_id", Str "m1");
            ("watch_date", Time (to_datetime 10));
            ("watch_duration_minutes", Num (Qc_of_Z 10));
            ("device_type", Str "TV"); ("location_country", Str "US");
            ("title", Str "A"); ("genre_primary", Str "Drama");
            ("content_type", Str "Movie");
            ("duration_minutes", Num (Qc_of_Z 90));
            ("release_year", Num (Qc_of_Z 2020)); ("rating", Str "PG")];
           [("user_id", Str "u2"); ("movie_id", Str "m9");
            ("watch_date", Time (to_datetime 10));
            ("watch_duration_minutes", Num (Qc_of_Z 0));
            ("device_type", Str "TV"); ("location_country", Str "US");
            ("title", NA); ("genre_primary", NA); ("content_type", NA);
            ("duration_minutes", NA); ("release_year", NA);
            ("rating", NA)]] |}.
Proof. evaluate (result_eq_dec DataFrame_eq_dec). Qed.

(** * The theorems on the samples *)

Lemma scenario_D_eval :
  _delta_table only_current only_previous "title" "watch_duration_minutes" 6 true
  = Ok scenario_D_table.
Proof. exact scenario_D. Qed.

Lemma previous_window_same_length_witness :
  exists ev ch,
    build_evidence days_9_10 day10 10 10 "All" = Ok ev /\
    changes ev = Some ch /\
    pw_end_date (previous_window ch) = 9 /\
    pw_start_date (previous_window ch) = 9 /\
    days (previous_window ch) = 1.
Proof.
  destruct (build_evidence days_9_10 day10 10 10 "All") as [ev | x] eqn:E.
  - destruct (changes ev) as [ch |] eqn:C.
    + exists ev, ch. split; [reflexivity |]. split; [exact C |].
      pose proof (previous_window_same_length _ _ _ _ _ _ _ E C) as W.
      destruct W as (_ & _ & _ & W1 & W2 & W3 & _).
      split; [exact W1 |]. split; [exact W2 | exact W3].
    + exfalso. vm_compute in E. inversion E; subst. discriminate C.
  - exfalso. vm_compute in E. discriminate E.
Defined.

Lemma empty_selection_packet_witness :
  build_evidence {| columns := []; rows := [] |} {| columns := []; rows := [] |}
    10 12 "Drama" =
  Ok {| filters := {| start_date := 10; end_date := 12; genre := "Drama" |};
        current_period := None;
        previous_period := None;
        changes := None;
        note := "No data available for the selected filters." |}.
Proof. apply empty_selection_packet. reflexivity. Defined.

Lemma empty_previous_packet_witness :
  exists cur,
    _period_aggregates day10 = Ok cur /\
    build_evidence day10 day10 10 10 "All" =
    Ok {| filters := {| start_date := 10; end_date := 10; genre := "All" |};
          current_period := Some cur;
          previous_period := None;
          changes := Some
            {| total_watch_minutes_pct_change := None;
               active_users_pct_change := None;
               titles_watched_pct_change := None;
               previous_window :=
                 {| pw_start_date := 9; pw_end_date := 9; days := 1 |};
               engagement :=
                 {| minutes_per_user_current :=
                      round2 (total_watch_minutes cur
                              / Qc_of_Z (Z.max (active_users cur) 1))%Qc;
                    minutes_per_user_previous := None;
                    minutes_per_user_pct_change := None |};
               driver_deltas := [] |};
          note :=
            "Previous period comparison unavailable (no data in the prior time window)." |}.
Proof.
  apply (empty_previous_packet day10 day10 (frame []) 10 10 "All").
  - reflexivity.
  - repeat split; reflexivity.
  - reflexivity.
  - reflexivity.
Defined.

Lemma delta_table_outer_combine_witness :
  _delta_table only_current only_previous "title" "watch_duration_minutes" 6 true
    = Ok scenario_D_table /\
  (exists cs ps combined,
     groupby_sum only_current "title" "watch_duration_minutes" = Ok cs /\
     groupby_sum only_previous "title" "watch_duration_minutes" = Ok ps /\
     combined_rows only_current only_previous "title" "watch_duration_minutes"
       = Ok combined /\
     (forall k, In k (map fst cs) \/ In k (map fst ps) ->
        exists r, In r combined /\ name r = k) /\
     scenario_D_table = map round_row (head 6 (sorted_rows true combined))).
Proof.
  split; [exact scenario_D_eval |].
  apply (proj2 (delta_table_outer_combine _ _ _ _ _ _ _ scenario_D_eval));
    reflexivity.
Defined.

(** C6 fails for a negative [n]: [head(-1)] drops the last row only, so the
    two rows of scenario D give one row, which is more than -1. *)
Lemma delta_table_negative_n_keeps_rows :
  _delta_table only_current only_previous "title" "watch_duration_minutes"
    (-1) true = Ok scenario_D_first /\
  ~ Z.of_nat (List.length scenario_D_first) <= -1.
Proof.
  split.
  - evaluate (result_eq_dec (list_eq_dec DeltaRow_eq_dec)).
  - simpl. lia.
Qed.

Lemma scenario_D_first_eval :
  _delta_table only_current only_previous "title" "watch_duration_minutes"
    1 true = Ok scenario_D_first.
Proof. evaluate (result_eq_dec (list_eq_dec DeltaRow_eq_dec)). Qed.

Lemma delta_table_sorted_truncated_witness :
  Z.of_nat (List.length scenario_D_first) <= 1 /\
  descending (sort_key true) scenario_D_first /\
  exists combined sorted,
    combined_rows only_current only_previous "title" "watch_duration_minutes"
      = Ok combined /\
    Permutation sorted combined /\
    descending (sort_key true) sorted /\
    scenario_D_first = map round_row (head 1 sorted).
Proof.
  pose proof (delta_table_sorted_truncated _ _ _ _ _ _ _ scenario_D_first_eval)
    as (W1 & W2 & W3).
  split; [apply W1; lia |]. split; [exact W2 |].
  apply W3; reflexivity.
Defined.

(** C7 fails on the top-line percent changes: 10 minutes against 30 give
    -200/3 percent, which the packet carries as it is. *)
Lemma top_line_pct_change_not_rounded :
  exists ev ch,
    build_evidence days_9_10 day10 10 10 "All" = Ok ev /\
    changes ev = Some ch /\
    total_watch_minutes_pct_change ch = Some (Q2Qc (-200 # 3)) /\
    ~ two_decimals (Q2Qc (-200 # 3)).
Proof.
  destruct (build_evidence days_9_10 day10 10 10 "All") as [ev | x] eqn:E;
    vm_compute in E; [| discriminate E].
  inversion E; subst ev; clear E.
  eexists. eexists. split; [reflexivity |]. split; [reflexivity |].
  split.
  - simpl; f_equal; try (apply Qc_is_canon; reflexivity).
  - intros H. apply two_decimals_whole in H. destruct H as [k H].
    simpl in H. lia.
Qed.

Lemma delta_rows_rounded_top_line_as_computed_witness :
  exists ev ch,
    build_evidence days_9_10 day10 10 10 "All" = Ok ev /\
    changes ev = Some ch /\
    two_decimals (minutes_per_user_current (engagement ch)) /\
    (forall dim table r,
       In (dim, table) (driver_deltas ch) -> In r table ->
       two_decimals (current r) /\ two_decimals (previous r) /\
       two_decimals (delta r) /\
       (forall p, pct_change r = Some p -> two_decimals p)).
Proof.
  destruct (build_evidence days_9_10 day10 10 10 "All") as [ev | x] eqn:E.
  - destruct (changes ev) as [ch |] eqn:C.
    + exists ev, ch. split; [reflexivity |]. split; [exact C |].
      pose proof (delta_rows_rounded_top_line_as_computed _ _ _ _ _ _ _ E C)
        as W.
      destruct W as (W1 & _ & W3 & _). split; [exact W1 | exact W3].
    + exfalso. vm_compute in E. inversion E; subst. discriminate C.
  - exfalso. vm_compute in E. discriminate E.
Defined.

Lemma null_genre_eval :
  _top_n null_genre_table "genre_primary" "watch_duration_minutes" 5
    = Ok [(Str "Drama", Qc_of_Z 5)].
Proof. evaluate (result_eq_dec (list_eq_dec group_eq_dec)). Qed.

(** C8 fails on a table with a null genre: the event with no genre is in no
    group of the breakdown. *)
Lemma top_n_drops_null_group :
  has_column null_genre_table "genre_primary" = true /\
  In null_genre_event (rows null_genre_table) /\
  get null_genre_event "genre_primary" = NA /\
  _top_n null_genre_table "genre_primary" "watch_duration_minutes" 5
    = Ok [(Str "Drama", Qc_of_Z 5)].
Proof.
  split; [reflexivity |]. split; [now left |]. split; [reflexivity |].
  exact null_genre_eval.
Qed.

Lemma top_n_groups_without_null_witness :
  Z.of_nat (List.length [(Str "Drama", Qc_of_Z 5)]) <= 5 /\
  descending snd [(Str "Drama", Qc_of_Z 5)] /\
  (forall k s, In (k, s) [(Str "Drama", Qc_of_Z 5)] ->
     k <> NA /\ present null_genre_table "genre_primary" k /\
     s = group_sum null_genre_table "genre_primary" "watch_duration_minutes" k).
Proof.
  assert (Hn : 0 <= 5) by lia.
  assert (Hc : has_column null_genre_table "genre_primary" = true)
    by reflexivity.
  pose proof (top_n_groups_without_null _ _ _ _ _ Hn Hc null_genre_eval)
    as W.
  destruct W as (_ & W2 & W3 & W4 & _).
  split; [exact W2 |]. split; [exact W3 | exact W4].
Defined.

(** C9 fails for the dimension [title]: without that column the two
    breakdowns by title are empty, and the build raises. *)
Lemma missing_title_aborts_the_build :
  _top_n no_title "title" "watch_duration_minutes" 5 = Ok [] /\
  _delta_table no_title no_title "title" "watch_duration_minutes" 6 true
    = Ok [] /\
  build_evidence no_title no_title 10 10 "All" = Raise (KeyError "title").
Proof. repeat split. Qed.

Lemma missing_dimension_is_empty_breakdown_witness :
  _top_n no_device_country "device_type" "watch_duration_minutes" 5 = Ok [] /\
  _delta_table no_device_country day9 "location_country"
    "watch_duration_minutes" 6 true = Ok [] /\
  (exists ev,
     build_evidence no_device_country no_device_country 10 10 "All" = Ok ev) /\
  build_evidence day10 no_title 10 10 "All" = Raise (KeyError "title").
Proof.
  destruct missing_dimension_is_empty_breakdown as (W1 & W2 & W3 & W4).
  split; [apply W1; reflexivity |].
  split; [apply W2; left; reflexivity |].
  split.
  - apply W3.
    + repeat split; reflexivity.
    + repeat split; reflexivity.
    + reflexivity.
    + left. reflexivity.
  - apply W4; reflexivity.
Defined.

Lemma null_dimension_rows_in_no_delta_row_witness :
  (forall r, In r scenario_D_table -> name r <> NA) /\
  _delta_table (dropna "genre_primary" null_genre_table)
    (dropna "genre_primary" day9) "genre_primary" "watch_duration_minutes"
    6 true
  = _delta_table null_genre_table day9 "genre_primary"
      "watch_duration_minutes" 6 true.
Proof.
  destruct null_dimension_rows_in_no_delta_row as (W1 & W2 & _).
  split.
  - intros r. apply (W1 _ _ _ _ _ _ _ r scenario_D_eval).
  - apply W2.
Defined.

(** An event with no catalog entry counts in the total of watch minutes and
    is in no driver-delta row. *)
Example null_title_counts_in_total_only :
  (exists a, _period_aggregates null_genre_table = Ok a /\
             total_watch_minutes a = Qc_of_Z 15) /\
  _delta_table null_genre_table day9 "title" "watch_duration_minutes" 6 true
  = Ok [ {| name := Str "A"; current := Qc_of_Z 0; previous := Qc_of_Z 30;
            delta := Qc_of_Z (-30); pct_change := Some (Qc_of_Z (-100)) |};
         {| name := Str "B"; current := Qc_of_Z 5; previous := Qc_of_Z 0;
            delta := Qc_of_Z 5; pct_change := None |} ].
Proof.
  split.
  - destruct (_period_aggregates null_genre_table) as [a | x] eqn:E;
      vm_compute in E; [| discriminate E].
    inversion E; subst a. eexists. split; [reflexivity |].
    simpl. apply Qc_is_canon. reflexivity.
  - evaluate (result_eq_dec (list_eq_dec DeltaRow_eq_dec)).
Qed.


Lemma safe_pct_change_null_iff_previous_zero_witness :
  _safe_pct_change (Qc_of_Z 10) 0 = Ok None /\
  build_evidence days_9_10 day10 10 10 "All" <> Raise ZeroDivisionError.
Proof.
  destruct safe_pct_change_null_iff_previous_zero as (W1 & _ & W3).
  split.
  - apply (proj1 (W1 (Qc_of_Z 10) 0%Qc)). reflexivity.
  - apply (proj1 (W3 days_9_10 day10 10 10 "All")).
Defined.

(** * Further properties of the evidence builder *)

Lemma column_Ok (df : DataFrame) (c : string) (l : list cell) :
  column df c = Ok l ->
  has_column df c = true /\ l = map (fun r => get r c) (rows df).
Proof.
  unfold column. destruct (has_column df c); [| discriminate].
  intros H. inversion H. auto.
Qed.

Lemma period_aggregates_Ok (df : DataFrame) (a : PeriodAggregate) :
  _period_aggregates df = Ok a ->
  required_columns df /\
  active_users a = nunique (map (fun r => get r "user_id") (rows df)) /\
  titles_watched a = nunique (map (fun r => get r "title") (rows df)) /\
  _top_n df "genre_primary" "watch_duration_minutes" 5 = Ok (top_genres a) /\
  _top_n df "title" "watch_duration_minutes" 5 = Ok (top_titles a) /\
  _top_n df "device_type" "watch_duration_minutes" 5 = Ok (watch_by_device a) /\
  _top_n df "location_country" "watch_duration_minutes" 5
    = Ok (watch_by_country a).
Proof.
  unfold _period_aggregates. intros H.
  inv_bind H. apply column_Ok in Ha. destruct Ha as [Hm ->].
  inv_bind H. apply column_Ok in Ha. destruct Ha as [Hu ->].
  inv_bind H. apply column_Ok in Ha. destruct Ha as [Ht ->].
  inv_bind H. rename Ha into H1. inv_bind H. rename Ha into H2.
  inv_bind H. rename Ha into H3. inv_bind H. rename Ha into H4.
  inversion H; subst a; simpl. unfold required_columns. auto 10.
Qed.

Lemma nodup_length_le (l : list cell) :
  (List.length (nodup cell_eq_dec l) <= List.length l)%nat.
Proof.
  induction l as [| x l IH]; simpl; [lia |].
  destruct (in_dec cell_eq_dec x l); simpl; lia.
Qed.

Lemma filter_length_le {A : Type} (p : A -> bool) (l : list A) :
  (List.length (filter p l) <= List.length l)%nat.
Proof.
  induction l as [| x l IH]; simpl; [lia |]. destruct (p x); simpl; lia.
Qed.

Lemma nunique_bounds (l : list cell) :
  0 <= nunique l <= Z.of_nat (List.length l).
Proof.
  unfold nunique.
  pose proof (nodup_length_le (filter notna l)).
  pose proof (filter_length_le notna l). lia.
Qed.

Lemma nunique_group_keys (df : DataFrame) (key : string) :
  nunique (map (fun r => get r key) (rows df))
  = Z.of_nat (List.length (group_keys df key)).
Proof.
  unfold nunique, group_keys. f_equal. symmetry.
  apply Permutation_length, sort_perm.
Qed.

Lemma top_n_length (df : DataFrame) (g v : string) (n : Z)
    (out : list (cell * Qc)) :
  0 <= n -> _top_n df g v n = Ok out ->
  (List.length out <= Z.to_nat n)%nat.
Proof.
  intros Hn H. unfold _top_n in H.
  destruct (has_column df g); simpl in H.
  - inv_bind H. inversion H. rewrite head_nonneg by assumption.
    rewrite length_firstn. lia.
  - inversion H. simpl. lia.
Qed.

(** X1. The counts of a period never exceed the number of rows, the list of
    top titles has five entries or as many as there are titles, and every
    breakdown has at most five entries. *)
Theorem period_aggregates_counts (df : DataFrame) (a : PeriodAggregate) :
  _period_aggregates df = Ok a ->
  0 <= active_users a <= Z.of_nat (List.length (rows df)) /\
  0 <= titles_watched a <= Z.of_nat (List.length (rows df)) /\
  List.length (top_titles a) = Nat.min 5 (Z.to_nat (titles_watched a)) /\
  (List.length (top_genres a) <= 5)%nat /\
  (List.length (watch_by_device a) <= 5)%nat /\
  (List.length (watch_by_country a) <= 5)%nat.
Proof.
  intros H. apply period_aggregates_Ok in H.
  destruct H as ((_ & _ & Ht) & Hu & Hn & Hg & Htop & Hd & Hc).
  rewrite Hu, Hn.
  pose proof (nunique_bounds (map (fun r => get r "user_id") (rows df))) as B1.
  pose proof (nunique_bounds (map (fun r => get r "title") (rows df))) as B2.
  rewrite length_map in B1, B2.
  split; [exact B1 |]. split; [exact B2 |]. split.
  - apply top_n_Ok in Htop; [| exact Ht]. rewrite Htop.
    rewrite head_nonneg by lia. rewrite length_firstn.
    rewrite sort_values_desc_length. unfold group_series.
    rewrite length_map, nunique_group_keys, Nat2Z.id. reflexivity.
  - assert (H5 : 0 <= 5) by lia.
    pose proof (top_n_length _ _ _ _ _ H5 Hg).
    pose proof (top_n_length _ _ _ _ _ H5 Hd).
    pose proof (top_n_length _ _ _ _ _ H5 Hc).
    change (Z.to_nat 5) with 5%nat in *. auto.
Qed.

(** ** The sums of a breakdown *)

Lemma total_perm (l l' : list (cell * Qc)) :
  Permutation l l' -> total l = total l'.
Proof.
  induction 1 as [| x l l' _ IH | x y l | l l' l'' _ IH1 _ IH2]; simpl.
  - reflexivity.
  - now rewrite IH.
  - ring.
  - congruence.
Qed.

Lemma sum_cons (c : cell) (l : list cell) :
  sum (c :: l) = (to_num c + sum l)%Qc.
Proof. reflexivity. Qed.

Lemma total_groups_cons (key value : string) (ks : list cell) (r : row)
    (l : list row) :
  NoDup ks ->
  total (map (fun k => (k, sum_of_group key value (r :: l) k)) ks)
  = ((if in_dec cell_eq_dec (get r key) ks then to_num (get r value) else 0)
     + total (map (fun k => (k, sum_of_group key value l k)) ks))%Qc.
Proof.
  induction ks as [| k ks IHk]; intros Hks.
  - simpl. ring.
  - inversion Hks as [| ? ? Hnin Hks']; subst.
    cbn [map total fold_right snd]. fold total.
    change (fold_right (fun g acc => (snd g + acc)%Qc) 0%Qc)
      with total.
    rewrite (IHk Hks'). unfold sum_of_group at 1. cbn [filter].
    destruct (cell_eqb (get r key) k) eqn:E.
    + apply cell_eqb_true in E. subst k.
      destruct (in_dec cell_eq_dec (get r key) (get r key :: ks))
        as [_ | Hn]; [| exfalso; apply Hn; now left].
      destruct (in_dec cell_eq_dec (get r key) ks); [contradiction |].
      cbn [map]. rewrite sum_cons. unfold sum_of_group. ring.
    + assert (Hne : k <> get r key).
      { intros ->. assert (cell_eqb (get r key) (get r key) = true)
          by now apply cell_eqb_true. congruence. }
      unfold sum_of_group.
      destruct (in_dec cell_eq_dec (get r key) (k :: ks)) as [Hin | Hn];
        destruct (in_dec cell_eq_dec (get r key) ks) as [Hin' | Hn'];
        try ring.
      * destruct Hin as [-> | Hin]; [congruence | contradiction].
      * exfalso. apply Hn. now right.
Qed.

(** The sums of the groups of a list of distinct labels add up to the sum
    over the rows whose label is in the list. *)
Lemma total_groups (key value : string) (ks : list cell) (l : list row) :
  NoDup ks ->
  total (map (fun k => (k, sum_of_group key value l k)) ks)
  = sum (map (fun r => get r value)
           (filter (fun r => if in_dec cell_eq_dec (get r key) ks
                             then true else false) l)).
Proof.
  intros Hks. induction l as [| r l IH].
  - simpl. clear Hks. induction ks as [| k ks IHk]; simpl; [reflexivity |].
    rewrite IHk. unfold sum_of_group. simpl. ring.
  - rewrite total_groups_cons by assumption. rewrite IH. cbn [filter].
    destruct (in_dec cell_eq_dec (get r key) ks); cbn [map];
      rewrite ?sum_cons; ring.
Qed.

Lemma In_dec_group_keys (df : DataFrame) (key : string) (r : row) :
  In r (rows df) ->
  (if in_dec cell_eq_dec (get r key)
        (nodup cell_eq_dec (filter notna (map (fun r => get r key) (rows df))))
   then true else false) = notna (get r key).
Proof.
  intros Hr.
  destruct (in_dec cell_eq_dec _ _) as [Hin | Hin].
  - apply nodup_In, filter_In in Hin. symmetry. tauto.
  - destruct (notna (get r key)) eqn:E; [| reflexivity].
    exfalso. apply Hin. apply nodup_In, filter_In. split; [| exact E].
    apply in_map_iff. eauto.
Qed.

Lemma total_group_series (df : DataFrame) (key value : string) :
  total (group_series df key value)
  = sum (map (fun r => get r value) (rows (dropna key df))).
Proof.
  unfold group_series, group_keys.
  rewrite (total_perm _ (map (fun k => (k, group_sum df key value k))
             (nodup cell_eq_dec
                (filter notna (map (fun r => get r key) (rows df)))))).
  2: { apply Permutation_map, sort_perm. }
  change (fun k => (k, group_sum df key value k))
    with (fun k => (k, sum_of_group key value (rows df) k)).
  rewrite total_groups by apply NoDup_nodup.
  unfold dropna. simpl. do 2 f_equal.
  apply filter_ext_in. intros r Hr. now apply In_dec_group_keys.
Qed.

(** X2. When no group is cut off, the sums of a top-N breakdown add up to the
    sum of the value over the rows whose dimension value is not null. *)
Theorem top_n_sums_partition
    (df : DataFrame) (g v : string) (n : Z) (out : list (cell * Qc)) :
  has_column df g = true ->
  _top_n df g v n = Ok out ->
  Z.of_nat (List.length (group_keys df g)) <= n ->
  total out = sum (map (fun r => get r v) (rows (dropna g df))).
Proof.
  intros Hg H Hn. apply top_n_Ok in H; [| exact Hg]. subst out.
  rewrite head_all.
  - rewrite (total_perm _ _ (sort_values_desc_perm snd _)).
    apply total_group_series.
  - rewrite sort_values_desc_length. unfold group_series.
    now rewrite length_map.
Qed.

(** ** Distinct labels *)

Lemma NoDup_firstn {A : Type} (n : nat) (l : list A) :
  NoDup l -> NoDup (firstn n l).
Proof.
  intros H. rewrite <- (firstn_skipn n l) in H.
  now apply NoDup_app_remove_r in H.
Qed.

Lemma NoDup_head {A : Type} (n : Z) (l : list A) : NoDup l -> NoDup (head n l).
Proof. unfold head. destruct (0 <=? n); apply NoDup_firstn. Qed.

Lemma map_head {A B : Type} (f : A -> B) (n : Z) (l : list A) :
  map f (head n l) = head n (map f l).
Proof.
  unfold head. rewrite length_map.
  destruct (0 <=? n); symmetry; apply firstn_map.
Qed.

Lemma NoDup_group_keys (df : DataFrame) (key : string) :
  NoDup (group_keys df key).
Proof.
  unfold group_keys.
  eapply Permutation_NoDup; [symmetry; apply sort_perm | apply NoDup_nodup].
Qed.

Lemma NoDup_union_index (a b : Series) : NoDup (union_index a b).
Proof.
  unfold union_index.
  eapply Permutation_NoDup; [symmetry; apply sort_perm | apply NoDup_nodup].
Qed.

Lemma map_name_round_row (l : list DeltaRow) :
  map name (map round_row l) = map name l.
Proof. rewrite map_map. reflexivity. Qed.

Lemma map_name_raw_rows (cur prev : DataFrame) (key value : string) :
  map name (raw_rows cur prev key value)
  = union_index (group_series cur key value) (group_series prev key value).
Proof. unfold raw_rows. rewrite map_map. simpl. apply map_id. Qed.

Lemma delta_table_nodup (cur prev : DataFrame) (key value : string) (n : Z)
    (by_abs : bool) (out : list DeltaRow) :
  _delta_table cur prev key value n by_abs = Ok out -> NoDup (map name out).
Proof.
  intros H. apply delta_table_Ok in H.
  destruct H as [-> | (_ & _ & _ & ->)]; [constructor |].
  rewrite map_name_round_row, map_head. apply NoDup_head.
  eapply Permutation_NoDup.
  - apply Permutation_map. symmetry. rewrite sorted_rows_eq.
    apply sort_values_desc_perm.
  - rewrite map_name_raw_rows. apply NoDup_union_index.
Qed.

Lemma top_n_nodup (df : DataFrame) (g v : string) (n : Z)
    (out : list (cell * Qc)) :
  _top_n df g v n = Ok out -> NoDup (map fst out).
Proof.
  unfold _top_n. destruct (has_column df g) eqn:Hg; simpl; intros H.
  - inv_bind H. apply groupby_sum_Ok in Ha. destruct Ha as (_ & _ & ->).
    inversion H. rewrite map_head. apply NoDup_head.
    eapply Permutation_NoDup.
    + apply Permutation_map. symmetry. apply sort_values_desc_perm.
    + rewrite map_fst_group_series. apply NoDup_group_keys.
  - inversion H. constructor.
Qed.

(** X3. No dimension value occurs twice in a delta table, nor in a top-N
    breakdown. *)
Theorem breakdown_labels_distinct :
  (forall (cur prev : DataFrame) (key value : string) (n : Z) (by_abs : bool)
          (out : list DeltaRow),
     _delta_table cur prev key value n by_abs = Ok out ->
     NoDup (map name out)) /\
  (forall (df : DataFrame) (g v : string) (n : Z) (out : list (cell * Qc)),
     _top_n df g v n = Ok out -> NoDup (map fst out)).
Proof. split; [exact delta_table_nodup | exact top_n_nodup]. Qed.

(** ** When the build raises *)

Lemma bind_Raise {A B : Type} (m : result A) (f : A -> result B) (x : exn) :
  bind m f = Raise x ->
  m = Raise x \/ exists a, m = Ok a /\ f a = Raise x.
Proof.
  destruct m as [a | e]; simpl; intros H; [eauto |].
  left. inversion H. reflexivity.
Qed.

Lemma column_Raise (df : DataFrame) (c : string) (x : exn) :
  column df c = Raise x -> x = KeyError c /\ has_column df c = false.
Proof.
  unfold column. destruct (has_column df c); [discriminate |].
  intros H. inversion H. auto.
Qed.

Lemma period_aggregates_Raise (df : DataFrame) (x : exn) :
  _period_aggregates df = Raise x ->
  exists c, x = KeyError c /\ has_column df c = false /\
            In c ["watch_duration_minutes"; "user_id"; "title"].
Proof.
  unfold _period_aggregates. intros H.
  apply bind_Raise in H. destruct H as [H | (l1 & H1 & H)].
  { apply column_Raise in H. destruct H. eexists. simpl. eauto. }
  apply bind_Raise in H. destruct H as [H | (l2 & H2 & H)].
  { apply column_Raise in H. destruct H. eexists. simpl. eauto. }
  apply bind_Raise in H. destruct H as [H | (l3 & H3 & H)].
  { apply column_Raise in H. destruct H. eexists. simpl. eauto 6. }
  exfalso. apply column_Ok in H1. destruct H1 as [Hm _].
  destruct (top_n_total df "genre_primary" _ 5 Hm) as [t1 E1].
  destruct (top_n_total df "title" _ 5 Hm) as [t2 E2].
  destruct (top_n_total df "device_type" _ 5 Hm) as [t3 E3].
  destruct (top_n_total df "location_country" _ 5 Hm) as [t4 E4].
  rewrite E1, E2, E3, E4 in H. simpl in H. discriminate.
Qed.

Lemma previous_slice_Raise (full : DataFrame) (s e : Timestamp) (g : string)
    (x : exn) :
  previous_slice full s e g = Raise x ->
  (x = KeyError "watch_date" /\ has_column full "watch_date" = false) \/
  (x = KeyError "genre_primary" /\ g <> "All" /\
   has_column full "genre_primary" = false).
Proof.
  unfold previous_slice. intros H.
  apply bind_Raise in H. destruct H as [H | (l & _ & H)].
  { apply column_Raise in H. now left. }
  destruct (String.eqb g "All") eqn:E; simpl in H; [discriminate |].
  apply bind_Raise in H. destruct H as [H | (l' & _ & H)]; [| discriminate].
  apply column_Raise in H. rewrite has_column_filter_rows in H.
  right. apply String.eqb_neq in E. tauto.
Qed.

Lemma previous_slice_Ok (full p : DataFrame) (s e : Timestamp) (g : string) :
  previous_slice full s e g = Ok p ->
  has_column full "watch_date" = true /\
  (g = "All" \/ has_column full "genre_primary" = true) /\
  columns p = columns full.
Proof.
  unfold previous_slice. intros H.
  inv_bind H. apply column_Ok in Ha. destruct Ha as [Hd _].
  destruct (String.eqb g "All") eqn:E; simpl in H.
  - inversion H. apply String.eqb_eq in E. auto.
  - inv_bind H. apply column_Ok in Ha. destruct Ha as [Hg _].
    rewrite has_column_filter_rows in Hg. inversion H. auto.
Qed.

(** The build goes through when the columns it reads are there. *)
Lemma build_evidence_total (full filtered p : DataFrame) (s e : date)
    (g : string) :
  required_columns filtered ->
  previous_slice full (to_datetime s) (to_datetime e) g = Ok p ->
  empty p = true \/ required_columns full ->
  exists ev, build_evidence full filtered s e g = Ok ev.
Proof.
  intros Hfilt Hslice Hfull. unfold build_evidence.
  destruct (empty filtered); [eauto |].
  destruct (period_aggregates_total filtered Hfilt) as [cur ->]. simpl.
  rewrite Hslice. simpl. rewrite !pydiv_max. simpl.
  destruct (empty p) eqn:Hp; [eauto |].
  destruct Hfull as [Hfull | Hfull]; [discriminate |].
  apply previous_slice_Ok in Hslice. destruct Hslice as (_ & _ & Hcols).
  pose proof (required_columns_same full p Hcols Hfull) as Hreq.
  destruct (period_aggregates_total p Hreq) as [prev ->]. simpl.
  destruct (safe_pct_change_total (total_watch_minutes cur)
              (total_watch_minutes prev)) as [o1 ->]. simpl.
  destruct (safe_pct_change_total (Qc_of_Z (active_users cur))
              (Qc_of_Z (active_users prev))) as [o2 ->]. simpl.
  destruct (safe_pct_change_total (Qc_of_Z (titles_watched cur))
              (Qc_of_Z (titles_watched prev))) as [o3 ->]. simpl.
  rewrite !pydiv_max. simpl.
  match goal with
  | |- context [_safe_pct_change ?a ?b] =>
      destruct (safe_pct_change_total a b) as [o4 ->]
  end. simpl.
  destruct Hfilt as (Hfm & _). destruct Hreq as (Hpm & _).
  destruct (delta_table_total filtered p "device_type" _ 6 true Hfm Hpm)
    as [d1 ->]. simpl.
  destruct (delta_table_total filtered p "location_country" _ 6 true Hfm Hpm)
    as [d2 ->]. simpl.
  destruct (delta_table_total filtered p "title" _ 6 true Hfm Hpm)
    as [d3 ->]. simpl.
  destruct (delta_table_total filtered p "genre_primary" _ 6 true Hfm Hpm)
    as [d4 ->]. simpl.
  eauto.
Qed.

(** X4. The build returns a packet exactly when the selection is empty, or
    the selection has the three columns the aggregates read, the full table
    has [watch_date] (and [genre_primary] when a genre is selected) and, unless
    the previous slice is empty, the full table has the three columns too.
    Otherwise it raises the [KeyError] of a missing column. *)
Theorem build_evidence_succeeds_iff
    (full filtered : DataFrame) (s e : date) (g : string) :
  ((exists ev, build_evidence full filtered s e g = Ok ev) <->
   (empty filtered = true \/
    (required_columns filtered /\
     exists p, previous_slice full (to_datetime s) (to_datetime e) g = Ok p /\
               (empty p = true \/ required_columns full)))) /\
  (forall x, build_evidence full filtered s e g = Raise x ->
     exists c, x = KeyError c /\
       (has_column filtered c = false \/ has_column full c = false) /\
       In c ["watch_duration_minutes"; "user_id"; "title"; "watch_date";
             "genre_primary"]).
Proof.
  split; [split |].
  - intros [ev H]. apply build_evidence_shape in H.
    destruct H as [He | cur p Hne Hcur Hslice Hp |
                   cur prev p ? ? ? ? ? ? ? ? Hne Hcur Hslice Hp Hprev];
      [now left | right | right].
    + apply period_aggregates_Ok in Hcur. destruct Hcur as [Hreq _].
      split; [exact Hreq |]. exists p. auto.
    + apply period_aggregates_Ok in Hcur. destruct Hcur as [Hreq _].
      split; [exact Hreq |]. exists p. split; [exact Hslice |]. right.
      apply period_aggregates_Ok in Hprev. destruct Hprev as [Hreq' _].
      apply previous_slice_Ok in Hslice. destruct Hslice as (_ & _ & Hcols).
      apply (required_columns_same p full); [now symmetry | exact Hreq'].
  - intros [He | (Hreq & p & Hslice & Hp)].
    + unfold build_evidence. rewrite He. eauto.
    + now apply (build_evidence_total full filtered p).
  - intros x H. unfold build_evidence in H.
    destruct (empty filtered); [discriminate |].
    apply bind_Raise in H. destruct H as [H | (cur & Hcur & H)].
    { apply period_aggregates_Raise in H. destruct H as (c & -> & Hc & Hin).
      exists c. split; [reflexivity |]. split; [now left |].
      simpl in *. tauto. }
    apply bind_Raise in H. destruct H as [H | (p & Hslice & H)].
    { apply previous_slice_Raise in H.
      destruct H as [[-> Hc] | (-> & _ & Hc)]; eexists;
        (split; [reflexivity |]); (split; [now right |]); simpl; tauto. }
    rewrite !pydiv_max in H. simpl in H.
    destruct (empty p) eqn:Hp; [discriminate |].
    apply bind_Raise in H. destruct H as [H | (prev & Hprev & H)].
    { apply period_aggregates_Raise in H. destruct H as (c & -> & Hc & Hin).
      apply previous_slice_Ok in Hslice. destruct Hslice as (_ & _ & Hcols).
      exists c. split; [reflexivity |]. split.
      - right. unfold has_column in *. now rewrite <- Hcols.
      - simpl in *. tauto. }
    exfalso.
    apply period_aggregates_Ok in Hcur. destruct Hcur as [Hreq _].
    apply period_aggregates_Ok in Hprev. destruct Hprev as [Hreq' _].
    destruct (safe_pct_change_total (total_watch_minutes cur)
                (total_watch_minutes prev)) as [o1 E1].
    destruct (safe_pct_change_total (Qc_of_Z (active_users cur))
                (Qc_of_Z (active_users prev))) as [o2 E2].
    destruct (safe_pct_change_total (Qc_of_Z (titles_watched cur))
                (Qc_of_Z (titles_watched prev))) as [o3 E3].
    rewrite E1, E2, E3 in H. simpl in H.
    rewrite !pydiv_max in H. simpl in H.
    match type of H with
    | context [_safe_pct_change ?a ?b] =>
        destruct (safe_pct_change_total a b) as [o4 E4]; rewrite E4 in H
    end. simpl in H.
    destruct Hreq as (Hfm & _). destruct Hreq' as (Hpm & _).
    destruct (delta_table_total filtered p "device_type" _ 6 true Hfm Hpm)
      as [d1 D1].
    destruct (delta_table_total filtered p "location_country" _ 6 true Hfm Hpm)
      as [d2 D2].
    destruct (delta_table_total filtered p "title" _ 6 true Hfm Hpm)
      as [d3 D3].
    destruct (delta_table_total filtered p "genre_primary" _ 6 true Hfm Hpm)
      as [d4 D4].
    rewrite D1, D2, D3, D4 in H. simpl in H. discriminate.
Qed.

(** ** The states of the packet *)

(** X5. A packet is in one of three states, and its note tells which: the
    note on missing data goes with an empty current period and no changes;
    the note on the missing previous period goes with a current period, no
    previous period, null percent changes and no driver deltas; the empty
    note goes with both periods and the four driver tables.  The filters are
    those of the call. *)
Theorem note_tells_the_state
    (full filtered : DataFrame) (s e : date) (g : string) (ev : Evidence) :
  build_evidence full filtered s e g = Ok ev ->
  filters ev = {| start_date := s; end_date := e; genre := g |} /\
  ((note ev = note_no_data /\ empty filtered = true /\
    current_period ev = None /\ previous_period ev = None /\
    changes ev = None) \/
   (note ev = note_no_previous /\ empty filtered = false /\
    current_period ev <> None /\ previous_period ev = None /\
    exists ch, changes ev = Some ch /\ driver_deltas ch = [] /\
      total_watch_minutes_pct_change ch = None /\
      active_users_pct_change ch = None /\
      titles_watched_pct_change ch = None) \/
   (note ev = EmptyString /\ empty filtered = false /\
    current_period ev <> None /\ previous_period ev <> None /\
    exists ch, changes ev = Some ch /\
      map fst (driver_deltas ch) = driver_dimensions)).
Proof.
  intros H. apply build_evidence_shape in H.
  destruct H; simpl; (split; [reflexivity |]).
  - left. auto.
  - right. left. repeat split; try assumption; try discriminate.
    eexists. split; [reflexivity |]. simpl. auto.
  - right. right. repeat split; try assumption; try discriminate.
    eexists. split; [reflexivity |]. reflexivity.
Qed.

(** ** The driver tables of a packet *)

Lemma delta_table_length (cur prev : DataFrame) (key value : string) (n : Z)
    (by_abs : bool) (out : list DeltaRow) :
  0 <= n -> _delta_table cur prev key value n by_abs = Ok out ->
  (List.length out <= Z.to_nat n)%nat.
Proof.
  intros Hn H. apply delta_table_Ok in H.
  destruct H as [-> | (_ & _ & _ & ->)]; [simpl; lia |].
  rewrite length_map, head_nonneg by assumption.
  rewrite length_firstn. lia.
Qed.

Lemma delta_table_descending (cur prev : DataFrame) (key value : string)
    (n : Z) (by_abs : bool) (out : list DeltaRow) :
  0 <= n -> _delta_table cur prev key value n by_abs = Ok out ->
  descending (sort_key by_abs) out.
Proof.
  intros Hn H. apply delta_table_Ok in H.
  destruct H as [-> | (_ & _ & _ & ->)]; [constructor |].
  rewrite sorted_rows_eq, head_nonneg by assumption.
  apply descending_round_rows, sort_values_desc_sorted.
Qed.

(** X6. In a packet with both periods every driver table has at most six
    rows, of distinct names that are not null, in descending order of the
    absolute value of delta. *)
Theorem driver_tables_of_a_packet
    (full filtered : DataFrame) (s e : date) (g : string)
    (ev : Evidence) (ch : Changes) (dim : string) (table : list DeltaRow) :
  build_evidence full filtered s e g = Ok ev ->
  changes ev = Some ch ->
  In (dim, table) (driver_deltas ch) ->
  In dim driver_dimensions /\
  (List.length table <= 6)%nat /\
  NoDup (map name table) /\
  (forall r, In r table -> name r <> NA) /\
  descending (sort_key true) table.
Proof.
  intros H Hch Hin. apply build_evidence_shape in H.
  destruct H; simpl in Hch; inversion Hch; subst ch; clear Hch;
    simpl in Hin; [contradiction |].
  assert (Hsix : 0 <= 6) by lia.
  destruct Hin as [E | [E | [E | [E | []]]]]; inversion E; subst;
    match goal with
    | Ht : _delta_table _ _ _ _ _ _ = Ok table |- _ =>
        pose proof (delta_table_length _ _ _ _ _ _ _ Hsix Ht);
        pose proof (delta_table_nodup _ _ _ _ _ _ _ Ht);
        pose proof (delta_table_descending _ _ _ _ _ _ _ Hsix Ht);
        pose proof (fun r => delta_table_names _ _ _ _ _ _ _ r Ht)
    end;
    change (Z.to_nat 6) with 6%nat in *; simpl; auto 10.
Qed.

(** ** The current and the previous slice *)

Lemma ts_date_spec (t : Timestamp) :
  to_datetime (ts_date t) <= t < to_datetime (ts_date t) + ns_per_day.
Proof.
  unfold ts_date, to_datetime.
  assert (Hpos : 0 < ns_per_day) by reflexivity.
  pose proof (Z.div_mod t ns_per_day) as Hd.
  pose proof (Z.mod_pos_bound t ns_per_day Hpos) as Hm.
  lia.
Qed.

Lemma ts_date_le (t : Timestamp) (d : date) :
  d <= ts_date t <-> to_datetime d <= t.
Proof.
  pose proof (ts_date_spec t) as H.
  unfold to_datetime, ns_per_day in *. lia.
Qed.

Lemma ts_date_ge (t : Timestamp) (d : date) :
  ts_date t <= d -> t < to_datetime (d + 1).
Proof.
  pose proof (ts_date_spec t) as H.
  unfold to_datetime, ns_per_day in *. lia.
Qed.

Lemma filtered_df_rows (final cur : DataFrame) (s e : date) (g : string)
    (r : row) :
  dashboard.filtered_df final s e g = Ok cur ->
  In r (rows cur) ->
  In r (rows final) /\
  exists t, get r "watch_date" = Time t /\ s <= ts_date t <= e.
Proof.
  unfold dashboard.filtered_df. intros H Hr.
  inv_bind H.
  assert (Hf : In r (filter (fun r =>
                  dashboard.date_geb (get r "watch_date") s
                  && dashboard.date_leb (get r "watch_date") e)
                  (rows final))).
  { destruct (String.eqb g "All"); simpl in H.
    - inversion H; subst cur. exact Hr.
    - inv_bind H. inversion H; subst cur. simpl in Hr.
      apply filter_In in Hr. tauto. }
  apply filter_In in Hf. destruct Hf as [Hin Hd]. split; [exact Hin |].
  apply andb_true_iff in Hd. destruct Hd as [H1 H2].
  destruct (get r "watch_date") as [| | | t]; simpl in *; try discriminate.
  exists t. split; [reflexivity | lia].
Qed.

Lemma previous_slice_rows (full prev : DataFrame) (s e : Timestamp)
    (g : string) (r : row) :
  previous_slice full s e g = Ok prev ->
  In r (rows prev) ->
  In r (rows full) /\
  exists t, get r "watch_date" = Time t /\
            prev_start_dt s e <= t <= prev_end_dt s.
Proof.
  unfold previous_slice. intros H Hr.
  inv_bind H.
  assert (Hf : In r (filter (fun r =>
                  time_geb (get r "watch_date") (prev_start_dt s e)
                  && time_leb (get r "watch_date") (prev_end_dt s))
                  (rows full))).
  { destruct (String.eqb g "All"); simpl in H.
    - inversion H; subst prev. exact Hr.
    - inv_bind H. inversion H; subst prev. simpl in Hr.
      apply filter_In in Hr. tauto. }
  apply filter_In in Hf. destruct Hf as [Hin Hd]. split; [exact Hin |].
  apply andb_true_iff in Hd. destruct Hd as [H1 H2].
  destruct (get r "watch_date") as [| | | t]; simpl in *; try discriminate.
  exists t. split; [reflexivity | lia].
Qed.

(** X7. The selection of the page and the previous slice share no row; and
    an event of the day before the start date that is later than midnight is
    in neither: the previous window ends at the midnight that begins its last
    day. *)
Theorem slices_disjoint_and_last_day_left_out
    (final cur prev : DataFrame) (s e : date) (g : string) :
  dashboard.filtered_df final s e g = Ok cur ->
  previous_slice final (to_datetime s) (to_datetime e) g = Ok prev ->
  (forall r, In r (rows cur) -> ~ In r (rows prev)) /\
  (forall r t, get r "watch_date" = Time t ->
     to_datetime (s - 1) < t < to_datetime s ->
     ~ In r (rows cur) /\ ~ In r (rows prev)).
Proof.
  intros Hcur Hprev. split.
  - intros r Hr Hr'.
    destruct (filtered_df_rows _ _ _ _ _ _ Hcur Hr) as (_ & t & Ht & Hd).
    destruct (previous_slice_rows _ _ _ _ _ _ Hprev Hr')
      as (_ & t' & Ht' & Hd').
    rewrite Ht in Ht'. inversion Ht'; subst t'.
    rewrite prev_end_dt_dates in Hd'.
    destruct Hd as [Hd _]. apply ts_date_le in Hd.
    unfold to_datetime, ns_per_day in *. lia.
  - intros r t Ht Hbetween. split.
    + intros Hr.
      destruct (filtered_df_rows _ _ _ _ _ _ Hcur Hr) as (_ & t' & Ht' & Hd).
      rewrite Ht in Ht'. inversion Ht'; subst t'.
      destruct Hd as [Hd _]. apply ts_date_le in Hd. lia.
    + intros Hr.
      destruct (previous_slice_rows _ _ _ _ _ _ Hprev Hr)
        as (_ & t' & Ht' & Hd).
      rewrite Ht in Ht'. inversion Ht'; subst t'.
      rewrite prev_end_dt_dates in Hd. lia.
Qed.

Lemma filter_rows_ext (p q : row -> bool) (df : DataFrame) :
  (forall r, In r (rows df) -> p r = q r) ->
  filter_rows p df = filter_rows q df.
Proof.
  intros H. unfold filter_rows. f_equal. now apply filter_ext_in.
Qed.

(** X8. On a table of dates without a time, the previous slice is the
    selection the page would make for the previous window: the days from
    start - (end - start + 1) to start - 1, and the same genre. *)
Theorem previous_slice_is_selection_of_previous_window
    (final : DataFrame) (s e : date) (g : string) :
  date_only final ->
  previous_slice final (to_datetime s) (to_datetime e) g
  = dashboard.filtered_df final (s - (e - s + 1)) (s - 1) g.
Proof.
  intros Hdate. unfold previous_slice, dashboard.filtered_df.
  rewrite (filter_rows_ext
             (fun r => time_geb (get r "watch_date")
                         (prev_start_dt (to_datetime s) (to_datetime e))
                       && time_leb (get r "watch_date")
                            (prev_end_dt (to_datetime s)))
             (fun r => dashboard.date_geb (get r "watch_date")
                         (s - (e - s + 1))
                       && dashboard.date_leb (get r "watch_date") (s - 1)));
    [reflexivity |].
  intros r Hr. specialize (Hdate r).
  rewrite prev_start_dt_dates, prev_end_dt_dates.
  destruct (get r "watch_date") as [| | | t]; try reflexivity.
  specialize (Hdate t Hr eq_refl). simpl.
  assert (Ht : t = to_datetime (ts_date t)).
  { unfold ts_date, to_datetime.
    pose proof (Z.div_mod t ns_per_day) as Hd.
    assert (Hpos : ns_per_day <> 0) by discriminate. lia. }
  unfold to_datetime, ns_per_day in *.
  f_equal; apply eq_true_iff_eq; rewrite !Z.leb_le; lia.
Qed.

(** ** The charts and the evidence *)

(** X9. The top titles of the evidence are the first five of the ten titles
    of the chart, and the top genres are the first five entries of the genre
    chart, both computed from the same selection. *)
Theorem evidence_tops_are_chart_prefixes (df : DataFrame) (a : PeriodAggregate) :
  _period_aggregates df = Ok a ->
  (exists chart, dashboard.top_titles df = Ok chart /\
                 top_titles a = firstn 5 chart) /\
  (has_column df "genre_primary" = true ->
   exists chart, dashboard.watch_time_by_genre df = Ok chart /\
                 top_genres a = firstn 5 chart).
Proof.
  intros H. apply period_aggregates_Ok in H.
  destruct H as ((Hm & _ & Ht) & _ & _ & Hg & Htop & _).
  split.
  - unfold dashboard.top_titles. rewrite groupby_sum_columns by assumption.
    cbn [bind]. eexists. split; [reflexivity |].
    apply top_n_Ok in Htop; [| exact Ht]. rewrite Htop.
    rewrite !head_nonneg by lia. rewrite firstn_firstn. reflexivity.
  - intros Hc. unfold dashboard.watch_time_by_genre.
    rewrite groupby_sum_columns by assumption.
    cbn [bind]. eexists. split; [reflexivity |].
    apply top_n_Ok in Hg; [| exact Hc]. rewrite Hg.
    now rewrite head_nonneg by lia.
Qed.

(** * Further properties of the loader *)

Lemma select_columns_all (df : DataFrame) (cs : list string) :
  (forall c, In c cs -> has_column df c = true) ->
  select_columns df cs =
  Ok {| columns := cs;
        rows := map (fun r => map (fun c => (c, get r c)) cs) (rows df) |}.
Proof.
  intros H. unfold select_columns.
  destruct (find (fun c => negb (has_column df c)) cs) as [c |] eqn:E;
    [| reflexivity].
  apply find_some in E. destruct E as [Hin Hc].
  rewrite (H c Hin) in Hc. discriminate.
Qed.

Lemma select_columns_Raise (df : DataFrame) (cs : list string) (x : exn) :
  select_columns df cs = Raise x ->
  exists c, x = KeyError c /\ In c cs /\ has_column df c = false.
Proof.
  unfold select_columns.
  destruct (find (fun c => negb (has_column df c)) cs) as [c |] eqn:E;
    [| discriminate].
  intros H. inversion H; subst. apply find_some in E. destruct E as [Hin Hc].
  exists c. apply negb_true_iff in Hc. auto.
Qed.

Lemma select_columns_present (df out : DataFrame) (cs : list string) :
  select_columns df cs = Ok out ->
  forall c, In c cs -> has_column df c = true.
Proof.
  unfold select_columns.
  destruct (find (fun c => negb (has_column df c)) cs) as [c |] eqn:E;
    [discriminate |].
  intros _ c Hin. apply (find_none _ _ E) in Hin.
  now apply negb_false_iff in Hin.
Qed.

Lemma set_column_length (c : string) (values : list cell) (l : list row) :
  List.length (set_column c values l) = List.length l.
Proof.
  revert values. induction l as [| r l IH]; intros values; simpl;
    [reflexivity | now rewrite IH].
Qed.

(** Setting a column leaves the other columns as they are. *)
Lemma map_get_set_column {B : Type} (f : cell -> B) (c k : string)
    (values : list cell) (l : list row) :
  c <> k ->
  map (fun r => f (get r k)) (set_column c values l)
  = map (fun r => f (get r k)) l.
Proof.
  intros Hck. revert values.
  induction l as [| r l IH]; intros values; [reflexivity |].
  cbn [set_column map get]. rewrite IH.
  destruct (String.eqb c k) eqn:E; [| reflexivity].
  apply String.eqb_eq in E. contradiction.
Qed.

Section LoaderFacts.

Variable parse_dates : list cell -> option (list cell).

(** [load_data], step by step. *)
Lemma load_data_eq (movies_df watch_df : DataFrame) :
  load_data parse_dates movies_df watch_df =
  if negb (has_column (normalize_columns watch_df) "watch_date")
  then Raise (KeyError "watch_date")
  else
    match parse_dates (watch_dates watch_df) with
    | None => Raise ValueError
    | Some dates =>
        if negb (has_column (normalize_columns watch_df)
                   "watch_duration_minutes")
        then Raise (KeyError "watch_duration_minutes")
        else
          match find (fun c => negb (has_column (normalize_columns movies_df) c))
                  movie_columns with
          | Some c => Raise (KeyError c)
          | None =>
              merge_left (filled_watch dates watch_df)
                (selected_movies movies_df) "movie_id"
          end
    end.
Proof.
  unfold load_data, to_datetime_column, fillna_column, column.
  destruct (has_column (normalize_columns watch_df) "watch_date");
    cbn [negb bind]; [| reflexivity].
  fold (watch_dates watch_df).
  destruct (parse_dates (watch_dates watch_df)) as [dates |];
    cbn [bind]; [| reflexivity].
  change (has_column
            {| columns := columns (normalize_columns watch_df);
               rows := set_column "watch_date" dates
                         (rows (normalize_columns watch_df)) |}
            "watch_duration_minutes")
    with (has_column (normalize_columns watch_df) "watch_duration_minutes").
  destruct (has_column (normalize_columns watch_df) "watch_duration_minutes");
    cbn [negb bind]; [| reflexivity].
  unfold select_columns.
  destruct (find (fun c => negb (has_column (normalize_columns movies_df) c))
              movie_columns); reflexivity.
Qed.

Lemma find_missing_None (df : DataFrame) (cs : list string) :
  find (fun c => negb (has_column df c)) cs = None <->
  forall c, In c cs -> has_column df c = true.
Proof.
  split.
  - intros E c Hin. apply (find_none _ _ E) in Hin.
    now apply negb_false_iff in Hin.
  - intros H. destruct (find _ cs) as [c |] eqn:E; [| reflexivity].
    apply find_some in E. destruct E as [Hin Hc].
    rewrite (H c Hin) in Hc. discriminate.
Qed.

Lemma merge_left_filled (dates : list cell) (movies_df watch_df : DataFrame) :
  has_column (normalize_columns watch_df) "movie_id" = true ->
  exists final,
    merge_left (filled_watch dates watch_df) (selected_movies movies_df)
      "movie_id" = Ok final.
Proof.
  intros Hid. unfold merge_left.
  change (has_column (filled_watch dates watch_df) "movie_id")
    with (has_column (normalize_columns watch_df) "movie_id").
  rewrite Hid. cbn. eauto.
Qed.

Lemma merge_left_filled_Raise (dates : list cell)
    (movies_df watch_df : DataFrame) (x : exn) :
  merge_left (filled_watch dates watch_df) (selected_movies movies_df)
    "movie_id" = Raise x ->
  x = KeyError "movie_id" /\
  has_column (normalize_columns watch_df) "movie_id" = false.
Proof.
  unfold merge_left.
  change (has_column (filled_watch dates watch_df) "movie_id")
    with (has_column (normalize_columns watch_df) "movie_id").
  destruct (has_column (normalize_columns watch_df) "movie_id");
    cbn; intros H; inversion H; auto.
Qed.

(** What [load_data] returns when it returns. *)
Lemma load_data_Ok (movies_df watch_df final : DataFrame) :
  load_data parse_dates movies_df watch_df = Ok final ->
  loadable movies_df watch_df /\
  exists dates,
    parse_dates (watch_dates watch_df) = Some dates /\
    merge_left (filled_watch dates watch_df) (selected_movies movies_df)
      "movie_id" = Ok final.
Proof.
  rewrite load_data_eq.
  destruct (has_column (normalize_columns watch_df) "watch_date") eqn:Hd;
    cbn [negb]; [| discriminate].
  destruct (parse_dates (watch_dates watch_df)) as [dates |] eqn:Hp;
    [| discriminate].
  destruct (has_column (normalize_columns watch_df) "watch_duration_minutes")
    eqn:Hm; cbn [negb]; [| discriminate].
  destruct (find _ movie_columns) as [c |] eqn:Hf; [discriminate |].
  intros H. split; [| eauto].
  unfold loadable. split; [exact Hd |]. split; [exact Hm |].
  split; [| now apply find_missing_None].
  destruct (has_column (normalize_columns watch_df) "movie_id") eqn:Hid;
    [reflexivity |].
  unfold merge_left in H.
  change (has_column (filled_watch dates watch_df) "movie_id")
    with (has_column (normalize_columns watch_df) "movie_id") in H.
  rewrite Hid in H. discriminate H.
Qed.

Lemma load_data_loadable (movies_df watch_df : DataFrame) (dates : list cell) :
  loadable movies_df watch_df ->
  parse_dates (watch_dates watch_df) = Some dates ->
  load_data parse_dates movies_df watch_df =
  merge_left (filled_watch dates watch_df) (selected_movies movies_df)
    "movie_id".
Proof.
  intros (Hd & Hm & _ & Hall) Hp.
  rewrite load_data_eq, Hd, Hp, Hm. cbn [negb].
  apply find_missing_None in Hall. now rewrite Hall.
Qed.

(** X10. [load_data] returns a table exactly when the watch history has the
    columns [watch_date], [watch_duration_minutes] and [movie_id], the
    catalog has the seven columns that are kept (the names compared in lower
    case and without surrounding white space) and [pd.to_datetime] accepts
    the watch dates.  Otherwise it raises the [KeyError] of a column that is
    missing, or the [ValueError] of the dates when [watch_date] is there and
    they do not parse. *)
Theorem load_data_succeeds_iff (movies_df watch_df : DataFrame) :
  ((exists final, load_data parse_dates movies_df watch_df = Ok final) <->
   loadable movies_df watch_df /\
   exists dates, parse_dates (watch_dates watch_df) = Some dates) /\
  (forall x, load_data parse_dates movies_df watch_df = Raise x ->
     (exists c, x = KeyError c /\
        ((In c ["watch_date"; "watch_duration_minutes"; "movie_id"] /\
          has_column (normalize_columns watch_df) c = false) \/
         (In c movie_columns /\
          has_column (normalize_columns movies_df) c = false))) \/
     (x = ValueError /\
      has_column (normalize_columns watch_df) "watch_date" = true /\
      parse_dates (watch_dates watch_df) = None)) /\
  (has_column (normalize_columns watch_df) "watch_date" = true ->
   parse_dates (watch_dates watch_df) = None ->
   load_data parse_dates movies_df watch_df = Raise ValueError).
Proof.
  split; [split | split].
  - intros [final H]. apply load_data_Ok in H.
    destruct H as (Hl & dates & Hp & _). eauto.
  - intros (Hl & dates & Hp). rewrite (load_data_loadable _ _ dates Hl Hp).
    destruct Hl as (_ & _ & Hid & _). now apply merge_left_filled.
  - intros x. rewrite load_data_eq.
    destruct (has_column (normalize_columns watch_df) "watch_date") eqn:Hd;
      cbn [negb].
    2:{ intros H. inversion H. left. eexists. split; [reflexivity |].
        left. simpl. auto. }
    destruct (parse_dates (watch_dates watch_df)) as [dates |] eqn:Hp.
    2:{ intros H. inversion H. right. auto. }
    destruct (has_column (normalize_columns watch_df)
                "watch_duration_minutes") eqn:Hm; cbn [negb].
    2:{ intros H. inversion H. left. eexists. split; [reflexivity |].
        left. simpl. auto. }
    destruct (find _ movie_columns) as [c |] eqn:Hf.
    + intros H. inversion H. apply find_some in Hf. destruct Hf as [Hin Hc].
      apply negb_true_iff in Hc. left. exists c. split; [reflexivity |].
      now right.
    + intros H. apply merge_left_filled_Raise in H. destruct H as [-> Hid].
      left. eexists. split; [reflexivity |]. left. simpl. auto.
  - intros Hd Hp. now rewrite load_data_eq, Hd, Hp.
Qed.

(** ** The rows of the loaded table *)

Lemma merge_left_rows (left right final : DataFrame) (on : string) :
  merge_left left right on = Ok final ->
  rows final = flat_map (joined_rows left right on) (rows left).
Proof.
  unfold merge_left.
  destruct (has_column left on); cbn [negb]; [| discriminate].
  destruct (has_column right on); cbn [negb]; [| discriminate].
  intros H. inversion H. reflexivity.
Qed.

Lemma joined_rows_length (left right : DataFrame) (on : string) (l : row) :
  List.length (joined_rows left right on l)
  = Nat.max 1 (List.length
                 (filter (fun m => cell_eqb (get m on) (get l on))
                    (rows right))).
Proof.
  unfold joined_rows.
  destruct (filter _ (rows right)) as [| m ms]; [reflexivity |].
  rewrite length_map. simpl. reflexivity.
Qed.

Lemma length_flat_map {A B : Type} (f : A -> list B) (l : list A) :
  List.length (flat_map f l) = list_sum (map (fun x => List.length (f x)) l).
Proof.
  induction l as [| x l IH]; simpl; [reflexivity |].
  now rewrite length_app, IH.
Qed.

Lemma filter_map_length {A B : Type} (p : B -> bool) (f : A -> B) (l : list A) :
  List.length (filter p (map f l))
  = List.length (filter (fun x => p (f x)) l).
Proof.
  induction l as [| x l IH]; simpl; [reflexivity |].
  destruct (p (f x)); simpl; now rewrite IH.
Qed.

Lemma get_filled (r : row) (c : string) :
  c <> "watch_duration_minutes" ->
  get match get r "watch_duration_minutes" with
      | NA => ("watch_duration_minutes", Num (Qc_of_Z 0)) :: r
      | _ => r
      end c = get r c.
Proof.
  intros Hc. destruct (get r "watch_duration_minutes"); try reflexivity.
  cbn [get]. destruct (String.eqb "watch_duration_minutes" c) eqn:E;
    [apply String.eqb_eq in E; congruence | reflexivity].
Qed.

Lemma selected_matches (movies_df : DataFrame) (k : cell) :
  List.length (filter (fun m => cell_eqb (get m "movie_id") k)
                 (rows (selected_movies movies_df)))
  = catalog_matches movies_df k.
Proof.
  unfold selected_movies, catalog_matches. cbn [rows].
  rewrite filter_map_length. reflexivity.
Qed.

Lemma load_data_length (movies_df watch_df final : DataFrame) :
  load_data parse_dates movies_df watch_df = Ok final ->
  List.length (rows final)
  = list_sum (map (fun l => Nat.max 1 (catalog_matches movies_df
                                         (get l "movie_id")))
                (rows (normalize_columns watch_df))).
Proof.
  intros H. apply load_data_Ok in H. destruct H as (_ & dates & _ & H).
  rewrite (merge_left_rows _ _ _ _ H), length_flat_map.
  unfold filled_watch at 2. cbn [rows]. rewrite map_map.
  rewrite <- (map_get_set_column
                (fun k => Nat.max 1 (catalog_matches movies_df k))
                "watch_date" "movie_id" dates) by discriminate.
  f_equal. apply map_ext. intros l.
  rewrite joined_rows_length, selected_matches.
  rewrite get_filled by discriminate. reflexivity.
Qed.

Lemma list_sum_ge_length {A : Type} (f : A -> nat) (l : list A) :
  (forall x, 1 <= f x)%nat -> (List.length l <= list_sum (map f l))%nat.
Proof.
  intros H. induction l as [| x l IH]; simpl; [lia |].
  specialize (H x). lia.
Qed.

Lemma list_sum_ones {A : Type} (f : A -> nat) (l : list A) :
  (forall x, f x = 1)%nat -> list_sum (map f l) = List.length l.
Proof.
  intros H. induction l as [| x l IH]; simpl; [reflexivity |].
  rewrite H, IH. reflexivity.
Qed.

Lemma NoDup_filter_le_1 {A : Type} (f : A -> cell) (k : cell) (l : list A) :
  NoDup (map f l) ->
  (List.length (filter (fun x => cell_eqb (f x) k) l) <= 1)%nat.
Proof.
  induction l as [| x l IH]; simpl; intros H; [lia |].
  inversion H as [| ? ? Hnin Hnd]; subst. specialize (IH Hnd).
  destruct (cell_eqb (f x) k) eqn:E; [| exact IH].
  apply cell_eqb_true in E. simpl.
  assert (Hz : filter (fun x => cell_eqb (f x) k) l = []).
  { destruct (filter (fun x => cell_eqb (f x) k) l) as [| y ys] eqn:F;
      [reflexivity |].
    exfalso. assert (Hy : In y (filter (fun x => cell_eqb (f x) k) l))
      by (rewrite F; now left).
    apply filter_In in Hy. destruct Hy as [Hy Ey].
    apply cell_eqb_true in Ey. apply Hnin. rewrite E, <- Ey.
    now apply in_map. }
  rewrite Hz. simpl. lia.
Qed.

Lemma unique_matches (movies_df : DataFrame) (k : cell) :
  unique_movie_ids movies_df -> Nat.max 1 (catalog_matches movies_df k) = 1%nat.
Proof.
  intros H. unfold catalog_matches.
  pose proof (NoDup_filter_le_1 (fun m => get m "movie_id") k _ H). lia.
Qed.

Lemma normalize_rows_length (df : DataFrame) :
  List.length (rows (normalize_columns df)) = List.length (rows df).
Proof. unfold normalize_columns. cbn [rows]. apply length_map. Qed.

(** X11. The left join loses no watch event: the loaded table has one row per
    event and catalog row of the same movie id, and one row for an event with
    no catalog row.  It has as many rows as the watch history when no movie
    id occurs twice in the catalog. *)
Theorem load_data_keeps_every_event (movies_df watch_df final : DataFrame) :
  load_data parse_dates movies_df watch_df = Ok final ->
  List.length (rows final)
  = list_sum (map (fun l => Nat.max 1 (catalog_matches movies_df
                                         (get l "movie_id")))
                (rows (normalize_columns watch_df))) /\
  (List.length (rows watch_df) <= List.length (rows final))%nat /\
  (unique_movie_ids movies_df ->
   List.length (rows final) = List.length (rows watch_df)).
Proof.
  intros H. pose proof (load_data_length _ _ _ H) as E.
  split; [exact E |]. rewrite E, <- (normalize_rows_length watch_df). split.
  - apply list_sum_ge_length. intros l. lia.
  - intros Hu. apply list_sum_ones. intros l. now apply unique_matches.
Qed.

(** ** The watch minutes of the loaded table *)

Lemma Qc_of_Z_succ (n : nat) :
  Qc_of_Z (Z.of_nat (S n)) = (1 + Qc_of_Z (Z.of_nat n))%Qc.
Proof.
  unfold Qc_of_Z. apply Qc_is_canon. unfold Qcplus.
  rewrite !this_Q2Qc, Nat2Z.inj_succ. unfold Z.succ.
  rewrite inject_Z_plus. change (this 1%Qc) with 1%Q.
  change (inject_Z 1) with 1%Q. ring.
Qed.

Lemma sum_same (c : string) (v : cell) (rs : list row) :
  (forall r, In r rs -> get r c = v) ->
  sum (map (fun r => get r c) rs)
  = (Qc_of_Z (Z.of_nat (List.length rs)) * to_num v)%Qc.
Proof.
  induction rs as [| r rs IH]; intros H.
  - simpl. change (Qc_of_Z 0) with 0%Qc. ring.
  - cbn [map List.length]. rewrite sum_cons, Qc_of_Z_succ.
    rewrite IH by (intros r' Hr'; apply H; now right).
    rewrite (H r) by now left. ring.
Qed.

Lemma sum_app (l l' : list cell) : sum (l ++ l') = (sum l + sum l')%Qc.
Proof.
  induction l as [| c l IH]; simpl.
  - ring.
  - fold (sum (l ++ l')). fold (sum l). rewrite IH. ring.
Qed.

Lemma get_left_part_own (lcols rcols : list string) (on c : string)
    (f : string -> cell) (rest : row) :
  In c lcols -> ~ In c rcols -> last_char c <> Some "x"%char ->
  get (map (fun c => (left_name on rcols c, f c)) lcols ++ rest) c = f c.
Proof.
  intros Hin Hnr Hx. rewrite get_named.
  destruct (find (fun c' => String.eqb (left_name on rcols c') c) lcols)
    as [c' |] eqn:E.
  - apply find_some in E. destruct E as [_ E]. apply String.eqb_eq in E.
    apply lname_target in E; [| exact Hx]. destruct E as [-> _]. reflexivity.
  - exfalso. apply (find_none _ _ E) in Hin. unfold left_name in Hin.
    assert (Hm : mem c rcols = false).
    { destruct (mem c rcols) eqn:M; [| reflexivity].
      apply mem_In in M. contradiction. }
    rewrite Hm, andb_false_r, String.eqb_refl in Hin. discriminate.
Qed.

(** Every joined row of an event has the watch minutes of the event. *)
Lemma joined_minutes (dates : list cell) (movies_df watch_df : DataFrame)
    (l r : row) :
  has_column (normalize_columns watch_df) "watch_duration_minutes" = true ->
  In r (joined_rows (filled_watch dates watch_df) (selected_movies movies_df)
          "movie_id" l) ->
  get r "watch_duration_minutes" = get l "watch_duration_minutes".
Proof.
  intros Hc Hr. unfold joined_rows in Hr. apply in_joined in Hr.
  assert (Hin : In "watch_duration_minutes"
                  (columns (filled_watch dates watch_df)))
    by (apply has_column_In; exact Hc).
  assert (Hnr : ~ In "watch_duration_minutes"
                  (right_columns (selected_movies movies_df) "movie_id")).
  { unfold right_columns, selected_movies, movie_columns. simpl.
    intros H. repeat (destruct H as [H | H]; [discriminate |]). exact H. }
  destruct Hr as [[_ ->] | (m & _ & ->)];
    apply get_left_part_own; auto; simpl; congruence.
Qed.

Lemma filled_not_NA (r : row) :
  get match get r "watch_duration_minutes" with
      | NA => ("watch_duration_minutes", Num (Qc_of_Z 0)) :: r
      | _ => r
      end "watch_duration_minutes" <> NA.
Proof.
  destruct (get r "watch_duration_minutes") eqn:E;
    cbn [get]; rewrite ?String.eqb_refl, ?E; discriminate.
Qed.

Lemma filled_to_num (r : row) :
  to_num (get match get r "watch_duration_minutes" with
              | NA => ("watch_duration_minutes", Num (Qc_of_Z 0)) :: r
              | _ => r
              end "watch_duration_minutes")
  = to_num (get r "watch_duration_minutes").
Proof.
  destruct (get r "watch_duration_minutes") eqn:E;
    cbn [get]; rewrite ?String.eqb_refl, ?E; reflexivity.
Qed.

(** The watch minutes of the joined rows of a list of events. *)
Lemma joined_minutes_sum (dates : list cell) (movies_df watch_df : DataFrame)
    (ls : list row) :
  has_column (normalize_columns watch_df) "watch_duration_minutes" = true ->
  sum (map (fun r => get r "watch_duration_minutes")
         (flat_map (joined_rows (filled_watch dates watch_df)
                      (selected_movies movies_df) "movie_id") ls))
  = fold_right
      (fun l acc =>
         (Qc_of_Z (Z.of_nat
                     (Nat.max 1 (catalog_matches movies_df
                                   (get l "movie_id"))))
          * to_num (get l "watch_duration_minutes") + acc)%Qc)
      0%Qc ls.
Proof.
  intros Hc. induction ls as [| l ls IH]; [reflexivity |].
  cbn [map flat_map fold_right]. rewrite map_app, sum_app, IH.
  f_equal.
  rewrite (sum_same "watch_duration_minutes"
             (get l "watch_duration_minutes")).
  - rewrite joined_rows_length, selected_matches. reflexivity.
  - intros r Hr. now apply (joined_minutes dates movies_df watch_df).
Qed.

(** The fold of [minutes_by_matches] reads the movie id and the minutes
    only. *)
Lemma minutes_fold_ext (movies_df : DataFrame) (ls ls' : list row) :
  map (fun l => (get l "movie_id", to_num (get l "watch_duration_minutes"))) ls
  = map (fun l => (get l "movie_id",
                   to_num (get l "watch_duration_minutes"))) ls' ->
  fold_right
    (fun l acc =>
       (Qc_of_Z (Z.of_nat
                   (Nat.max 1 (catalog_matches movies_df (get l "movie_id"))))
        * to_num (get l "watch_duration_minutes") + acc)%Qc)
    0%Qc ls
  = fold_right
      (fun l acc =>
         (Qc_of_Z (Z.of_nat
                     (Nat.max 1 (catalog_matches movies_df
                                   (get l "movie_id"))))
          * to_num (get l "watch_duration_minutes") + acc)%Qc)
      0%Qc ls'.
Proof.
  revert ls'. induction ls as [| l ls IH]; intros [| l' ls'] H;
    try discriminate; [reflexivity |].
  cbn [map] in H. injection H as Hid Hmin Hrest.
  cbn [fold_right]. rewrite Hid, Hmin, (IH ls' Hrest). reflexivity.
Qed.

Lemma filled_rows_read (dates : list cell) (watch_df : DataFrame) :
  map (fun l => (get l "movie_id", to_num (get l "watch_duration_minutes")))
    (rows (filled_watch dates watch_df))
  = map (fun l => (get l "movie_id",
                   to_num (get l "watch_duration_minutes")))
      (rows (normalize_columns watch_df)).
Proof.
  unfold filled_watch. cbn [rows]. rewrite map_map.
  transitivity
    (map (fun l => (get l "movie_id",
                    to_num (get l "watch_duration_minutes")))
       (set_column "watch_date" dates (rows (normalize_columns watch_df)))).
  - apply map_ext. intros l.
    rewrite get_filled by discriminate. now rewrite filled_to_num.
  - generalize (rows (normalize_columns watch_df)) as ls. revert dates.
    intros dates ls. revert dates.
    induction ls as [| l ls IH]; intros dates; [reflexivity |].
    cbn [set_column map]. rewrite IH. reflexivity.
Qed.

Lemma load_data_minutes (movies_df watch_df final : DataFrame) :
  load_data parse_dates movies_df watch_df = Ok final ->
  sum (map (fun r => get r "watch_duration_minutes") (rows final))
  = minutes_by_matches movies_df watch_df.
Proof.
  intros H. apply load_data_Ok in H.
  destruct H as ((_ & Hc & _) & dates & _ & H).
  rewrite (merge_left_rows _ _ _ _ H).
  rewrite (joined_minutes_sum dates movies_df watch_df _ Hc).
  unfold minutes_by_matches. apply minutes_fold_ext, filled_rows_read.
Qed.

(** X12. No row of the loaded table has a missing duration.  The watch
    minutes of the loaded table are those of the events, each counted once
    per catalog row of its movie id; they are the watch minutes of the watch
    history when no movie id occurs twice in the catalog. *)
Theorem load_data_watch_minutes (movies_df watch_df final : DataFrame) :
  load_data parse_dates movies_df watch_df = Ok final ->
  (forall r, In r (rows final) -> get r "watch_duration_minutes" <> NA) /\
  sum (map (fun r => get r "watch_duration_minutes") (rows final))
    = minutes_by_matches movies_df watch_df /\
  (unique_movie_ids movies_df ->
   sum (map (fun r => get r "watch_duration_minutes") (rows final))
   = sum (map (fun r => get r "watch_duration_minutes")
            (rows (normalize_columns watch_df)))).
Proof.
  intros H. pose proof (load_data_minutes _ _ _ H) as E.
  split; [| split; [exact E |]].
  - apply load_data_Ok in H.
    destruct H as ((_ & Hc & _) & dates & _ & H).
    intros r Hr. rewrite (merge_left_rows _ _ _ _ H) in Hr.
    apply in_flat_map in Hr. destruct Hr as (l & Hl & Hr).
    rewrite (joined_minutes _ _ _ _ _ Hc Hr).
    unfold filled_watch in Hl. cbn [rows] in Hl.
    apply in_map_iff in Hl. destruct Hl as (l0 & <- & _).
    apply filled_not_NA.
  - intros Hu. rewrite E. unfold minutes_by_matches.
    induction (rows (normalize_columns watch_df)) as [| l ls IH];
      [reflexivity |].
    cbn [map fold_right]. rewrite sum_cons, IH.
    rewrite (unique_matches _ _ Hu).
    change (Qc_of_Z (Z.of_nat 1)) with (Qc_of_Z 1).
    replace (Qc_of_Z 1) with 1%Qc by (apply Qc_is_canon; reflexivity).
    ring.
Qed.

End LoaderFacts.

(** * Properties of the summarisation calls *)

Section ClientFacts.

Variables E S : Type.
Variable complete : S -> string -> ai_layer.json -> Qc -> (E + option string) * S.
Variable dumps : ai_layer.json -> string.
Variable loads : string -> option ai_layer.json.

#[local] Abbreviation try_models := (ai_layer.try_models E S complete).
#[local] Abbreviation all_fail := (ai_layer.all_fail E S complete).
#[local] Abbreviation call := (ai_layer._call_with_fallback E S complete).

Lemma try_models_Return (last : option E) (client client' : S)
    (models : list string) (messages : ai_layer.json) (temp : Qc)
    (text : option string) (m : string) :
  try_models last client models messages temp
    = (ai_layer.Return (text, m), client') <->
  exists before after mid,
    models = before ++ m :: after /\
    all_fail client before messages temp = Some mid /\
    complete mid m messages temp = (inr text, client').
Proof.
  revert last client. induction models as [| m0 rest IH]; intros last client.
  - simpl. split.
    + destruct last; discriminate.
    + intros (before & after & mid & Hm & _). destruct before; discriminate.
  - simpl. destruct (complete client m0 messages temp) as [[e | t] c] eqn:Hc.
    + rewrite IH. split.
      * intros (before & after & mid & -> & Hf & Hm).
        exists (m0 :: before), after, mid. simpl. rewrite Hc. auto.
      * intros (before & after & mid & Hm & Hf & Hmid).
        destruct before as [| b before]; simpl in *.
        -- inversion Hm; subst. inversion Hf; subst. congruence.
        -- inversion Hm; subst. rewrite Hc in Hf. eauto 6.
    + split.
      * intros H. inversion H; subst.
        exists [], rest, client. simpl. auto.
      * intros (before & after & mid & Hm & Hf & Hmid).
        destruct before as [| b before]; simpl in *.
        -- inversion Hm; subst. inversion Hf; subst.
           rewrite Hc in Hmid. inversion Hmid; subst. reflexivity.
        -- inversion Hm; subst. rewrite Hc in Hf. discriminate.
Qed.

Lemma try_models_Throw (last : option E) (client client' : S)
    (models : list string) (messages : ai_layer.json) (temp : Qc)
    (x : ai_layer.error E) :
  try_models last client models messages temp = (ai_layer.Throw x, client') <->
  (models = [] /\ client' = client /\
   x = match last with
       | Some e => ai_layer.External e
       | None => ai_layer.TypeError
       end) \/
  (exists init m mid e,
     models = init ++ [m] /\
     all_fail client init messages temp = Some mid /\
     complete mid m messages temp = (inl e, client') /\
     x = ai_layer.External e).
Proof.
  revert last client. induction models as [| m0 rest IH]; intros last client.
  - simpl. split.
    + intros H. left. destruct last; inversion H; auto.
    + intros [(_ & -> & ->) | (init & m & mid & e & Hm & _)].
      * destruct last; reflexivity.
      * destruct init; discriminate.
  - simpl. destruct (complete client m0 messages temp) as [[e | t] c] eqn:Hc.
    + rewrite IH. split.
      * intros [(-> & -> & ->) | (init & m & mid & e' & -> & Hf & Hm & ->)];
          right.
        -- exists [], m0, client, e. simpl. auto.
        -- exists (m0 :: init), m, mid, e'. simpl. rewrite Hc. auto.
      * intros [(Hm & _) | (init & m & mid & e' & Hm & Hf & Hmid & ->)];
          [discriminate |].
        destruct init as [| b init]; simpl in *.
        -- inversion Hm; subst. inversion Hf; subst.
           rewrite Hc in Hmid. inversion Hmid; subst. left. auto.
        -- inversion Hm; subst. rewrite Hc in Hf. right.
           exists init, m, mid, e'. auto.
    + split; [discriminate |].
      intros [(Hm & _) | (init & m & mid & e' & Hm & Hf & Hmid & ->)];
        [discriminate |].
      destruct init as [| b init]; simpl in *.
      * inversion Hm; subst. inversion Hf; subst. congruence.
      * inversion Hm; subst. rewrite Hc in Hf. discriminate.
Qed.

(** X13. [_call_with_fallback] returns the answer of the first model of the
    list that answers, with the name of that model: the models before it
    were tried in order and failed, the models after it are not called. *)
Theorem call_with_fallback_first_answer (client client' : S)
    (models : list string) (messages : ai_layer.json) (temp : Qc)
    (text : option string) (m : string) :
  call client models messages temp = (ai_layer.Return (text, m), client') <->
  exists before after mid,
    models = before ++ m :: after /\
    all_fail client before messages temp = Some mid /\
    complete mid m messages temp = (inr text, client').
Proof. apply try_models_Return. Qed.

(** X14. [_call_with_fallback] raises exactly when no model answers: the
    error of the last model of the list, after all the models were tried in
    order, and a [TypeError] when the list is empty. *)
Theorem call_with_fallback_raises_last_error (client client' : S)
    (models : list string) (messages : ai_layer.json) (temp : Qc)
    (x : ai_layer.error E) :
  call client models messages temp = (ai_layer.Throw x, client') <->
  (models = [] /\ client' = client /\ x = ai_layer.TypeError) \/
  (exists init m mid e,
     models = init ++ [m] /\
     all_fail client init messages temp = Some mid /\
     complete mid m messages temp = (inl e, client') /\
     x = ai_layer.External e).
Proof. apply (try_models_Throw None). Qed.

Lemma dict_get_set (d : list (string * ai_layer.json)) (k : string)
    (v : ai_layer.json) :
  ai_layer.dict_get (ai_layer.dict_set d k v) k = Some v.
Proof.
  induction d as [| [k' v'] d IH]; simpl.
  - now rewrite String.eqb_refl.
  - destruct (String.eqb k' k) eqn:Ek; simpl.
    + now rewrite String.eqb_refl.
    + now rewrite Ek.
Qed.

Lemma dict_get_set_other (d : list (string * ai_layer.json)) (k k' : string)
    (v : ai_layer.json) :
  k' <> k ->
  ai_layer.dict_get (ai_layer.dict_set d k v) k' = ai_layer.dict_get d k'.
Proof.
  intros Hk. induction d as [| [k0 v0] d IH]; simpl.
  - destruct (String.eqb k k') eqn:Ekk; [| reflexivity].
    apply String.eqb_eq in Ekk. congruence.
  - destruct (String.eqb k0 k) eqn:Ek; simpl.
    + apply String.eqb_eq in Ek. subst k0.
      destruct (String.eqb k k') eqn:Ekk; [| reflexivity].
      apply String.eqb_eq in Ekk. congruence.
    + destruct (String.eqb k0 k'); [reflexivity | exact IH].
Qed.

Lemma with_model_used_Throw (j : ai_layer.json) (used : string) :
  (forall d, j <> ai_layer.JObj d) ->
  ai_layer.with_model_used E j used = ai_layer.Throw ai_layer.TypeError.
Proof.
  intros H. destruct j; try reflexivity. exfalso. now apply (H d).
Qed.

Lemma with_model_used_cases (j : ai_layer.json) (used : string) :
  (exists d, j = ai_layer.JObj d /\
     ai_layer.with_model_used E j used
     = ai_layer.Return
         (ai_layer.JObj
            (ai_layer.dict_set d "_model_used" (ai_layer.JStr used)))) \/
  ((forall d, j <> ai_layer.JObj d) /\
   ai_layer.with_model_used E j used = ai_layer.Throw ai_layer.TypeError).
Proof.
  destruct j; try (right; split; [discriminate | reflexivity]).
  left. eauto.
Qed.

(** The two functions, from the call to the end. *)
Lemma finish_iff (fallback : option string -> ai_layer.json)
    (client client' : S) (model : string) (rest : list string)
    (messages : ai_layer.json) (r : ai_layer.outcome E ai_layer.json) :
  (forall text, exists d, fallback text = ai_layer.JObj d) ->
  finish loads fallback
    (call client (model :: rest) messages ai_layer.temperature) = (r, client')
  <-> answer_of complete loads fallback messages (model :: rest) client r
        client'.
Proof.
  intros Hfb. unfold finish, ai_layer._call_with_fallback. split.
  - destruct (try_models None client (model :: rest) messages
                ai_layer.temperature) as [[[text used] | x] c] eqn:Hcall.
    + intros H. injection H as H1 Hcc. subst c.
      apply try_models_Return in Hcall.
      destruct (with_model_used_cases
                  match ai_layer.parse loads text with
                  | Some j => j
                  | None => fallback text
                  end used) as [(d & Hd & Hw) | (Hno & Hw)];
        rewrite Hw in H1; subst r; cbn [answer_of].
      * exists used, text, d. auto.
      * destruct (ai_layer.parse loads text) as [j |] eqn:Hp.
        -- destruct text as [t |]; [| discriminate].
           exists used, t, j. auto.
        -- destruct (Hfb text) as [d Hd]. exfalso. now apply (Hno d).
    + intros H. injection H as H1 Hcc. subst c r.
      apply (try_models_Throw None) in Hcall.
      destruct Hcall as [(Hm & _) | (init & m & mid & e & Hm & Hf & Hc & ->)];
        [discriminate |].
      cbn [answer_of]. exists init, m, mid. auto.
  - destruct r as [out | [e |]]; cbn [answer_of].
    + intros (used & text & d & Hcall & Hd & ->).
      apply (proj2 (try_models_Return None _ _ _ _ _ _ _)) in Hcall.
      rewrite Hcall, Hd. reflexivity.
    + intros (init & m & mid & Hm & Hf & Hc).
      assert (Hcall : try_models None client (model :: rest) messages
                        ai_layer.temperature
                      = (ai_layer.Throw (ai_layer.External e), client')).
      { apply try_models_Throw. right. exists init, m, mid, e. auto. }
      rewrite Hcall. reflexivity.
    + intros (used & t & j & Hcall & Hl & Hno).
      apply (proj2 (try_models_Return None _ _ _ _ _ _ _)) in Hcall.
      rewrite Hcall. cbn [ai_layer.parse]. rewrite Hl.
      now rewrite with_model_used_Throw.
Qed.

(** X15. [generate_dashboard_summary] and [explain_change] return the answer
    of the first model that answers, of the chosen model and its fallbacks
    tried in that order: the dict it parses to, or the fallback dict of the
    function around the raw text when it is no JSON, with the name of that
    very model under [_model_used] and the other keys as they were.  They
    raise a [TypeError] exactly when that answer parses to something that is
    not a dict, and the exception of the last model exactly when every model
    raised. *)
Theorem summaries_carry_the_model_used
    (client client' : S) (evidence : ai_layer.json) (metric model : string)
    (fb : option (list string)) (r : ai_layer.outcome E ai_layer.json) :
  (ai_layer.generate_dashboard_summary E S complete dumps loads client
     evidence model fb = (r, client')
   <-> answer_of complete loads ai_layer.summary_fallback
         (ai_layer.summary_messages dumps evidence)
         (model :: ai_layer.or_nil fb) client r client') /\
  (ai_layer.explain_change E S complete dumps loads client evidence metric
     model fb = (r, client')
   <-> answer_of complete loads ai_layer.explain_fallback
         (ai_layer.explain_messages dumps evidence metric)
         (model :: ai_layer.or_nil fb) client r client') /\
  (forall (d : list (string * ai_layer.json)) (used k : string),
     ai_layer.dict_get
       (ai_layer.dict_set d "_model_used" (ai_layer.JStr used)) "_model_used"
     = Some (ai_layer.JStr used) /\
     (k <> "_model_used" ->
      ai_layer.dict_get
        (ai_layer.dict_set d "_model_used" (ai_layer.JStr used)) k
      = ai_layer.dict_get d k)).
Proof.
  split; [| split].
  - apply (finish_iff ai_layer.summary_fallback).
    intros text. eexists. reflexivity.
  - apply (finish_iff ai_layer.explain_fallback).
    intros text. eexists. reflexivity.
  - intros d used k. split; [apply dict_get_set |].
    intros Hk. now apply dict_get_set_other.
Qed.

End ClientFacts.

(** * Properties of the review store *)

Lemma insert_last {A : Type} (leb : A -> A -> bool) (x : A) (l : list A) :
  (forall y, In y l -> leb x y = false) -> insert leb x l = l ++ [x].
Proof.
  induction l as [| y l IH]; simpl; intros H; [reflexivity |].
  rewrite (H y) by now left. f_equal. apply IH. intros z Hz. apply H. now right.
Qed.

(** Rows whose ids grow come out of [ORDER BY id DESC] in reverse. *)
Lemma order_by_id_desc_rev (l : list feedback_store.review) :
  StronglySorted (fun a b => feedback_store.id a < feedback_store.id b) l ->
  feedback_store.order_by_id_desc l = rev l.
Proof.
  unfold feedback_store.order_by_id_desc.
  induction 1 as [| x l Hs IH Hx]; simpl; [reflexivity |].
  rewrite IH. apply insert_last. intros y Hy.
  apply in_rev in Hy. rewrite Forall_forall in Hx. specialize (Hx y Hy).
  apply Z.leb_gt. exact Hx.
Qed.

Lemma well_formed_init (db : feedback_store.database) :
  well_formed_db db -> well_formed_db (feedback_store.init_db db).
Proof.
  destruct db as [t |]; simpl; [trivial |]. intros _.
  unfold well_formed. simpl. repeat split; [constructor | constructor | lia].
Qed.

Lemma save_review_Done (db db' : feedback_store.database) (now : string)
    (rating : Z) (comment : string) :
  feedback_store.save_review db now rating comment = feedback_store.Done db' ->
  exists t,
    db = Some t /\
    feedback_store.in_int64 rating = true /\
    feedback_store.sequence t <> feedback_store.max_int64 /\
    db' = Some {| feedback_store.sequence := feedback_store.sequence t + 1;
                  feedback_store.reviews :=
                    feedback_store.reviews t ++
                    [{| feedback_store.id := feedback_store.sequence t + 1;
                        feedback_store.created_at := now;
                        feedback_store.rating := rating;
                        feedback_store.comment := strip comment |}] |}.
Proof.
  unfold feedback_store.save_review. destruct db as [t |]; [| discriminate].
  destruct (feedback_store.in_int64 rating); simpl; [| discriminate].
  destruct (feedback_store.sequence t =? feedback_store.max_int64) eqn:E;
    [discriminate |].
  intros H. inversion H. exists t. apply Z.eqb_neq in E. auto.
Qed.

Lemma well_formed_save (db db' : feedback_store.database) (now : string)
    (rating : Z) (comment : string) :
  well_formed_db db ->
  feedback_store.save_review db now rating comment = feedback_store.Done db' ->
  well_formed_db db'.
Proof.
  intros Hwf H. apply save_review_Done in H.
  destruct H as (t & -> & _ & _ & ->). simpl in *.
  destruct Hwf as (Hs & Hb & Hn). unfold well_formed. simpl.
  split; [| split; [| lia]].
  - apply StronglySorted_snoc; [exact Hs |].
    eapply Forall_impl; [| exact Hb]. simpl. intros r Hr. lia.
  - apply Forall_app. split.
    + eapply Forall_impl; [| exact Hb]. simpl. intros r Hr. lia.
    + constructor; [simpl; lia | constructor].
Qed.

(** X16. [save_review] only appends: what it returns holds the reviews that
    were there, unchanged and in their order, followed by the new review
    with the comment stripped and an id larger than all the others; and the
    ids keep growing with the insertions. *)
Theorem save_review_appends (db db' : feedback_store.database) (now : string)
    (rating : Z) (comment : string) :
  well_formed_db db ->
  feedback_store.save_review db now rating comment = feedback_store.Done db' ->
  well_formed_db db' /\
  exists new,
    stored db' = stored db ++ [new] /\
    shown new = (now, rating, strip comment) /\
    forall r, In r (stored db) -> feedback_store.id r < feedback_store.id new.
Proof.
  intros Hwf H. split; [now apply (well_formed_save db db' now rating comment) |].
  apply save_review_Done in H. destruct H as (t & -> & _ & _ & ->).
  eexists. simpl. split; [reflexivity |]. split; [reflexivity |].
  intros r Hr. destruct Hwf as (_ & Hb & _).
  rewrite Forall_forall in Hb. specialize (Hb r Hr). simpl. lia.
Qed.

(** X17. [save_review] fails exactly when the table is missing, the rating
    does not fit in 64 bits or the ids are used up; it stores any rating that
    fits, within 1 to 5 or not. *)
Theorem save_review_fails_iff (db : feedback_store.database) (now : string)
    (rating : Z) (comment : string) :
  (forall e, feedback_store.save_review db now rating comment
             = feedback_store.Failed e <->
     (db = None /\ e = feedback_store.NoSuchTable) \/
     (exists t, db = Some t /\
        ((feedback_store.in_int64 rating = false /\
          e = feedback_store.OverflowError) \/
         (feedback_store.in_int64 rating = true /\
          feedback_store.sequence t = feedback_store.max_int64 /\
          e = feedback_store.DatabaseFull)))) /\
  (forall t, db = Some t ->
     feedback_store.min_int64 <= rating <= feedback_store.max_int64 ->
     feedback_store.sequence t <> feedback_store.max_int64 ->
     exists db', feedback_store.save_review db now rating comment
                 = feedback_store.Done db').
Proof.
  split.
  - intros e. unfold feedback_store.save_review.
    destruct db as [t |].
    + destruct (feedback_store.in_int64 rating) eqn:Hr; simpl.
      * destruct (feedback_store.sequence t =? feedback_store.max_int64)
          eqn:Hs.
        -- apply Z.eqb_eq in Hs. split.
           ++ intros H. inversion H. right. exists t. auto 6.
           ++ intros [[H _] | (t' & Ht & [[H _] | (_ & _ & ->)])];
                try discriminate. reflexivity.
        -- apply Z.eqb_neq in Hs. split; [discriminate |].
           intros [[H _] | (t' & Ht & [[H _] | (_ & H & _)])];
             try discriminate. inversion Ht; subst. contradiction.
      * split.
        -- intros H. inversion H. right. exists t. auto.
        -- intros [[H _] | (t' & Ht & [[_ ->] | (H & _)])];
             try discriminate. reflexivity.
    + split.
      * intros H. inversion H. now left.
      * intros [[_ ->] | (t' & Ht & _)]; [reflexivity | discriminate].
  - intros t -> Hr Hs. unfold feedback_store.save_review.
    assert (Hin : feedback_store.in_int64 rating = true).
    { unfold feedback_store.in_int64. apply andb_true_iff.
      rewrite !Z.leb_le. exact Hr. }
    rewrite Hin. simpl.
    apply Z.eqb_neq in Hs. rewrite Hs. eauto.
Qed.

Lemma get_recent_reviews_Done (db : feedback_store.database) (limit : Z) :
  well_formed_db db -> db <> None ->
  feedback_store.in_int64 limit = true ->
  feedback_store.get_recent_reviews db limit
  = feedback_store.Done
      (map shown (feedback_store.sql_limit limit (rev (stored db)))).
Proof.
  intros Hwf Hdb Hl. destruct db as [t |]; [| contradiction].
  unfold feedback_store.get_recent_reviews. rewrite Hl. simpl.
  destruct Hwf as (Hs & _). now rewrite order_by_id_desc_rev.
Qed.

(** X18. [get_recent_reviews] lists the reviews from the newest to the
    oldest: the last [limit] reviews saved, in reverse order, and all of them
    when [limit] is negative; never more than [limit] when it is not. *)
Theorem get_recent_reviews_newest_first (db : feedback_store.database)
    (limit : Z) :
  well_formed_db db -> db <> None ->
  feedback_store.min_int64 <= limit <= feedback_store.max_int64 ->
  exists rows,
    feedback_store.get_recent_reviews db limit = feedback_store.Done rows /\
    (limit < 0 -> rows = map shown (rev (stored db))) /\
    (0 <= limit ->
     rows = map shown (firstn (Z.to_nat limit) (rev (stored db))) /\
     Z.of_nat (List.length rows) <= limit).
Proof.
  intros Hwf Hdb Hl.
  assert (Hin : feedback_store.in_int64 limit = true).
  { unfold feedback_store.in_int64. apply andb_true_iff.
    rewrite !Z.leb_le. exact Hl. }
  rewrite (get_recent_reviews_Done db limit Hwf Hdb Hin).
  eexists. split; [reflexivity |]. unfold feedback_store.sql_limit. split.
  - intros Hneg. apply Z.ltb_lt in Hneg. now rewrite Hneg.
  - intros Hpos. apply Z.ltb_ge in Hpos. rewrite Hpos.
    split; [reflexivity |]. rewrite length_map, length_firstn. lia.
Qed.

(** X19. A review that was saved is the first of the listing: after
    [save_review], [get_recent_reviews] starts with the time, the rating and
    the stripped comment that were given, followed by what the listing
    showed before. *)
Theorem saved_review_is_listed_first (db db' : feedback_store.database)
    (now : string) (rating : Z) (comment : string) (limit : Z)
    (before : list (string * Z * string)) :
  well_formed_db db ->
  feedback_store.save_review db now rating comment = feedback_store.Done db' ->
  0 < limit <= feedback_store.max_int64 ->
  feedback_store.get_recent_reviews db (limit - 1) = feedback_store.Done before ->
  feedback_store.get_recent_reviews db' limit
  = feedback_store.Done ((now, rating, strip comment) :: before).
Proof.
  intros Hwf Hsave Hl Hbefore.
  pose proof (well_formed_save _ _ _ _ _ Hwf Hsave) as Hwf'.
  apply save_review_Done in Hsave. destruct Hsave as (t & -> & _ & _ & ->).
  assert (Hin : forall z, 0 <= z <= feedback_store.max_int64 ->
                          feedback_store.in_int64 z = true).
  { intros z Hz. unfold feedback_store.in_int64. apply andb_true_iff.
    rewrite !Z.leb_le. unfold feedback_store.min_int64,
      feedback_store.max_int64 in *. lia. }
  rewrite get_recent_reviews_Done in Hbefore;
    [| exact Hwf | discriminate | apply Hin; lia].
  rewrite get_recent_reviews_Done; [| exact Hwf' | discriminate | apply Hin; lia].
  inversion Hbefore; subst before. f_equal.
  unfold feedback_store.sql_limit. simpl stored. rewrite rev_app_distr. simpl.
  assert (H1 : (limit <? 0) = false) by (apply Z.ltb_ge; lia).
  assert (H2 : (limit - 1 <? 0) = false) by (apply Z.ltb_ge; lia).
  rewrite H1, H2.
  replace (Z.to_nat limit) with (Datatypes.S (Z.to_nat (limit - 1))) by lia.
  reflexivity.
Qed.

(** X20. [init_db] keeps what is stored and doing it twice changes nothing
    more; once it ran, neither [save_review] nor [get_recent_reviews] fails
    for want of the table. *)
Theorem init_db_keeps_reviews (db : feedback_store.database) :
  stored (feedback_store.init_db db) = stored db /\
  feedback_store.init_db (feedback_store.init_db db) = feedback_store.init_db db /\
  (db <> None -> feedback_store.init_db db = db) /\
  (forall now rating comment,
     feedback_store.save_review (feedback_store.init_db db) now rating comment
     <> feedback_store.Failed feedback_store.NoSuchTable) /\
  (forall limit,
     feedback_store.get_recent_reviews (feedback_store.init_db db) limit
     <> feedback_store.Failed feedback_store.NoSuchTable).
Proof.
  destruct db as [t |]; simpl; repeat split; try congruence.
  - intros now rating comment.
    destruct (feedback_store.in_int64 rating); simpl; [| discriminate].
    destruct (feedback_store.sequence t =? feedback_store.max_int64);
      discriminate.
  - intros limit. destruct (feedback_store.in_int64 limit); discriminate.
  - intros now rating comment.
    destruct (feedback_store.in_int64 rating); simpl; discriminate.
  - intros limit. destruct (feedback_store.in_int64 limit); discriminate.
Qed.

(** ** Stripped comments *)

Lemma last_char_None (s : string) : last_char s = None -> s = EmptyString.
Proof.
  destruct s as [| a s]; simpl; [reflexivity |].
  destruct (last_char s); discriminate.
Qed.

Lemma last_char_cons (b : ascii) (u : string) :
  u <> EmptyString -> last_char (String b u) = last_char u.
Proof.
  intros Hu. simpl. destruct (last_char u) eqn:L; [reflexivity |].
  apply last_char_None in L. contradiction.
Qed.

Lemma lstrip_first (s : string) (a : ascii) :
  first_char (lstrip s) = Some a -> is_space a = false.
Proof.
  induction s as [| b s IH]; simpl; [discriminate |].
  destruct (is_space b) eqn:E; [exact IH |].
  simpl. intros H. inversion H; subst. exact E.
Qed.

Lemma rstrip_last (s : string) (a : ascii) :
  last_char (rstrip s) = Some a -> is_space a = false.
Proof.
  revert a. induction s as [| b s IH]; simpl; intros a; [discriminate |].
  destruct (rstrip s) as [| c t] eqn:R.
  - destruct (is_space b) eqn:E; simpl; [discriminate |].
    intros H. inversion H; subst. exact E.
  - intros H. apply IH.
    rewrite last_char_cons in H by discriminate. exact H.
Qed.

Lemma rstrip_first (s : string) (a : ascii) :
  first_char s = Some a -> is_space a = false ->
  first_char (rstrip s) = Some a.
Proof.
  destruct s as [| b s]; simpl; [discriminate |].
  intros H E. inversion H; subst b.
  destruct (rstrip s); [rewrite E |]; reflexivity.
Qed.

Lemma first_char_None (s : string) : first_char s = None -> s = EmptyString.
Proof. destruct s; [reflexivity | discriminate]. Qed.

(** A stripped string that is not empty begins and ends with a character
    that is not white space. *)
Lemma strip_ends (s : string) :
  strip s <> EmptyString ->
  exists a b, first_char (strip s) = Some a /\ is_space a = false /\
              last_char (strip s) = Some b /\ is_space b = false.
Proof.
  intros Hne. unfold strip in *.
  destruct (first_char (lstrip s)) as [a |] eqn:F.
  - pose proof (lstrip_first s a F) as Ea.
    destruct (last_char (rstrip (lstrip s))) as [b |] eqn:L.
    + exists a, b. split; [now apply rstrip_first |].
      split; [exact Ea |]. split; [reflexivity |].
      now apply (rstrip_last (lstrip s)).
    + apply last_char_None in L. contradiction.
  - apply first_char_None in F. rewrite F in Hne. simpl in Hne. contradiction.
Qed.

(** * Properties of the review tab *)

Lemma save_review_after_init (db : feedback_store.database) (now : string)
    (rating : Z) (comment : string) :
  feedback_store.save_review (feedback_store.init_db db) now rating comment
  <> feedback_store.Failed feedback_store.NoSuchTable.
Proof.
  destruct db as [t |]; simpl.
  - destruct (feedback_store.in_int64 rating); simpl; [| discriminate].
    destruct (feedback_store.sequence t =? feedback_store.max_int64);
      discriminate.
  - destruct (feedback_store.in_int64 rating); simpl; discriminate.
Qed.

Lemma sql_limit_8 {A : Type} (l : list A) :
  (List.length (feedback_store.sql_limit 8 l) <= 8)%nat.
Proof.
  unfold feedback_store.sql_limit.
  change (8 <? 0) with false. cbv iota.
  rewrite length_firstn. lia.
Qed.

(** X21. The review tab never fails for want of the table and lists at most
    eight reviews.  A submitted review whose comment is not blank is saved
    and listed first, its comment beginning and ending with a character that
    is not white space; a blank comment, or no submission, saves nothing.
    With a rating from 1 to 5 the tab goes through, unless the ids are used
    up. *)
Theorem review_tab_saves_non_blank_comments
    (db : feedback_store.database) (now : string) (submitted : bool)
    (rating : Z) (comment : string) :
  well_formed_db db ->
  review_tab.run db now submitted rating comment
    <> feedback_store.Failed feedback_store.NoSuchTable /\
  (forall db' rows,
     review_tab.run db now submitted rating comment
       = feedback_store.Done (db', rows) ->
     well_formed_db db' /\
     (List.length rows <= 8)%nat /\
     (submitted = true -> strip comment <> EmptyString ->
      exists new rest a b,
        stored db' = stored db ++ [new] /\
        rows = (now, rating, strip comment) :: rest /\
        feedback_store.comment new = strip comment /\
        first_char (feedback_store.comment new) = Some a /\
        is_space a = false /\
        last_char (feedback_store.comment new) = Some b /\
        is_space b = false) /\
     (submitted = false \/ strip comment = EmptyString ->
      stored db' = stored db)) /\
  (1 <= rating <= 5 ->
   (forall t, db = Some t ->
              feedback_store.sequence t <> feedback_store.max_int64) ->
   exists db' rows,
     review_tab.run db now submitted rating comment
       = feedback_store.Done (db', rows)).
Proof.
  intros Hwf.
  pose proof (well_formed_init db Hwf) as Hwi.
  assert (Hsome : feedback_store.init_db db <> None)
    by (destruct db; discriminate).
  assert (Hstored : stored (feedback_store.init_db db) = stored db)
    by (destruct db; reflexivity).
  assert (H8 : feedback_store.in_int64 8 = true) by reflexivity.
  unfold review_tab.run.
  destruct (submitted && negb (String.eqb (strip comment) "")) eqn:Hsave.
  - apply andb_true_iff in Hsave. destruct Hsave as [-> Hc].
    apply negb_true_iff in Hc. rewrite Hc.
    assert (Hne : strip comment <> EmptyString)
      by (now apply String.eqb_neq).
    destruct (feedback_store.save_review (feedback_store.init_db db) now
                rating comment) as [db1 | e] eqn:Hs.
    + pose proof (well_formed_save _ _ _ _ _ Hwi Hs) as Hw1.
      pose proof (save_review_Done _ _ _ _ _ Hs) as (t & Ht & _ & _ & Hdb1).
      assert (Hs1 : db1 <> None) by (rewrite Hdb1; discriminate).
      rewrite (get_recent_reviews_Done db1 8 Hw1 Hs1 H8).
      split; [discriminate |]. split.
      * intros db' rows H. inversion H; subst db' rows; clear H.
        split; [exact Hw1 |]. split.
        { rewrite length_map. apply sql_limit_8. }
        split; [| intros [H | H]; congruence].
        intros _ _. destruct (strip_ends comment Hne) as (a & b & Ha & Ea & Hb & Eb).
        assert (Hst : stored db1 = stored db ++
                  [{| feedback_store.id := feedback_store.sequence t + 1;
                      feedback_store.created_at := now;
                      feedback_store.rating := rating;
                      feedback_store.comment := strip comment |}]).
        { rewrite Hdb1. simpl. rewrite <- Hstored, Ht. reflexivity. }
        eexists. eexists. exists a, b.
        split; [exact Hst |]. rewrite Hst, rev_app_distr. simpl.
        split; [reflexivity |].
        auto.
      * intros _ _. eauto.
    + split.
      * intros H. inversion H; subst e.
        exact (save_review_after_init db now rating comment Hs).
      * split; [discriminate |].
        intros Hr Hseq. exfalso.
        destruct (feedback_store.init_db db) as [t |] eqn:Hi;
          [| contradiction].
        unfold feedback_store.save_review in Hs.
        assert (Hin : feedback_store.in_int64 rating = true).
        { unfold feedback_store.in_int64, feedback_store.min_int64,
            feedback_store.max_int64. apply andb_true_iff.
          rewrite !Z.leb_le. lia. }
        rewrite Hin in Hs. simpl in Hs.
        assert (Hneq : feedback_store.sequence t <> feedback_store.max_int64).
        { destruct db as [t0 |]; simpl in Hi; inversion Hi; subst.
          - now apply Hseq.
          - discriminate. }
        apply Z.eqb_neq in Hneq. rewrite Hneq in Hs. discriminate.
  - assert (Hskip : (if submitted
                     then if String.eqb (strip comment) ""
                          then feedback_store.Done (feedback_store.init_db db)
                          else feedback_store.save_review
                                 (feedback_store.init_db db) now rating comment
                     else feedback_store.Done (feedback_store.init_db db))
                    = feedback_store.Done (feedback_store.init_db db)).
    { destruct submitted; [| reflexivity]. simpl in Hsave.
      apply negb_false_iff in Hsave. now rewrite Hsave. }
    rewrite Hskip.
    rewrite (get_recent_reviews_Done _ 8 Hwi Hsome H8).
    split; [discriminate |]. split.
    + intros db' rows H. inversion H; subst db' rows; clear H.
      split; [exact Hwi |]. split.
      { rewrite length_map. apply sql_limit_8. }
      split; [| intros _; exact Hstored].
      intros -> Hne. simpl in Hsave. apply negb_false_iff in Hsave.
      apply String.eqb_eq in Hsave. contradiction.
    + intros _ _. eauto.
Qed.

(** * Further properties of the percent change and of a genre selection *)

(** X22. The percent change undoes: previous + previous * pct / 100 is the
    current value; and over a positive previous value its sign is that of
    current - previous. *)
Theorem safe_pct_change_inverts (current previous pct : Qc) :
  _safe_pct_change current previous = Ok (Some pct) ->
  (previous + previous * pct / hundred)%Qc = current /\
  ((0 < previous)%Qc ->
   ((0 <= pct)%Qc <-> (previous <= current)%Qc)).
Proof.
  rewrite safe_pct_change_eq.
  destruct (Qc_eq_bool previous 0) eqn:E; [discriminate |].
  apply Qc_eq_bool_false in E. intros H. inversion H; subst pct; clear H.
  split.
  - field. split; [exact E | apply hundred_nonzero].
  - intros Hpos.
    assert (Hm : ((current - previous) / previous * hundred * previous
                  = (current - previous) * hundred)%Qc) by (field; exact E).
    split; intros Hle.
    + apply Qcle_minus_iff.
      apply (Qcmult_lt_0_le_reg_r _ _ hundred hundred_pos).
      replace (0 * hundred)%Qc with (0 * previous)%Qc by ring.
      change (current + - previous)%Qc with (current - previous)%Qc.
      rewrite <- Hm.
      apply Qcmult_le_compat_r; [exact Hle | now apply Qclt_le_weak].
    + apply Qcle_minus_iff in Hle.
      apply (Qcmult_lt_0_le_reg_r _ _ previous Hpos).
      rewrite Hm.
      replace (0 * previous)%Qc with (0 * hundred)%Qc by ring.
      apply Qcmult_le_compat_r; [exact Hle |].
      apply Qclt_le_weak, hundred_pos.
Qed.

Lemma nodup_same (c : cell) (l : list cell) :
  (forall x, In x l -> x = c) -> l <> [] -> nodup cell_eq_dec l = [c].
Proof.
  induction l as [| x l IH]; intros H Hne; [contradiction |].
  assert (Hx : x = c) by (apply H; now left). subst x. simpl.
  destruct (in_dec cell_eq_dec c l) as [Hin | Hnin].
  - apply IH; [intros y Hy; apply H; now right |].
    intros ->. contradiction.
  - destruct l as [| y l]; [reflexivity |].
    exfalso. apply Hnin. left. apply H. right. now left.
Qed.

Lemma filter_all {A : Type} (p : A -> bool) (l : list A) :
  (forall x, In x l -> p x = true) -> filter p l = l.
Proof.
  induction l as [| x l IH]; simpl; intros H; [reflexivity |].
  rewrite (H x) by now left. f_equal. apply IH. intros y Hy. apply H. now right.
Qed.

Lemma filtered_df_genre (final cur : DataFrame) (s e : date) (g : string) :
  g <> "All" ->
  dashboard.filtered_df final s e g = Ok cur ->
  has_column cur "genre_primary" = true /\
  forall r, In r (rows cur) -> get r "genre_primary" = Str g.
Proof.
  intros Hg. unfold dashboard.filtered_df. intros H.
  inv_bind H. apply String.eqb_neq in Hg. rewrite Hg in H. simpl in H.
  inv_bind H. apply column_Ok in Ha0. destruct Ha0 as [Hc _].
  inversion H; subst cur; clear H. split; [exact Hc |].
  intros r Hr. simpl in Hr. apply filter_In in Hr. destruct Hr as [_ Hr].
  unfold str_eqb in Hr. destruct (get r "genre_primary"); try discriminate.
  apply String.eqb_eq in Hr. now subst.
Qed.

(** X23. The selection of one genre holds only rows of that genre; and the
    genre breakdown of a table of one genre is the single entry of that
    genre, whose sum, rounded, is the total of watch minutes. *)
Theorem genre_selection_has_one_genre :
  (forall (final cur : DataFrame) (s e : date) (g : string),
     g <> "All" ->
     dashboard.filtered_df final s e g = Ok cur ->
     has_column cur "genre_primary" = true /\
     forall r, In r (rows cur) -> get r "genre_primary" = Str g) /\
  (forall (df : DataFrame) (g : string) (a : PeriodAggregate),
     has_column df "genre_primary" = true ->
     (forall r, In r (rows df) -> get r "genre_primary" = Str g) ->
     rows df <> [] ->
     _period_aggregates df = Ok a ->
     exists minutes,
       top_genres a = [(Str g, minutes)] /\
       round2 minutes = total_watch_minutes a).
Proof.
  split; [exact filtered_df_genre |].
  intros df g a Hc Hg Hne H.
  pose proof (period_aggregates_total_minutes df a H) as Ht.
  apply period_aggregates_Ok in H. destruct H as (_ & _ & _ & Htop & _).
  apply top_n_Ok in Htop; [| exact Hc].
  assert (Hk : group_keys df "genre_primary" = [Str g]).
  { unfold group_keys.
    rewrite (nodup_same (Str g)); [reflexivity | |].
    - intros x Hx. apply filter_In in Hx. destruct Hx as [Hx _].
      apply in_map_iff in Hx. destruct Hx as (r & <- & Hr). now apply Hg.
    - destruct (rows df) as [| r l] eqn:R; [contradiction |].
      simpl. rewrite (Hg r) by now left. discriminate. }
  exists (group_sum df "genre_primary" "watch_duration_minutes" (Str g)).
  split.
  - rewrite Htop. unfold group_series. rewrite Hk. reflexivity.
  - rewrite Ht. f_equal. unfold group_sum. f_equal. f_equal.
    apply filter_all. intros r Hr. apply cell_eqb_true. now apply Hg.
Qed.

(** * The further properties on the samples *)

Lemma period_aggregates_counts_witness :
  exists a,
    _period_aggregates three_current = Ok a /\
    0 <= active_users a <= Z.of_nat (List.length (rows three_current)) /\
    0 <= titles_watched a <= Z.of_nat (List.length (rows three_current)) /\
    List.length (top_titles a) = Nat.min 5 (Z.to_nat (titles_watched a)) /\
    (List.length (top_genres a) <= 5)%nat /\
    (List.length (watch_by_device a) <= 5)%nat /\
    (List.length (watch_by_country a) <= 5)%nat.
Proof.
  destruct (_period_aggregates three_current) as [a | x] eqn:E.
  - exists a. split; [reflexivity |].
    exact (period_aggregates_counts three_current a E).
  - exfalso. vm_compute in E. discriminate E.
Defined.

Lemma top_n_sums_partition_witness :
  has_column null_genre_table "genre_primary" = true /\
  Z.of_nat (List.length (group_keys null_genre_table "genre_primary")) <= 5 /\
  total [(Str "Drama", Qc_of_Z 5)]
  = sum (map (fun r => get r "watch_duration_minutes")
           (rows (dropna "genre_primary" null_genre_table))).
Proof.
  assert (Hc : has_column null_genre_table "genre_primary" = true)
    by reflexivity.
  assert (Hn : Z.of_nat (List.length (group_keys null_genre_table
                                        "genre_primary")) <= 5)
    by (vm_compute; discriminate).
  split; [exact Hc |]. split; [exact Hn |].
  exact (top_n_sums_partition null_genre_table "genre_primary"
           "watch_duration_minutes" 5 _ Hc null_genre_eval Hn).
Defined.

Lemma breakdown_labels_distinct_witness :
  NoDup (map name scenario_D_table) /\
  NoDup (map fst [(Str "Drama", Qc_of_Z 5)]).
Proof.
  split.
  - exact (proj1 breakdown_labels_distinct _ _ _ _ _ _ _ scenario_D_eval).
  - exact (proj2 breakdown_labels_distinct _ _ _ _ _ null_genre_eval).
Defined.

Lemma build_evidence_succeeds_iff_witness :
  empty day10 = true \/
  (required_columns day10 /\
   exists p, previous_slice days_9_10 (to_datetime 10) (to_datetime 10) "All"
             = Ok p /\
             (empty p = true \/ required_columns days_9_10)).
Proof.
  apply (proj1 (proj1 (build_evidence_succeeds_iff days_9_10 day10 10 10
                         "All"))).
  destruct (build_evidence days_9_10 day10 10 10 "All") as [ev | x] eqn:E.
  - exists ev. reflexivity.
  - exfalso. vm_compute in E. discriminate E.
Defined.

Lemma note_tells_the_state_witness :
  exists ev,
    build_evidence days_9_10 day10 10 10 "All" = Ok ev /\
    filters ev = {| start_date := 10; end_date := 10; genre := "All" |} /\
    ((note ev = note_no_data /\ empty day10 = true /\
      current_period ev = None /\ previous_period ev = None /\
      changes ev = None) \/
     (note ev = note_no_previous /\ empty day10 = false /\
      current_period ev <> None /\ previous_period ev = None /\
      exists ch, changes ev = Some ch /\ driver_deltas ch = [] /\
        total_watch_minutes_pct_change ch = None /\
        active_users_pct_change ch = None /\
        titles_watched_pct_change ch = None) \/
     (note ev = EmptyString /\ empty day10 = false /\
      current_period ev <> None /\ previous_period ev <> None /\
      exists ch, changes ev = Some ch /\
        map fst (driver_deltas ch) = driver_dimensions)).
Proof.
  destruct (build_evidence days_9_10 day10 10 10 "All") as [ev | x] eqn:E.
  - exists ev. split; [reflexivity |].
    exact (note_tells_the_state days_9_10 day10 10 10 "All" ev E).
  - exfalso. vm_compute in E. discriminate E.
Defined.

Lemma driver_tables_of_a_packet_witness :
  exists ev ch table,
    build_evidence days_9_10 day10 10 10 "All" = Ok ev /\
    changes ev = Some ch /\
    In ("title", table) (driver_deltas ch) /\
    In "title" driver_dimensions /\
    (List.length table <= 6)%nat /\
    NoDup (map name table) /\
    (forall r, In r table -> name r <> NA) /\
    descending (sort_key true) table.
Proof.
  destruct (build_evidence days_9_10 day10 10 10 "All") as [ev | x] eqn:E;
    [| exfalso; vm_compute in E; discriminate E].
  destruct (changes ev) as [ch |] eqn:C;
    [| exfalso; vm_compute in E; inversion E; subst; discriminate C].
  assert (Hin : In ("title", snd (nth 2 (driver_deltas ch) (EmptyString, [])))
                  (driver_deltas ch)).
  { pose proof E as E'. vm_compute in E'. injection E' as <-.
    injection C as <-. right. right. left. reflexivity. }
  exists ev, ch, (snd (nth 2 (driver_deltas ch) (EmptyString, []))).
  split; [reflexivity |]. split; [exact C |]. split; [exact Hin |].
  exact (driver_tables_of_a_packet days_9_10 day10 10 10 "All" ev ch "title"
           _ E C Hin).
Defined.

Lemma slices_disjoint_and_last_day_left_out_witness :
  exists cur prev,
    dashboard.filtered_df days_9_10 10 10 "All" = Ok cur /\
    previous_slice days_9_10 (to_datetime 10) (to_datetime 10) "All"
      = Ok prev /\
    (forall r, In r (rows cur) -> ~ In r (rows prev)) /\
    (forall r t, get r "watch_date" = Time t ->
       to_datetime (10 - 1) < t < to_datetime 10 ->
       ~ In r (rows cur) /\ ~ In r (rows prev)).
Proof.
  destruct (dashboard.filtered_df days_9_10 10 10 "All") as [cur | x] eqn:Ec;
    [| exfalso; vm_compute in Ec; discriminate Ec].
  destruct (previous_slice days_9_10 (to_datetime 10) (to_datetime 10) "All")
    as [prev | x] eqn:Ep; [| exfalso; vm_compute in Ep; discriminate Ep].
  exists cur, prev. split; [reflexivity |]. split; [reflexivity |].
  exact (slices_disjoint_and_last_day_left_out days_9_10 cur prev 10 10 "All"
           Ec Ep).
Defined.

Lemma previous_slice_is_selection_of_previous_window_witness :
  date_only days_9_10 /\
  previous_slice days_9_10 (to_datetime 10) (to_datetime 10) "Drama"
  = dashboard.filtered_df days_9_10 (10 - (10 - 10 + 1)) (10 - 1) "Drama".
Proof.
  assert (Hd : date_only days_9_10).
  { intros r t [<- | [<- | []]] H; vm_compute in H; injection H as <-;
      reflexivity. }
  split; [exact Hd |].
  exact (previous_slice_is_selection_of_previous_window days_9_10 10 10
           "Drama" Hd).
Defined.

Lemma evidence_tops_are_chart_prefixes_witness :
  exists a,
    _period_aggregates three_current = Ok a /\
    (exists chart, dashboard.top_titles three_current = Ok chart /\
                   top_titles a = firstn 5 chart) /\
    (has_column three_current "genre_primary" = true ->
     exists chart, dashboard.watch_time_by_genre three_current = Ok chart /\
                   top_genres a = firstn 5 chart).
Proof.
  destruct (_period_aggregates three_current) as [a | x] eqn:E.
  - exists a. split; [reflexivity |].
    exact (evidence_tops_are_chart_prefixes three_current a E).
  - exfalso. vm_compute in E. discriminate E.
Defined.

Lemma load_data_succeeds_iff_witness :
  (loadable movies_csv watch_csv /\
   exists dates, sample_parse_dates (watch_dates watch_csv) = Some dates) /\
  load_data sample_parse_dates movies_csv watch_csv_bad_date
  = Raise ValueError.
Proof.
  split.
  - apply (proj1 (proj1 (load_data_succeeds_iff sample_parse_dates movies_csv
                           watch_csv))).
    eexists. exact load_data_sample.
  - apply (proj2 (proj2 (load_data_succeeds_iff sample_parse_dates movies_csv
                           watch_csv_bad_date))); reflexivity.
Defined.

Lemma load_data_keeps_every_event_witness :
  exists final,
    load_data sample_parse_dates movies_csv watch_csv = Ok final /\
    List.length (rows final)
    = list_sum (map (fun l => Nat.max 1 (catalog_matches movies_csv
                                           (get l "movie_id")))
                  (rows (normalize_columns watch_csv))) /\
    (List.length (rows watch_csv) <= List.length (rows final))%nat /\
    (unique_movie_ids movies_csv ->
     List.length (rows final) = List.length (rows watch_csv)).
Proof.
  eexists. split; [exact load_data_sample |].
  exact (load_data_keeps_every_event sample_parse_dates movies_csv watch_csv
           _ load_data_sample).
Defined.

Lemma load_data_watch_minutes_witness :
  exists final,
    load_data sample_parse_dates movies_csv watch_csv = Ok final /\
    (forall r, In r (rows final) -> get r "watch_duration_minutes" <> NA) /\
    sum (map (fun r => get r "watch_duration_minutes") (rows final))
      = minutes_by_matches movies_csv watch_csv /\
    (unique_movie_ids movies_csv ->
     sum (map (fun r => get r "watch_duration_minutes") (rows final))
     = sum (map (fun r => get r "watch_duration_minutes")
              (rows (normalize_columns watch_csv)))).
Proof.
  eexists. split; [exact load_data_sample |].
  exact (load_data_watch_minutes sample_parse_dates movies_csv watch_csv _
           load_data_sample).
Defined.

Lemma call_with_fallback_first_answer_witness :
  exists before after mid,
    ["gpt-4o-mini"; "gpt-4o"; "gpt-4.1"] = before ++ "gpt-4o" :: after /\
    ai_layer.all_fail string nat sample_complete 0%nat before ai_layer.JNull
      ai_layer.temperature = Some mid /\
    sample_complete mid "gpt-4o" ai_layer.JNull ai_layer.temperature
      = (inr (Some "Watch time grew."), 2%nat).
Proof.
  apply (proj1 (call_with_fallback_first_answer string nat sample_complete
                  0%nat 2%nat ["gpt-4o-mini"; "gpt-4o"; "gpt-4.1"]
                  ai_layer.JNull ai_layer.temperature
                  (Some "Watch time grew.") "gpt-4o")).
  reflexivity.
Defined.

Lemma call_with_fallback_raises_last_error_witness :
  ai_layer._call_with_fallback string nat sample_complete 0%nat
    ["gpt-4o-mini"; "gpt-4o-mini"] ai_layer.JNull ai_layer.temperature
  = (ai_layer.Throw (ai_layer.External "rate limit"), 2%nat).
Proof.
  apply (proj2 (call_with_fallback_raises_last_error string nat
                  sample_complete 0%nat 2%nat ["gpt-4o-mini"; "gpt-4o-mini"]
                  ai_layer.JNull ai_layer.temperature
                  (ai_layer.External "rate limit"))).
  right. exists ["gpt-4o-mini"], "gpt-4o-mini", 1%nat, "rate limit".
  repeat split.
Defined.

Lemma summaries_carry_the_model_used_witness :
  ai_layer.generate_dashboard_summary string nat sample_complete sample_dumps
    sample_loads 0%nat ai_layer.JNull "gpt-4o-mini" (Some ["gpt-4o"])
  = (ai_layer.Return sample_summary, 2%nat) /\
  answer_of sample_complete sample_loads ai_layer.summary_fallback
    (ai_layer.summary_messages sample_dumps ai_layer.JNull)
    ("gpt-4o-mini" :: ai_layer.or_nil (Some ["gpt-4o"])) 0%nat
    (ai_layer.Return sample_summary) 2%nat.
Proof.
  assert (H : ai_layer.generate_dashboard_summary string nat sample_complete
                sample_dumps sample_loads 0%nat ai_layer.JNull "gpt-4o-mini"
                (Some ["gpt-4o"])
              = (ai_layer.Return sample_summary, 2%nat)) by reflexivity.
  split; [exact H |].
  exact (proj1 (proj1 (summaries_carry_the_model_used string nat
                         sample_complete sample_dumps sample_loads 0%nat
                         2%nat ai_layer.JNull "total_watch_minutes"
                         "gpt-4o-mini" (Some ["gpt-4o"])
                         (ai_layer.Return sample_summary))) H).
Defined.

Lemma two_reviews_well_formed : well_formed_db two_reviews.
Proof.
  unfold well_formed_db, two_reviews, well_formed. cbn.
  split; [| split; [| lia]]; repeat (constructor; try (cbn; lia)).
Qed.

Lemma save_review_appends_witness :
  exists db',
    feedback_store.save_review two_reviews "2024-01-03T09:00:00" 4 "  Nice  "
      = feedback_store.Done db' /\
    well_formed_db db' /\
    exists new,
      stored db' = stored two_reviews ++ [new] /\
      shown new = ("2024-01-03T09:00:00", 4, strip "  Nice  ") /\
      forall r, In r (stored two_reviews) ->
                feedback_store.id r < feedback_store.id new.
Proof.
  eexists. split; [reflexivity |].
  exact (save_review_appends two_reviews _ "2024-01-03T09:00:00" 4 "  Nice  "
           two_reviews_well_formed eq_refl).
Defined.

Lemma save_review_fails_iff_witness :
  feedback_store.save_review two_reviews "2024-01-03T09:00:00"
    9223372036854775808 "Nice"
    = feedback_store.Failed feedback_store.OverflowError /\
  exists db',
    feedback_store.save_review two_reviews "2024-01-03T09:00:00" 7 "Nice"
      = feedback_store.Done db'.
Proof.
  split.
  - apply (proj2 (proj1 (save_review_fails_iff two_reviews
                           "2024-01-03T09:00:00" 9223372036854775808 "Nice")
                    feedback_store.OverflowError)).
    right. eexists. split; [reflexivity |]. left. split; reflexivity.
  - refine (proj2 (save_review_fails_iff two_reviews "2024-01-03T09:00:00" 7
                     "Nice") _ eq_refl _ _).
    + unfold feedback_store.min_int64, feedback_store.max_int64. lia.
    + cbn. unfold feedback_store.max_int64. lia.
Defined.

Lemma get_recent_reviews_newest_first_witness :
  exists rows,
    feedback_store.get_recent_reviews two_reviews 1
      = feedback_store.Done rows /\
    (1 < 0 -> rows = map shown (rev (stored two_reviews))) /\
    (0 <= 1 ->
     rows = map shown (firstn (Z.to_nat 1) (rev (stored two_reviews))) /\
     Z.of_nat (List.length rows) <= 1).
Proof.
  refine (get_recent_reviews_newest_first two_reviews 1
            two_reviews_well_formed _ _).
  - discriminate.
  - unfold feedback_store.min_int64, feedback_store.max_int64. lia.
Defined.

Lemma saved_review_is_listed_first_witness :
  exists db' before,
    feedback_store.save_review two_reviews "2024-01-03T09:00:00" 4 "  Nice  "
      = feedback_store.Done db' /\
    feedback_store.get_recent_reviews two_reviews (8 - 1)
      = feedback_store.Done before /\
    feedback_store.get_recent_reviews db' 8
    = feedback_store.Done
        (("2024-01-03T09:00:00", 4, strip "  Nice  ") :: before).
Proof.
  eexists. eexists. split; [reflexivity |]. split; [reflexivity |].
  refine (saved_review_is_listed_first two_reviews _ "2024-01-03T09:00:00" 4
            "  Nice  " 8 _ two_reviews_well_formed eq_refl _ eq_refl).
  unfold feedback_store.max_int64. lia.
Defined.

Lemma init_db_keeps_reviews_witness :
  stored (feedback_store.init_db two_reviews) = stored two_reviews /\
  feedback_store.init_db (feedback_store.init_db None)
    = feedback_store.init_db None /\
  feedback_store.init_db two_reviews = two_reviews.
Proof.
  split; [exact (proj1 (init_db_keeps_reviews two_reviews)) |].
  split; [exact (proj1 (proj2 (init_db_keeps_reviews None))) |].
  apply (proj1 (proj2 (proj2 (init_db_keeps_reviews two_reviews)))).
  discriminate.
Defined.

Lemma review_tab_saves_non_blank_comments_witness :
  review_tab.run two_reviews "2024-01-03T09:00:00" true 4 "  Nice  "
    <> feedback_store.Failed feedback_store.NoSuchTable /\
  (forall db' rows,
     review_tab.run two_reviews "2024-01-03T09:00:00" true 4 "  Nice  "
       = feedback_store.Done (db', rows) ->
     well_formed_db db' /\
     (List.length rows <= 8)%nat /\
     (true = true -> strip "  Nice  " <> EmptyString ->
      exists new rest a b,
        stored db' = stored two_reviews ++ [new] /\
        rows = ("2024-01-03T09:00:00", 4, strip "  Nice  ") :: rest /\
        feedback_store.comment new = strip "  Nice  " /\
        first_char (feedback_store.comment new) = Some a /\
        is_space a = false /\
        last_char (feedback_store.comment new) = Some b /\
        is_space b = false) /\
     (true = false \/ strip "  Nice  " = EmptyString ->
      stored db' = stored two_reviews)) /\
  (1 <= 4 <= 5 ->
   (forall t, two_reviews = Some t ->
              feedback_store.sequence t <> feedback_store.max_int64) ->
   exists db' rows,
     review_tab.run two_reviews "2024-01-03T09:00:00" true 4 "  Nice  "
       = feedback_store.Done (db', rows)).
Proof.
  exact (review_tab_saves_non_blank_comments two_reviews
           "2024-01-03T09:00:00" true 4 "  Nice  " two_reviews_well_formed).
Defined.

Lemma safe_pct_change_inverts_witness :
  (Qc_of_Z 800 + Qc_of_Z 800 * Qc_of_Z 25 / hundred)%Qc = Qc_of_Z 1000 /\
  ((0 < Qc_of_Z 800)%Qc ->
   ((0 <= Qc_of_Z 25)%Qc <-> (Qc_of_Z 800 <= Qc_of_Z 1000)%Qc)).
Proof.
  exact (safe_pct_change_inverts (Qc_of_Z 1000) (Qc_of_Z 800) (Qc_of_Z 25)
           (proj1 scenario_A)).
Defined.

Lemma genre_selection_has_one_genre_witness :
  exists cur a minutes,
    dashboard.filtered_df days_9_10 10 10 "Drama" = Ok cur /\
    has_column cur "genre_primary" = true /\
    (forall r, In r (rows cur) -> get r "genre_primary" = Str "Drama") /\
    _period_aggregates cur = Ok a /\
    top_genres a = [(Str "Drama", minutes)] /\
    round2 minutes = total_watch_minutes a.
Proof.
  destruct (dashboard.filtered_df days_9_10 10 10 "Drama") as [cur | x] eqn:Ec;
    [| exfalso; vm_compute in Ec; discriminate Ec].
  assert (Hg : "Drama" <> "All") by discriminate.
  destruct (proj1 genre_selection_has_one_genre days_9_10 cur 10 10 "Drama"
              Hg Ec) as [Hc Hr].
  assert (Hne : rows cur <> []).
  { pose proof Ec as Ec'. vm_compute in Ec'. injection Ec' as <-.
    discriminate. }
  destruct (_period_aggregates cur) as [a | x] eqn:Ea.
  - destruct (proj2 genre_selection_has_one_genre cur "Drama" a Hc Hr Hne Ea)
      as (minutes & Ht & Hm).
    exists cur, a, minutes. repeat split; assumption.
  - exfalso. pose proof Ec as Ec'. vm_compute in Ec'. injection Ec' as <-.
    vm_compute in Ea. discriminate Ea.
Defined.
